(** * Policy-document search and analytics (backend/app/policy)

    A shallow embedding of [backend/app/policy/routers.py] together with the
    table, relationship and payload declarations of [models.py] and
    [schemas.py] it uses.

    Conventions of the embedding.
    - A table is the list of its rows in storage order; [Query.first] is the
      first row of the list that passes the filter, [Query.all] the filtered
      list, [offset]/[limit] are [skipn]/[firstn].
    - Every handler takes the declarative mapping of models.py as its first
      argument.  The first [db.query] of a request configures the mappers
      and raises when a relationship has no unique join condition.  [models]
      is the mapping as models.py declares it: its configuration fails
      ([PolicyDocument.citations] names no [foreign_keys] while
      [policy_citations] holds two foreign keys to [policy_documents]), so
      with [models] a request gets past a role check at most.  The handler
      bodies are embedded in full, and the properties are stated for every
      mapping.
    - Python integers are [Z].  An INTEGER column is a MySQL INT (the
      configured [database_url] is MySQL): in the server's default strict
      mode a value above 2147483647 is refused and the request fails.
    - A stored timestamp and [datetime.now()] are naive: the number of
      microseconds since the epoch of the wall clock.  A [datetime] parsed
      from a request may carry a UTC offset; the database driver stores and
      compares its wall-clock fields, Python arithmetic honours the offset.
      [date()] and [timedelta.days] are floor divisions by the length of a
      day.
    - A nullable column is an [option]; SQL comparisons with NULL are not
      true.  The columns that carry a default and that no handler can set
      to NULL ([version], [language], [view_count], [created_at], the
      counters of an analytics row) are taken to hold a value.
    - A handler returns its result (or the exception it raises) and the
      store after the request.  A request that raises inside the handler
      body commits nothing.  The [response_model] of the route is checked
      after the body has returned, that is after its [commit]: when that
      check fails the request raises and the store has changed.
    - A float written as a literal is kept as the decimal it is written as
      ([Q]); a float obtained by [/] is the IEEE 754 double that CPython
      computes, the quotient rounded to nearest ([SpecFloat], binary64).
    - [ilike] is SQL LIKE over ASCII case folding, with the wildcards [%] and
      [_] and the backslash escape that MySQL and PostgreSQL use by default.
    - SQL text equality is exact string equality (a binary collation).
    - The clock does not advance inside one request, and rows added during a
      request are visible to its later queries.
    - An autogenerated key is one more than the largest key of the table.
    - Text is taken to fit its column: length limits are outside the
      embedding. *)

From Stdlib Require Import ZArith List String Ascii Bool Lia QArith.
From Stdlib Require Import DecimalString SpecFloat.
From Stdlib Require Import Sorted Permutation.
Import ListNotations.

Local Open Scope string_scope.
Local Open Scope list_scope.
Local Open Scope Z_scope.

(** ** Exceptions *)

(** Why the mappers fail to configure: a relationship with several
    candidate foreign keys ([AmbiguousForeignKeysError]) or with none
    ([NoForeignKeysError]).  The request that triggers the configuration
    gets this error; every later one gets an [InvalidRequestError] that
    quotes it. *)
Inductive mapper_failure :=
| AmbiguousForeignKeys (relationship : string)
| NoForeignKeys (relationship : string).

Inductive exn :=
| HTTPException (status_code : Z) (detail : string)
| TypeError (msg : string)
| ZeroDivisionError
| OverflowError (msg : string)
| ValidationError (field : string)
| ResponseValidationError (model : string)
| DatabaseError (msg : string)
| MapperConfigurationError (failure : mapper_failure).

Definition HTTP_400_BAD_REQUEST : Z := 400.
Definition HTTP_403_FORBIDDEN : Z := 403.
Definition HTTP_404_NOT_FOUND : Z := 404.

Inductive result (A : Type) :=
| Ok (a : A)
| Raise (e : exn).
Arguments Ok {A} a.
Arguments Raise {A} e.

Definition bind {A B} (r : result A) (k : A -> result B) : result B :=
  match r with
  | Ok a => k a
  | Raise e => Raise e
  end.

Notation "x <- r ;; k" := (bind r (fun x => k))
  (at level 61, r at next level, right associativity).

(** A loop whose body may raise. *)
Fixpoint for_each {A B} (body : B -> A -> result B) (l : list A) (acc : B)
  : result B :=
  match l with
  | [] => Ok acc
  | x :: rest => acc' <- body acc x ;; for_each body rest acc'
  end.

(** ** Time *)

Definition datetime := Z.
Definition date := Z.

Definition us_per_day : Z := 86400000000.

(** [datetime.date()] / SQL [DATE(col)]: the calendar day of a timestamp. *)
Definition date_of (t : datetime) : date := t / us_per_day.

(** The two clocks a request reads: [datetime.now()] of the application and
    [func.now()] of the database server. *)
Record Clock := mkClock { datetime_now : datetime; func_now : datetime }.

(** A [datetime] parsed from the request: the reading of its wall-clock
    fields and, when the text carried one (["Z"], ["+02:00"]), its UTC
    offset in microseconds. *)
Record datetime_tz := mkDatetime { wall : datetime; utcoffset : option Z }.

Definition naive (t : datetime) : datetime_tz := mkDatetime t None.

(** [later - earlier] on two [datetime] objects, in microseconds: the
    difference of the wall clocks of two naive values, of the instants of
    two aware ones; mixing the two kinds is an error. *)
Definition datetime_sub (later earlier : datetime_tz) : result Z :=
  match utcoffset later, utcoffset earlier with
  | None, None => Ok (wall later - wall earlier)
  | Some o, Some o' => Ok ((wall later - o) - (wall earlier - o'))
  | _, _ => Raise (TypeError "can't subtract offset-naive and offset-aware datetimes")
  end.

(** [timedelta.days]: Python normalises a timedelta so that the seconds and
    microseconds are non-negative, hence the floor. *)
Definition timedelta_days (delta : Z) : Z := delta / us_per_day.

(** ** Integers and floats *)

(** The range of a MySQL INT column. *)
Definition INT_MAX : Z := 2147483647.
Definition INT_MIN : Z := -2147483648.

Definition fits (n : Z) : bool := (INT_MIN <=? n) && (n <=? INT_MAX).

Definition out_of_range : exn := DatabaseError "Out of range value".

(** The exact conversion of an integer, as the operand of a division. *)
Definition float_of_int (n : Z) : spec_float :=
  match n with
  | Z0 => S754_zero false
  | Zpos p => S754_finite false p 0
  | Zneg p => S754_finite true p 0
  end.

(** Python [/] on two integers: the quotient, correctly rounded to a
    double. *)
Definition true_div (a b : Z) : result spec_float :=
  if b =? 0 then Raise ZeroDivisionError
  else
    match SFdiv 53 1024 (float_of_int a) (float_of_int b) with
    | S754_infinity _ =>
        Raise (OverflowError "integer division result too large for a float")
    | q => Ok q
    end.

(** The double [1.0]. *)
Definition float_one : spec_float := S754_finite false 4503599627370496 (-52).

(** ** Query helpers *)

(** [Query.first()] *)
Definition first {A} (p : A -> bool) (rows : list A) : option A := find p rows.

(** Attribute assignment on the object returned by [first()]: the first row
    that passes [p] is replaced, every other row is kept. *)
Fixpoint update_first {A} (p : A -> bool) (f : A -> A) (rows : list A) : list A :=
  match rows with
  | [] => []
  | r :: rest => if p r then f r :: rest else r :: update_first p f rest
  end.

(** [.offset(skip).limit(limit).all()]; a negative OFFSET or LIMIT is
    rejected by the database. *)
Definition offset_limit {A} (skip limit : Z) (rows : list A) : result (list A) :=
  if (skip <? 0) || (limit <? 0)
  then Raise (DatabaseError "negative OFFSET or LIMIT")
  else Ok (firstn (Z.to_nat limit) (skipn (Z.to_nat skip) rows)).

(** [if param:] on an [Optional[str]]: [None] and the empty string are falsy. *)
Definition truthy (param : option string) : option string :=
  match param with
  | Some EmptyString => None
  | other => other
  end.

(** SQL [col = value] on a nullable text column. *)
Definition sql_eq (col : option string) (value : string) : bool :=
  match col with
  | Some v => String.eqb v value
  | None => false
  end.

(** SQL [col = true] on a nullable boolean column, and Python truthiness of
    the loaded attribute. *)
Definition is_true (col : option bool) : bool :=
  match col with
  | Some b => b
  | None => false
  end.

(** ** LIKE *)

Definition lower_ascii (c : ascii) : ascii :=
  let n := nat_of_ascii c in
  if ((65 <=? n) && (n <=? 90))%nat then ascii_of_nat (n + 32) else c.

Definition lower (s : string) : list ascii :=
  map lower_ascii (list_ascii_of_string s).

Definition match_one (like_rest : list ascii -> bool) (c : ascii)
  (s : list ascii) : bool :=
  match s with
  | [] => false
  | x :: s' => Ascii.eqb x c && like_rest s'
  end.

(** [like pattern subject]: [%] matches any run of characters, [_] one
    character, a backslash makes the next pattern character literal (a
    trailing backslash stands for itself). *)
Fixpoint like (p : list ascii) : list ascii -> bool :=
  match p with
  | [] => fun s => match s with [] => true | _ :: _ => false end
  | c :: p' =>
      if Ascii.eqb c "%"%char then
        fix star (s : list ascii) : bool :=
          like p' s || match s with [] => false | _ :: s' => star s' end
      else if Ascii.eqb c "_"%char then
        fun s => match s with [] => false | _ :: s' => like p' s' end
      else if Ascii.eqb c "\"%char then
        match p' with
        | [] => match_one (like p') c
        | e :: p'' => match_one (like p'') e
        end
      else match_one (like p') c
  end.

(** [column.ilike(pattern)], rendered [lower(column) LIKE lower(pattern)]. *)
Definition ilike (column pattern : string) : bool :=
  like (lower pattern) (lower column).

(** [column.ilike(f"%{query}%")] *)
Definition ilike_contains (column query : string) : bool :=
  ilike column ("%" ++ query ++ "%")%string.

(** On a nullable column a NULL never matches. *)
Definition ilike_contains_opt (column : option string) (query : string) : bool :=
  match column with
  | Some c => ilike_contains c query
  | None => false
  end.

(** Case-insensitive substring, as the specification words it: the query,
    ASCII case folded, occurs at some position of the folded text. *)
Fixpoint iprefix (q s : list ascii) : bool :=
  match q, s with
  | [], _ => true
  | _ :: _, [] => false
  | c :: q', x :: s' => Ascii.eqb (lower_ascii x) (lower_ascii c) && iprefix q' s'
  end.

Fixpoint ioccurs (q s : list ascii) : bool :=
  iprefix q s || match s with [] => false | _ :: s' => ioccurs q s' end.

Definition icontains (text query : string) : bool :=
  ioccurs (list_ascii_of_string query) (list_ascii_of_string text).

Definition has_backslash (query : string) : bool :=
  existsb (fun c => Ascii.eqb c "\"%char) (list_ascii_of_string query).

(** ** Mapper configuration (models.py)

    SQLAlchemy configures all mappers at the first use of a mapped class.
    For each [relationship()] it collects the foreign keys that link the
    table of the declaring class and the table of the target, in either
    direction; when [foreign_keys=] is given, only the named columns
    count.  Exactly one candidate must be left. *)

Record ForeignKey := mkForeignKey {
  fk_table : string;
  fk_column : string;
  fk_references : string
}.

Record Relationship := mkRelationship {
  rel_name : string;
  rel_table : string;
  rel_target : string;
  rel_foreign_keys : option (list (string * string))
}.

Record Mapping := mkMapping {
  foreign_keys : list ForeignKey;
  relationships : list Relationship
}.

Definition links (r : Relationship) (fk : ForeignKey) : bool :=
  (String.eqb (fk_table fk) (rel_table r) && String.eqb (fk_references fk) (rel_target r))
  || (String.eqb (fk_table fk) (rel_target r) && String.eqb (fk_references fk) (rel_table r)).

Definition named (r : Relationship) (fk : ForeignKey) : bool :=
  match rel_foreign_keys r with
  | None => true
  | Some columns =>
      existsb (fun c => String.eqb (fst c) (fk_table fk)
                        && String.eqb (snd c) (fk_column fk)) columns
  end.

Definition join_candidates (m : Mapping) (r : Relationship) : list ForeignKey :=
  filter (fun fk => links r fk && named r fk) (foreign_keys m).

Definition configure_relationship (m : Mapping) (r : Relationship) : result unit :=
  match join_candidates m r with
  | [] => Raise (MapperConfigurationError (NoForeignKeys (rel_name r)))
  | [_] => Ok tt
  | _ :: _ :: _ => Raise (MapperConfigurationError (AmbiguousForeignKeys (rel_name r)))
  end.

Definition configure_mappers (m : Mapping) : result unit :=
  for_each (fun _ r => configure_relationship m r) (relationships m) tt.

(** The [ForeignKey(...)] columns of models.py. *)
Definition policy_foreign_keys : list ForeignKey :=
  [ mkForeignKey "policy_documents" "created_by" "users";
    mkForeignKey "policy_documents" "reviewed_by" "users";
    mkForeignKey "policy_amendments" "policy_document_id" "policy_documents";
    mkForeignKey "policy_amendments" "proposed_by" "users";
    mkForeignKey "policy_amendments" "approved_by" "users";
    mkForeignKey "policy_comments" "policy_document_id" "policy_documents";
    mkForeignKey "policy_comments" "commenter_id" "users";
    mkForeignKey "policy_comments" "responded_by" "users";
    mkForeignKey "policy_citations" "citing_document_id" "policy_documents";
    mkForeignKey "policy_citations" "cited_document_id" "policy_documents";
    mkForeignKey "policy_analytics" "policy_document_id" "policy_documents" ].

(** [PolicyDocument.citations], as declared: no [foreign_keys]. *)
Definition citations : Relationship :=
  mkRelationship "PolicyDocument.citations" "policy_documents" "policy_citations" None.

(** The [relationship(...)] attributes of models.py other than
    [PolicyDocument.citations], in the order of the file. *)
Definition relationships_before_citations : list Relationship :=
  [ mkRelationship "PolicyDocument.creator" "policy_documents" "users"
      (Some [("policy_documents", "created_by")]);
    mkRelationship "PolicyDocument.reviewer" "policy_documents" "users"
      (Some [("policy_documents", "reviewed_by")]);
    mkRelationship "PolicyDocument.amendments" "policy_documents" "policy_amendments"
      None;
    mkRelationship "PolicyDocument.comments" "policy_documents" "policy_comments"
      None ].

Definition relationships_after_citations : list Relationship :=
  [ mkRelationship "PolicyAmendment.policy_document" "policy_amendments"
      "policy_documents" None;
    mkRelationship "PolicyAmendment.proposer" "policy_amendments" "users"
      (Some [("policy_amendments", "proposed_by")]);
    mkRelationship "PolicyAmendment.approver" "policy_amendments" "users"
      (Some [("policy_amendments", "approved_by")]);
    mkRelationship "PolicyComment.policy_document" "policy_comments"
      "policy_documents" None;
    mkRelationship "PolicyComment.commenter" "policy_comments" "users"
      (Some [("policy_comments", "commenter_id")]);
    mkRelationship "PolicyComment.responder" "policy_comments" "users"
      (Some [("policy_comments", "responded_by")]);
    mkRelationship "PolicyCitation.citing_document" "policy_citations"
      "policy_documents" (Some [("policy_citations", "citing_document_id")]);
    mkRelationship "PolicyCitation.cited_document" "policy_citations"
      "policy_documents" (Some [("policy_citations", "cited_document_id")]);
    mkRelationship "PolicyAnalytics.policy_document" "policy_analytics"
      "policy_documents" None ].

(** The mapping that models.py declares. *)
Definition models : Mapping :=
  mkMapping policy_foreign_keys
    (relationships_before_citations ++ [citations] ++ relationships_after_citations).

(** ** Tables (models.py) *)

(** The caller principal that [get_current_user] supplies; the policy module
    reads its [id] and [role] only.  A role outside the two listed ones
    (also a NULL one) behaves like ["citizen"]. *)
Module User.
Record t := mk { id : Z; role : string }.
End User.

Module PolicyDocument.
Record t := mk {
  id : Z;
  title : string;
  document_number : string;
  document_type : string;
  category : string;
  department : string;
  summary : string;
  content : string;
  keywords : option string;
  effective_date : datetime;
  expiry_date : option datetime;
  status : option string;
  version : string;
  language : string;
  file_url : option string;
  created_by : Z;
  reviewed_by : option Z;
  is_public : option bool;
  view_count : Z;
  created_at : datetime;
  updated_at : option datetime
}.

Definition set_view_count (v : Z) (d : t) : t :=
  mk (id d) (title d) (document_number d) (document_type d) (category d)
     (department d) (summary d) (content d) (keywords d) (effective_date d)
     (expiry_date d) (status d) (version d) (language d) (file_url d)
     (created_by d) (reviewed_by d) (is_public d) v
     (created_at d) (updated_at d).

Definition set_updated_at (v : option datetime) (d : t) : t :=
  mk (id d) (title d) (document_number d) (document_type d) (category d)
     (department d) (summary d) (content d) (keywords d) (effective_date d)
     (expiry_date d) (status d) (version d) (language d) (file_url d)
     (created_by d) (reviewed_by d) (is_public d) (view_count d)
     (created_at d) v.
End PolicyDocument.

Module PolicyComment.
Record t := mk {
  id : Z;
  policy_document_id : Z;
  comment_text : string;
  comment_type : option string;
  is_public : option bool;
  commenter_id : Z;
  response : option string;
  responded_by : option Z;
  created_at : datetime
}.
End PolicyComment.

Module PolicyAnalytics.
Record t := mk {
  id : Z;
  policy_document_id : Z;
  analytics_date : datetime;
  views : Z;
  downloads : Z;
  comments_count : Z;
  citations_count : Z;
  search_appearances : Z
}.
End PolicyAnalytics.

(** The store.  The amendment and citation tables are declared in models.py
    but no handler of routers.py reads or writes them. *)
Record DB := mkDB {
  policy_documents : list PolicyDocument.t;
  policy_comments : list PolicyComment.t;
  policy_analytics : list PolicyAnalytics.t
}.

Definition set_policy_documents (docs : list PolicyDocument.t) (db : DB) : DB :=
  mkDB docs (policy_comments db) (policy_analytics db).

Definition set_policy_analytics (rows : list PolicyAnalytics.t) (db : DB) : DB :=
  mkDB (policy_documents db) (policy_comments db) rows.

(** An autogenerated primary key: one more than the largest key in use. *)
Definition next_id (ids : list Z) : Z := 1 + fold_right Z.max 0 ids.

(** The first [db.query(...)] of a handler: when the mappers do not
    configure, the exception leaves the handler there and nothing is
    written. *)
Definition on_first_query {A} (m : Mapping) (db : DB) (body : result A * DB)
  : result A * DB :=
  match configure_mappers m with
  | Ok _ => body
  | Raise e => (Raise e, db)
  end.

(** ** Payloads (schemas.py) *)

Module PolicyDocumentCreate.
Record t := mk {
  title : string;
  document_number : string;
  document_type : string;
  category : string;
  department : string;
  summary : string;
  content : string;
  keywords : option string;
  effective_date : datetime_tz;
  expiry_date : option datetime_tz;
  version : string;
  language : string;
  file_url : option string;
  is_public : bool
}.
End PolicyDocumentCreate.

(** [PolicyDocumentUpdate]: every field is optional.  The outer [option]
    says whether the field was supplied ([dict(exclude_unset=True)] keeps
    exactly the supplied ones), the inner one whether the supplied value
    is [null].  [view_count] is not a field of this schema. *)
Module PolicyDocumentUpdate.
Record t := mk {
  title : option (option string);
  summary : option (option string);
  content : option (option string);
  keywords : option (option string);
  expiry_date : option (option datetime_tz);
  status : option (option string);
  file_url : option (option string);
  is_public : option (option bool)
}.
End PolicyDocumentUpdate.

Module PolicyCommentCreate.
Record t := mk {
  comment_text : string;
  comment_type : string;
  is_public : bool;
  policy_document_id : Z
}.
End PolicyCommentCreate.

Module PolicySearchResult.
Record t := mk {
  id : Z;
  title : string;
  document_number : string;
  document_type : string;
  category : string;
  department : string;
  summary : string;
  effective_date : datetime;
  status : string;
  relevance_score : option Q
}.
End PolicySearchResult.

Module PolicyStats.
Record t := mk {
  total_documents : Z;
  active_documents : Z;
  draft_documents : Z;
  documents_by_type : list (string * Z);
  documents_by_category : list (string * Z);
  documents_by_department : list (string * Z);
  recent_documents : Z;
  total_views : Z;
  total_comments : Z
}.
End PolicyStats.

Module PolicyAnalyticsReport.
Record t := mk {
  policy_id : Z;
  policy_title : string;
  period_start : datetime_tz;
  period_end : datetime_tz;
  total_views : Z;
  total_downloads : Z;
  total_comments : Z;
  total_citations : Z;
  search_appearances : Z;
  engagement_score : spec_float;
  trending_keywords : list string
}.
End PolicyAnalyticsReport.

Module PolicyRecommendation.
Record t := mk {
  policy_id : Z;
  title : string;
  reason : string;
  confidence_score : spec_float;
  category : string
}.
End PolicyRecommendation.

(** [response_model=PolicyDocumentResponse]: the schema declares
    [status: str] and [is_public: bool], so a row that holds NULL in one of
    the two does not validate. *)
Definition serialisable (d : PolicyDocument.t) : bool :=
  match PolicyDocument.status d, PolicyDocument.is_public d with
  | Some _, Some _ => true
  | _, _ => false
  end.

Definition PolicyDocumentResponse (d : PolicyDocument.t) : result PolicyDocument.t :=
  if serialisable d then Ok d
  else Raise (ResponseValidationError "PolicyDocumentResponse").

(** [response_model=List[PolicyDocumentResponse]] *)
Definition PolicyDocumentResponses (ds : list PolicyDocument.t)
  : result (list PolicyDocument.t) :=
  if forallb serialisable ds then Ok ds
  else Raise (ResponseValidationError "PolicyDocumentResponse").

(** [response_model=List[PolicyCommentResponse]]: [comment_type: str] and
    [is_public: bool]. *)
Definition serialisable_comment (c : PolicyComment.t) : bool :=
  match PolicyComment.comment_type c, PolicyComment.is_public c with
  | Some _, Some _ => true
  | _, _ => false
  end.

Definition PolicyCommentResponses (cs : list PolicyComment.t)
  : result (list PolicyComment.t) :=
  if forallb serialisable_comment cs then Ok cs
  else Raise (ResponseValidationError "PolicyCommentResponse").

(** ** Daily analytics rows

    Three handlers carry the same inline block: look up the row of
    (document, today), increment one counter of it, or add a row whose
    counter is 1 and whose other counters take the column default 0.  The
    write fails when the incremented counter or the new key leaves the
    range of the column. *)

Inductive counter := Views | CommentsCount | SearchAppearances.

(** [PolicyAnalytics.policy_document_id == document_id,
     func.date(PolicyAnalytics.analytics_date) == today] *)
Definition row_of_day (document_id : Z) (today : date)
  (a : PolicyAnalytics.t) : bool :=
  (PolicyAnalytics.policy_document_id a =? document_id)
  && (date_of (PolicyAnalytics.analytics_date a) =? today).

Definition counter_value (c : counter) (a : PolicyAnalytics.t) : Z :=
  match c with
  | Views => PolicyAnalytics.views a
  | CommentsCount => PolicyAnalytics.comments_count a
  | SearchAppearances => PolicyAnalytics.search_appearances a
  end.

Definition increment (c : counter) (a : PolicyAnalytics.t) : PolicyAnalytics.t :=
  let '(PolicyAnalytics.mk i d t v dl cm ci sa) := a in
  match c with
  | Views => PolicyAnalytics.mk i d t (v + 1) dl cm ci sa
  | CommentsCount => PolicyAnalytics.mk i d t v dl (cm + 1) ci sa
  | SearchAppearances => PolicyAnalytics.mk i d t v dl cm ci (sa + 1)
  end.

Definition new_row (c : counter) (row_id document_id : Z) (now : datetime)
  : PolicyAnalytics.t :=
  match c with
  | Views => PolicyAnalytics.mk row_id document_id now 1 0 0 0 0
  | CommentsCount => PolicyAnalytics.mk row_id document_id now 0 0 1 0 0
  | SearchAppearances => PolicyAnalytics.mk row_id document_id now 0 0 0 0 1
  end.

Definition record_event (c : counter) (document_id : Z) (clk : Clock)
  (rows : list PolicyAnalytics.t) : result (list PolicyAnalytics.t) :=
  let today := date_of (datetime_now clk) in
  match first (row_of_day document_id today) rows with
  | Some analytics =>
      if fits (counter_value c analytics + 1)
      then Ok (update_first (row_of_day document_id today) (increment c) rows)
      else Raise out_of_range
  | None =>
      let row_id := next_id (map PolicyAnalytics.id rows) in
      if fits row_id
      then Ok (rows ++ [new_row c row_id document_id (datetime_now clk)])
      else Raise out_of_range
  end.

(** ** GET /documents/search *)

Definition filter_eq (param : option string)
  (col : PolicyDocument.t -> option string)
  (rows : list PolicyDocument.t) : list PolicyDocument.t :=
  match truthy param with
  | Some v => filter (fun d => sql_eq (col d) v) rows
  | None => rows
  end.

Definition base_query (document_type category department status : option string)
  (docs : list PolicyDocument.t) : list PolicyDocument.t :=
  let q := filter (fun d => is_true (PolicyDocument.is_public d)) docs in
  let q := filter_eq status PolicyDocument.status q in
  let q := filter_eq document_type (fun d => Some (PolicyDocument.document_type d)) q in
  let q := filter_eq category (fun d => Some (PolicyDocument.category d)) q in
  filter_eq department (fun d => Some (PolicyDocument.department d)) q.

Definition title_ilike (query : string) (d : PolicyDocument.t) : bool :=
  ilike_contains (PolicyDocument.title d) query.
Definition summary_ilike (query : string) (d : PolicyDocument.t) : bool :=
  ilike_contains (PolicyDocument.summary d) query.
Definition content_ilike (query : string) (d : PolicyDocument.t) : bool :=
  ilike_contains (PolicyDocument.content d) query.
Definition keywords_ilike (query : string) (d : PolicyDocument.t) : bool :=
  ilike_contains_opt (PolicyDocument.keywords d) query.
Definition document_number_ilike (query : string) (d : PolicyDocument.t) : bool :=
  ilike_contains (PolicyDocument.document_number d) query.

Definition search_query (query : string)
  (document_type category department status : option string)
  (docs : list PolicyDocument.t) : list PolicyDocument.t :=
  filter (fun d => title_ilike query d || summary_ilike query d
                   || content_ilike query d || keywords_ilike query d
                   || document_number_ilike query d)
         (base_query document_type category department status docs).

Definition title_matches (query : string)
  (document_type category department status : option string)
  (docs : list PolicyDocument.t) : list PolicyDocument.t :=
  filter (title_ilike query)
         (search_query query document_type category department status docs).

Definition summary_matches (query : string)
  (document_type category department status : option string)
  (docs : list PolicyDocument.t) : list PolicyDocument.t :=
  filter (fun d => summary_ilike query d && negb (title_ilike query d))
         (search_query query document_type category department status docs).

Definition content_matches (query : string)
  (document_type category department status : option string)
  (docs : list PolicyDocument.t) : list PolicyDocument.t :=
  filter (fun d => content_ilike query d && negb (title_ilike query d)
                   && negb (summary_ilike query d))
         (search_query query document_type category department status docs).

(** [PolicySearchResult(id=doc.id, ..., relevance_score=score)]; [status] is
    a required [str] of the schema, so a NULL status fails validation. *)
Definition make_result (score : Q) (doc : PolicyDocument.t)
  : result PolicySearchResult.t :=
  match PolicyDocument.status doc with
  | Some st =>
      Ok (PolicySearchResult.mk (PolicyDocument.id doc) (PolicyDocument.title doc)
            (PolicyDocument.document_number doc) (PolicyDocument.document_type doc)
            (PolicyDocument.category doc) (PolicyDocument.department doc)
            (PolicyDocument.summary doc) (PolicyDocument.effective_date doc)
            st (Some score))
  | None => Raise (ValidationError "status")
  end.

(** One [for doc in ...: results.append(...)] loop. *)
Fixpoint append_results (score : Q) (docs : list PolicyDocument.t)
  (results : list PolicySearchResult.t) : result (list PolicySearchResult.t) :=
  match docs with
  | [] => Ok results
  | doc :: rest =>
      r <- make_result score doc ;;
      append_results score rest (results ++ [r])
  end.

Definition len {A} (l : list A) : Z := Z.of_nat (List.length l).

Definition score_title : Q := 1.
Definition score_summary : Q := 7 # 10.
Definition score_content : Q := 1 # 2.

(** The result list, before the analytics pass. *)
Definition search_results (query : string) (skip limit : Z)
  (document_type category department status : option string)
  (docs : list PolicyDocument.t) : result (list PolicySearchResult.t) :=
  rows <- offset_limit skip limit
            (title_matches query document_type category department status docs) ;;
  results <- append_results score_title rows [] ;;
  let remaining_limit := limit - len results in
  results <-
    (if remaining_limit >? 0
     then append_results score_summary
            (firstn (Z.to_nat remaining_limit)
               (summary_matches query document_type category department status docs))
            results
     else Ok results) ;;
  let remaining_limit := limit - len results in
  if remaining_limit >? 0
  then append_results score_content
         (firstn (Z.to_nat remaining_limit)
            (content_matches query document_type category department status docs))
         results
  else Ok results.

(** The analytics pass: one event per entry of the result list. *)
Definition record_appearances (results : list PolicySearchResult.t) (clk : Clock)
  (rows : list PolicyAnalytics.t) : result (list PolicyAnalytics.t) :=
  for_each (fun rows r =>
              record_event SearchAppearances (PolicySearchResult.id r) clk rows)
           results rows.

Definition search_policy_documents (m : Mapping) (query : string) (skip limit : Z)
  (document_type category department status : option string)
  (clk : Clock) (db : DB) : result (list PolicySearchResult.t) * DB :=
  on_first_query m db
    match search_results query skip limit document_type category department status
            (policy_documents db) with
    | Raise e => (Raise e, db)
    | Ok results =>
        match record_appearances results clk (policy_analytics db) with
        | Raise e => (Raise e, db)
        | Ok rows => (Ok results, set_policy_analytics rows db)
        end
    end.

(** The query string of the request as the caller sent it, and the handler
    called with the declared defaults ([skip = 0], [limit = 100],
    [status = "active"]) for the parameters the caller left out. *)
Record SearchParams := mkSearchParams {
  param_query : string;
  param_skip : option Z;
  param_limit : option Z;
  param_document_type : option string;
  param_category : option string;
  param_department : option string;
  param_status : option string
}.

Definition default {A} (d : A) (supplied : option A) : A :=
  match supplied with
  | Some v => v
  | None => d
  end.

Definition search_request (m : Mapping) (p : SearchParams) (clk : Clock) (db : DB)
  : result (list PolicySearchResult.t) * DB :=
  search_policy_documents m (param_query p)
    (default 0 (param_skip p)) (default 100 (param_limit p))
    (param_document_type p) (param_category p) (param_department p)
    (Some (default "active" (param_status p)))
    clk db.

(** ** Role checks *)

(** [current_user.role in ["admin", "government_official"]] *)
Definition elevated (u : User.t) : bool :=
  String.eqb (User.role u) "admin" || String.eqb (User.role u) "government_official".

Definition not_enough_permissions : exn :=
  HTTPException HTTP_403_FORBIDDEN "Not enough permissions".

Definition document_not_found : exn :=
  HTTPException HTTP_404_NOT_FOUND "Policy document not found".

(** [PolicyDocument.id == document_id] *)
Definition has_id (document_id : Z) (d : PolicyDocument.t) : bool :=
  PolicyDocument.id d =? document_id.

(** ** POST /documents *)

(** The row built from the fields of [document.dict()] and
    [created_by=current_user.id], after [commit] and [refresh]: the key is
    generated, [status] and [view_count] take their column defaults,
    [created_at] the server time, and the two dates are reloaded as the
    wall-clock values that were stored. *)
Definition new_document (document : PolicyDocumentCreate.t) (row_id creator : Z)
  (clk : Clock) : PolicyDocument.t :=
  PolicyDocument.mk row_id
    (PolicyDocumentCreate.title document)
    (PolicyDocumentCreate.document_number document)
    (PolicyDocumentCreate.document_type document)
    (PolicyDocumentCreate.category document)
    (PolicyDocumentCreate.department document)
    (PolicyDocumentCreate.summary document)
    (PolicyDocumentCreate.content document)
    (PolicyDocumentCreate.keywords document)
    (wall (PolicyDocumentCreate.effective_date document))
    (option_map wall (PolicyDocumentCreate.expiry_date document))
    (Some "active")
    (PolicyDocumentCreate.version document)
    (PolicyDocumentCreate.language document)
    (PolicyDocumentCreate.file_url document)
    creator
    None
    (Some (PolicyDocumentCreate.is_public document))
    0
    (func_now clk)
    None.

Definition document_number_exists : exn :=
  HTTPException HTTP_400_BAD_REQUEST "Document number already exists".

Definition create_policy_document (m : Mapping) (document : PolicyDocumentCreate.t)
  (current_user : User.t) (clk : Clock) (db : DB)
  : result PolicyDocument.t * DB :=
  if negb (elevated current_user) then (Raise not_enough_permissions, db)
  else
    on_first_query m db
      match first (fun d => String.eqb (PolicyDocument.document_number d)
                              (PolicyDocumentCreate.document_number document))
              (policy_documents db) with
      | Some _ => (Raise document_number_exists, db)
      | None =>
          let row_id := next_id (map PolicyDocument.id (policy_documents db)) in
          if fits row_id then
            let db_document :=
              new_document document row_id (User.id current_user) clk in
            (PolicyDocumentResponse db_document,
             set_policy_documents (policy_documents db ++ [db_document]) db)
          else (Raise out_of_range, db)
      end.

(** ** GET /documents *)

(** [order_by(desc(key))]: a stable insertion sort, largest key first. *)
Fixpoint insert_desc {A} (key : A -> Z) (x : A) (l : list A) : list A :=
  match l with
  | [] => [x]
  | y :: l' => if key y <=? key x then x :: l else y :: insert_desc key x l'
  end.

Definition order_by_desc {A} (key : A -> Z) (l : list A) : list A :=
  fold_right (insert_desc key) [] l.

Definition get_policy_documents (m : Mapping) (skip limit : Z)
  (document_type category department status : option string)
  (is_public : option bool) (db : DB) : result (list PolicyDocument.t) :=
  configured <- configure_mappers m ;;
  let query := policy_documents db in
  let query := filter_eq document_type (fun d => Some (PolicyDocument.document_type d)) query in
  let query := filter_eq category (fun d => Some (PolicyDocument.category d)) query in
  let query := filter_eq department (fun d => Some (PolicyDocument.department d)) query in
  let query := filter_eq status PolicyDocument.status query in
  let query :=
    match is_public with
    | Some b =>
        filter (fun d => match PolicyDocument.is_public d with
                         | Some v => Bool.eqb v b
                         | None => false
                         end) query
    | None => query
    end in
  documents <- offset_limit skip limit (order_by_desc PolicyDocument.created_at query) ;;
  PolicyDocumentResponses documents.

(** ** GET /documents/{document_id} *)

(** [document.view_count += 1], written by the commit together with the
    [onupdate] timestamp of the row. *)
Definition viewed (clk : Clock) (d : PolicyDocument.t) : PolicyDocument.t :=
  PolicyDocument.set_updated_at (Some (func_now clk))
    (PolicyDocument.set_view_count (PolicyDocument.view_count d + 1) d).

Definition document_is_not_public : exn :=
  HTTPException HTTP_403_FORBIDDEN "Document is not public".

Definition get_policy_document (m : Mapping) (document_id : Z) (clk : Clock) (db : DB)
  : result PolicyDocument.t * DB :=
  on_first_query m db
    match first (has_id document_id) (policy_documents db) with
    | None => (Raise document_not_found, db)
    | Some document =>
        if negb (is_true (PolicyDocument.is_public document))
        then (Raise document_is_not_public, db)
        else if negb (fits (PolicyDocument.view_count document + 1))
        then (Raise out_of_range, db)
        else
          match record_event Views document_id clk (policy_analytics db) with
          | Raise e => (Raise e, db)
          | Ok rows =>
              (PolicyDocumentResponse (viewed clk document),
               mkDB (update_first (has_id document_id) (viewed clk) (policy_documents db))
                    (policy_comments db) rows)
          end
    end.

(** ** PUT /documents/{document_id} *)

(** One [setattr(document, field, value)] of the loop over
    [document_update.dict(exclude_unset=True)]. *)
Definition setattr {A} (supplied : option A) (old : A) : A := default old supplied.

(** [title], [summary] and [content] are declared [nullable=False]: a
    supplied [null] for one of them makes the commit fail. *)
Definition nulls_required_column (u : PolicyDocumentUpdate.t) : bool :=
  match PolicyDocumentUpdate.title u, PolicyDocumentUpdate.summary u,
        PolicyDocumentUpdate.content u with
  | Some None, _, _ | _, Some None, _ | _, _, Some None => true
  | _, _, _ => false
  end.

Definition required {A} (supplied : option (option A)) (old : A) : A :=
  match supplied with
  | Some (Some v) => v
  | _ => old
  end.

(** The row after the assignments; a date is stored by its wall clock. *)
Definition apply_update (u : PolicyDocumentUpdate.t) (d : PolicyDocument.t)
  : PolicyDocument.t :=
  PolicyDocument.mk (PolicyDocument.id d)
    (required (PolicyDocumentUpdate.title u) (PolicyDocument.title d))
    (PolicyDocument.document_number d)
    (PolicyDocument.document_type d)
    (PolicyDocument.category d)
    (PolicyDocument.department d)
    (required (PolicyDocumentUpdate.summary u) (PolicyDocument.summary d))
    (required (PolicyDocumentUpdate.content u) (PolicyDocument.content d))
    (setattr (PolicyDocumentUpdate.keywords u) (PolicyDocument.keywords d))
    (PolicyDocument.effective_date d)
    (setattr (option_map (option_map wall) (PolicyDocumentUpdate.expiry_date u))
       (PolicyDocument.expiry_date d))
    (setattr (PolicyDocumentUpdate.status u) (PolicyDocument.status d))
    (PolicyDocument.version d)
    (PolicyDocument.language d)
    (setattr (PolicyDocumentUpdate.file_url u) (PolicyDocument.file_url d))
    (PolicyDocument.created_by d)
    (PolicyDocument.reviewed_by d)
    (setattr (PolicyDocumentUpdate.is_public u) (PolicyDocument.is_public d))
    (PolicyDocument.view_count d)
    (PolicyDocument.created_at d)
    (PolicyDocument.updated_at d).

(** Whether an assignment gives the attribute a new value, by Python [==]
    between the assigned and the loaded value. *)
Definition string_eqb_opt (a b : option string) : bool :=
  match a, b with
  | Some x, Some y => String.eqb x y
  | None, None => true
  | _, _ => false
  end.

Definition bool_eqb_opt (a b : option bool) : bool :=
  match a, b with
  | Some x, Some y => Bool.eqb x y
  | None, None => true
  | _, _ => false
  end.

(** The loaded value is naive; an offset-aware [datetime] is never equal to
    a naive one. *)
Definition datetime_eqb_opt (assigned : option datetime_tz) (loaded : option datetime)
  : bool :=
  match assigned, loaded with
  | Some a, Some l =>
      match utcoffset a with
      | None => wall a =? l
      | Some _ => false
      end
  | None, None => true
  | _, _ => false
  end.

Definition changes {A B} (eqb : A -> B -> bool) (supplied : option A) (loaded : B)
  : bool :=
  match supplied with
  | Some v => negb (eqb v loaded)
  | None => false
  end.

Definition modified (u : PolicyDocumentUpdate.t) (d : PolicyDocument.t) : bool :=
  changes string_eqb_opt (PolicyDocumentUpdate.title u) (Some (PolicyDocument.title d))
  || changes string_eqb_opt (PolicyDocumentUpdate.summary u)
       (Some (PolicyDocument.summary d))
  || changes string_eqb_opt (PolicyDocumentUpdate.content u)
       (Some (PolicyDocument.content d))
  || changes string_eqb_opt (PolicyDocumentUpdate.keywords u) (PolicyDocument.keywords d)
  || changes datetime_eqb_opt (PolicyDocumentUpdate.expiry_date u)
       (PolicyDocument.expiry_date d)
  || changes string_eqb_opt (PolicyDocumentUpdate.status u) (PolicyDocument.status d)
  || changes string_eqb_opt (PolicyDocumentUpdate.file_url u) (PolicyDocument.file_url d)
  || changes bool_eqb_opt (PolicyDocumentUpdate.is_public u) (PolicyDocument.is_public d).

(** The commit writes the row, and with it the [onupdate] timestamp, only
    when an attribute has a new value. *)
Definition committed (clk : Clock) (u : PolicyDocumentUpdate.t) (d : PolicyDocument.t)
  : PolicyDocument.t :=
  if modified u d
  then PolicyDocument.set_updated_at (Some (func_now clk)) (apply_update u d)
  else d.

Definition not_enough_permissions_to_edit : exn :=
  HTTPException HTTP_403_FORBIDDEN "Not enough permissions to edit this document".

Definition update_policy_document (m : Mapping) (document_id : Z)
  (document_update : PolicyDocumentUpdate.t)
  (current_user : User.t) (clk : Clock) (db : DB)
  : result PolicyDocument.t * DB :=
  if negb (elevated current_user) then (Raise not_enough_permissions, db)
  else
    on_first_query m db
      match first (has_id document_id) (policy_documents db) with
      | None => (Raise document_not_found, db)
      | Some document =>
          if negb (String.eqb (User.role current_user) "admin")
             && negb (PolicyDocument.created_by document =? User.id current_user)
          then (Raise not_enough_permissions_to_edit, db)
          else if nulls_required_column document_update
          then (Raise (DatabaseError "Column cannot be null"), db)
          else
            (PolicyDocumentResponse (committed clk document_update document),
             set_policy_documents
               (update_first (has_id document_id) (committed clk document_update)
                  (policy_documents db)) db)
      end.

(** ** POST /documents/{document_id}/comments *)

(** The handler builds the row from the keyword expansion of
    [comment.dict()] followed by [policy_document_id=document_id].
    [PolicyCommentCreate] itself declares [policy_document_id], so the
    constructor call receives that keyword twice and Python raises
    [TypeError] at the call; neither the comment nor the analytics row is
    written. *)
Definition add_policy_comment (m : Mapping) (document_id : Z)
  (comment : PolicyCommentCreate.t)
  (current_user : User.t) (clk : Clock) (db : DB)
  : result PolicyComment.t * DB :=
  on_first_query m db
    match first (has_id document_id) (policy_documents db) with
    | None => (Raise document_not_found, db)
    | Some _ =>
        (Raise (TypeError "got multiple values for keyword argument 'policy_document_id'"),
         db)
    end.

(** ** GET /documents/{document_id}/comments *)

Definition get_policy_comments (m : Mapping) (document_id skip limit : Z) (db : DB)
  : result (list PolicyComment.t) :=
  configured <- configure_mappers m ;;
  comments <- offset_limit skip limit
                (order_by_desc PolicyComment.created_at
                   (filter (fun c => (PolicyComment.policy_document_id c =? document_id)
                                     && is_true (PolicyComment.is_public c))
                           (policy_comments db))) ;;
  PolicyCommentResponses comments.

(** ** GET /stats *)

Definition count {A} (p : A -> bool) (rows : list A) : Z := len (filter p rows).

Definition py_sum (l : list Z) : Z := fold_left Z.add l 0.

(** [SELECT key, count(id) ... GROUP BY key], read into a dict. *)
Fixpoint count_key (k : string) (groups : list (string * Z)) : list (string * Z) :=
  match groups with
  | [] => [(k, 1)]
  | (k', n) :: rest =>
      if String.eqb k k' then (k', n + 1) :: rest else (k', n) :: count_key k rest
  end.

Definition group_count (keys : list string) : list (string * Z) :=
  fold_left (fun groups k => count_key k groups) keys [].

Definition days (n : Z) : Z := n * us_per_day.

Definition get_policy_stats (m : Mapping) (current_user : User.t) (clk : Clock) (db : DB)
  : result PolicyStats.t :=
  if negb (elevated current_user) then Raise not_enough_permissions
  else
    configured <- configure_mappers m ;;
    let docs := policy_documents db in
    let thirty_days_ago := datetime_now clk - days 30 in
    Ok (PolicyStats.mk
          (len docs)
          (count (fun d => sql_eq (PolicyDocument.status d) "active") docs)
          (count (fun d => sql_eq (PolicyDocument.status d) "draft") docs)
          (group_count (map PolicyDocument.document_type docs))
          (group_count (map PolicyDocument.category docs))
          (group_count (map PolicyDocument.department docs))
          (count (fun d => thirty_days_ago <=? PolicyDocument.created_at d) docs)
          (py_sum (map PolicyDocument.view_count docs))
          (len (policy_comments db))).

(** ** GET /documents/{document_id}/analytics *)

(** [PolicyAnalytics.policy_document_id == document_id,
     PolicyAnalytics.analytics_date >= start_date,
     PolicyAnalytics.analytics_date <= end_date], the two bounds being the
    wall-clock readings that the driver sends. *)
Definition in_period (document_id : Z) (start_date end_date : datetime)
  (a : PolicyAnalytics.t) : bool :=
  (PolicyAnalytics.policy_document_id a =? document_id)
  && (start_date <=? PolicyAnalytics.analytics_date a)
  && (PolicyAnalytics.analytics_date a <=? end_date).

(** [(end_date - start_date).days or 1] *)
Definition days_in_period (start_date end_date : datetime_tz) : result Z :=
  delta <- datetime_sub end_date start_date ;;
  let d := timedelta_days delta in
  Ok (if d =? 0 then 1 else d).

(** [str.split(sep)] for a one-character separator. *)
Fixpoint str_split (sep : ascii) (s : string) : list string :=
  match s with
  | EmptyString => [EmptyString]
  | String c rest =>
      if Ascii.eqb c sep then EmptyString :: str_split sep rest
      else match str_split sep rest with
           | [] => [String c EmptyString]
           | w :: ws => String c w :: ws
           end
  end.

Definition get_policy_analytics (m : Mapping) (document_id : Z)
  (start_date end_date : datetime_tz)
  (current_user : User.t) (db : DB) : result PolicyAnalyticsReport.t :=
  if negb (elevated current_user) then Raise not_enough_permissions
  else
    configured <- configure_mappers m ;;
    match first (has_id document_id) (policy_documents db) with
    | None => Raise document_not_found
    | Some document =>
        let analytics_data :=
          filter (in_period document_id (wall start_date) (wall end_date))
                 (policy_analytics db) in
        let total_views := py_sum (map PolicyAnalytics.views analytics_data) in
        let total_downloads := py_sum (map PolicyAnalytics.downloads analytics_data) in
        let total_comments := py_sum (map PolicyAnalytics.comments_count analytics_data) in
        let total_citations := py_sum (map PolicyAnalytics.citations_count analytics_data) in
        let search_appearances :=
          py_sum (map PolicyAnalytics.search_appearances analytics_data) in
        days_in_period <- days_in_period start_date end_date ;;
        engagement_score <-
          true_div (total_views + total_comments * 5 + total_citations * 10)
                   days_in_period ;;
        let trending_keywords :=
          match truthy (PolicyDocument.keywords document) with
          | Some k => firstn 5 (str_split ","%char k)
          | None => []
          end in
        Ok (PolicyAnalyticsReport.mk document_id (PolicyDocument.title document)
              start_date end_date total_views total_downloads total_comments
              total_citations search_appearances engagement_score
              trending_keywords)
    end.

(** ** GET /recommendations *)

Definition str (n : Z) : string := NilZero.string_of_int (Z.to_int n).

(** [min(1.0, x)]: [x] when it is smaller than the first argument. *)
Definition min_one (x : spec_float) : spec_float :=
  if SFltb x float_one then x else float_one.

Definition recommend (policy : PolicyDocument.t) : result PolicyRecommendation.t :=
  quotient <- true_div (PolicyDocument.view_count policy) 100 ;;
  Ok (PolicyRecommendation.mk (PolicyDocument.id policy) (PolicyDocument.title policy)
        ("Popular policy in " ++ PolicyDocument.category policy ++ " with "
           ++ str (PolicyDocument.view_count policy) ++ " views")%string
        (min_one quotient)
        (PolicyDocument.category policy)).

Definition get_policy_recommendations (m : Mapping) (category : option string)
  (limit : Z) (current_user : User.t) (db : DB)
  : result (list PolicyRecommendation.t) :=
  configured <- configure_mappers m ;;
  let query :=
    filter (fun d => sql_eq (PolicyDocument.status d) "active"
                     && is_true (PolicyDocument.is_public d))
           (policy_documents db) in
  let query := filter_eq category (fun d => Some (PolicyDocument.category d)) query in
  popular_policies <- offset_limit 0 limit
                        (order_by_desc PolicyDocument.view_count query) ;;
  for_each (fun recommendations policy =>
              recommendation <- recommend policy ;;
              Ok (recommendations ++ [recommendation]))
           popular_policies [].

(** ** The router *)

Inductive Request :=
| CreateDocument (document : PolicyDocumentCreate.t)
| SearchDocuments (params : SearchParams)
| ListDocuments (skip limit : Z)
    (document_type category department status : option string)
    (is_public : option bool)
| GetDocument (document_id : Z)
| UpdateDocument (document_id : Z) (document_update : PolicyDocumentUpdate.t)
| AddComment (document_id : Z) (comment : PolicyCommentCreate.t)
| GetComments (document_id skip limit : Z)
| GetStats
| GetAnalytics (document_id : Z) (start_date end_date : datetime_tz)
| GetRecommendations (category : option string) (limit : Z).

Inductive Response :=
| Document (d : PolicyDocument.t)
| Documents (ds : list PolicyDocument.t)
| SearchResults (rs : list PolicySearchResult.t)
| Comment (c : PolicyComment.t)
| Comments (cs : list PolicyComment.t)
| Stats (s : PolicyStats.t)
| AnalyticsReport (r : PolicyAnalyticsReport.t)
| Recommendations (rs : list PolicyRecommendation.t).

Definition respond {A} (wrap : A -> Response) (out : result A * DB)
  : result Response * DB :=
  (bind (fst out) (fun a => Ok (wrap a)), snd out).

(** One request served on a store.  [current_user] is the principal of the
    request; the handlers that do not depend on [get_current_user] never
    look at it. *)
Definition handle (m : Mapping) (req : Request) (current_user : User.t) (clk : Clock)
  (db : DB) : result Response * DB :=
  match req with
  | CreateDocument document =>
      respond Document (create_policy_document m document current_user clk db)
  | SearchDocuments params =>
      respond SearchResults (search_request m params clk db)
  | ListDocuments skip limit document_type category department status is_public =>
      respond Documents
        (get_policy_documents m skip limit document_type category department
           status is_public db, db)
  | GetDocument document_id =>
      respond Document (get_policy_document m document_id clk db)
  | UpdateDocument document_id document_update =>
      respond Document
        (update_policy_document m document_id document_update current_user clk db)
  | AddComment document_id comment =>
      respond Comment (add_policy_comment m document_id comment current_user clk db)
  | GetComments document_id skip limit =>
      respond Comments (get_policy_comments m document_id skip limit db, db)
  | GetStats =>
      respond Stats (get_policy_stats m current_user clk db, db)
  | GetAnalytics document_id start_date end_date =>
      respond AnalyticsReport
        (get_policy_analytics m document_id start_date end_date current_user db, db)
  | GetRecommendations category limit =>
      respond Recommendations
        (get_policy_recommendations m category limit current_user db, db)
  end.

(** [view_count] of the stored document with a given key. *)
Definition view_count_of (document_id : Z) (db : DB) : option Z :=
  option_map PolicyDocument.view_count
    (first (has_id document_id) (policy_documents db)).

(** ** Vocabulary of the properties *)

(** The three tiers of one result page as the handler builds them: the
    title matches after [skip], cut at [limit]; then summary matches that
    are not title matches, from their first row, for the slots left; then
    content matches that are neither, for the slots still left. *)
Definition tier_a (query : string) (skip limit : Z)
  (document_type category department status : option string)
  (docs : list PolicyDocument.t) : list PolicyDocument.t :=
  firstn (Z.to_nat limit)
    (skipn (Z.to_nat skip)
       (title_matches query document_type category department status docs)).

Definition tier_b (query : string) (skip limit : Z)
  (document_type category department status : option string)
  (docs : list PolicyDocument.t) : list PolicyDocument.t :=
  firstn (Z.to_nat (limit - len (tier_a query skip limit document_type category
                                   department status docs)))
    (summary_matches query document_type category department status docs).

Definition tier_c (query : string) (skip limit : Z)
  (document_type category department status : option string)
  (docs : list PolicyDocument.t) : list PolicyDocument.t :=
  firstn (Z.to_nat (limit
                    - len (tier_a query skip limit document_type category
                             department status docs)
                    - len (tier_b query skip limit document_type category
                             department status docs)))
    (content_matches query document_type category department status docs).

Definition page (query : string) (skip limit : Z)
  (document_type category department status : option string)
  (docs : list PolicyDocument.t) : list (Q * PolicyDocument.t) :=
  map (pair score_title)
      (tier_a query skip limit document_type category department status docs)
  ++ map (pair score_summary)
      (tier_b query skip limit document_type category department status docs)
  ++ map (pair score_content)
      (tier_c query skip limit document_type category department status docs).

(** [r] is the search result built from document [hit] at its score. *)
Definition made_from (hit : Q * PolicyDocument.t) (r : PolicySearchResult.t) : Prop :=
  make_result (fst hit) (snd hit) = Ok r.


(** An optional equality filter lets a column value through. *)
Definition filter_passes (param : option string) (col : option string) : bool :=
  match truthy param with
  | Some v => sql_eq col v
  | None => true
  end.

(** The page of a search as the design words it, read off the stored
    documents alone.  A document can be found when it is public and passes
    the filters in force.  Tier A holds the documents that can be found and
    whose title matches, tier B those whose summary matches and whose title
    does not, tier C those whose content matches and whose title and
    summary do not, each in storage order.  The page takes tier A from
    [skip] on, at most [limit] of it, then tier B from its first document
    for the slots left, then tier C from its first document for the slots
    still left; the entries carry the scores 1.0, 0.7 and 0.5. *)
Definition can_be_found (document_type category department status : option string)
  (d : PolicyDocument.t) : bool :=
  is_true (PolicyDocument.is_public d)
  && filter_passes status (PolicyDocument.status d)
  && filter_passes document_type (Some (PolicyDocument.document_type d))
  && filter_passes category (Some (PolicyDocument.category d))
  && filter_passes department (Some (PolicyDocument.department d)).

Definition in_tier_a (query : string) (d : PolicyDocument.t) : bool :=
  ilike_contains (PolicyDocument.title d) query.

Definition in_tier_b (query : string) (d : PolicyDocument.t) : bool :=
  ilike_contains (PolicyDocument.summary d) query
  && negb (ilike_contains (PolicyDocument.title d) query).

Definition in_tier_c (query : string) (d : PolicyDocument.t) : bool :=
  ilike_contains (PolicyDocument.content d) query
  && negb (ilike_contains (PolicyDocument.title d) query)
  && negb (ilike_contains (PolicyDocument.summary d) query).

Definition expected_page (query : string) (skip limit : Z)
  (document_type category department status : option string)
  (docs : list PolicyDocument.t) : list (Q * PolicyDocument.t) :=
  let found := filter (can_be_found document_type category department status) docs in
  let a := firstn (Z.to_nat limit)
             (skipn (Z.to_nat skip) (filter (in_tier_a query) found)) in
  let b := firstn (Z.to_nat (limit - len a)) (filter (in_tier_b query) found) in
  let c := firstn (Z.to_nat (limit - len a - len b))
             (filter (in_tier_c query) found) in
  map (pair (1 # 1)%Q) a ++ map (pair (7 # 10)%Q) b ++ map (pair (1 # 2)%Q) c.

(** The entry [r] shows the document of [hit] at the score of [hit]. *)
Definition shows (hit : Q * PolicyDocument.t) (r : PolicySearchResult.t) : Prop :=
  PolicySearchResult.id r = PolicyDocument.id (snd hit)
  /\ PolicySearchResult.title r = PolicyDocument.title (snd hit)
  /\ PolicySearchResult.document_number r = PolicyDocument.document_number (snd hit)
  /\ PolicySearchResult.document_type r = PolicyDocument.document_type (snd hit)
  /\ PolicySearchResult.category r = PolicyDocument.category (snd hit)
  /\ PolicySearchResult.department r = PolicyDocument.department (snd hit)
  /\ PolicySearchResult.summary r = PolicyDocument.summary (snd hit)
  /\ PolicySearchResult.effective_date r = PolicyDocument.effective_date (snd hit)
  /\ Some (PolicySearchResult.status r) = PolicyDocument.status (snd hit)
  /\ PolicySearchResult.relevance_score r = Some (fst hit).

(** The five counters of an analytics row. *)
Inductive column := ColViews | ColDownloads | ColComments | ColCitations | ColSearch.

Definition value (c : column) (a : PolicyAnalytics.t) : Z :=
  match c with
  | ColViews => PolicyAnalytics.views a
  | ColDownloads => PolicyAnalytics.downloads a
  | ColComments => PolicyAnalytics.comments_count a
  | ColCitations => PolicyAnalytics.citations_count a
  | ColSearch => PolicyAnalytics.search_appearances a
  end.

Definition column_of (c : counter) : column :=
  match c with
  | Views => ColViews
  | CommentsCount => ColComments
  | SearchAppearances => ColSearch
  end.

Definition column_eqb (a b : column) : bool :=
  match a, b with
  | ColViews, ColViews | ColDownloads, ColDownloads | ColComments, ColComments
  | ColCitations, ColCitations | ColSearch, ColSearch => true
  | _, _ => false
  end.

(** The total that a report holds for a counter. *)
Definition report_total (c : column) (r : PolicyAnalyticsReport.t) : Z :=
  match c with
  | ColViews => PolicyAnalyticsReport.total_views r
  | ColDownloads => PolicyAnalyticsReport.total_downloads r
  | ColComments => PolicyAnalyticsReport.total_comments r
  | ColCitations => PolicyAnalyticsReport.total_citations r
  | ColSearch => PolicyAnalyticsReport.search_appearances r
  end.

(** What the rows of one (document, day) bucket hold in one counter. *)
Definition day_total (c : column) (document_id : Z) (day : date)
  (rows : list PolicyAnalytics.t) : Z :=
  py_sum (map (value c) (filter (row_of_day document_id day) rows)).

(** What the rows of a document inside a reporting period hold. *)
Definition period_total (c : column) (document_id : Z) (start_date end_date : datetime)
  (rows : list PolicyAnalytics.t) : Z :=
  py_sum (map (value c) (filter (in_period document_id start_date end_date) rows)).

(** [n] view events of one document, one per clock reading. *)
Definition record_views (document_id : Z) (clks : list Clock)
  (rows : list PolicyAnalytics.t) : result (list PolicyAnalytics.t) :=
  for_each (fun rows clk => record_event Views document_id clk rows) clks rows.

(** A trace of requests served one after the other. *)
Definition call := (Request * User.t * Clock)%type.

Definition serve (m : Mapping) (db : DB) (c : call) : DB :=
  let '(req, current_user, clk) := c in snd (handle m req current_user clk db).

Definition run (m : Mapping) (calls : list call) (db : DB) : DB :=
  fold_left (serve m) calls db.

Definition outcome (m : Mapping) (db : DB) (c : call) : result Response :=
  let '(req, current_user, clk) := c in fst (handle m req current_user clk db).

Definition succeeds (m : Mapping) (db : DB) (c : call) : bool :=
  match outcome m db c with
  | Ok _ => true
  | Raise _ => false
  end.

(** The request ran to its commit and was then answered with an error,
    because what it returned does not validate against the response
    model. *)
Definition fails_validation (m : Mapping) (db : DB) (c : call) : bool :=
  match outcome m db c with
  | Raise (ResponseValidationError _) => true
  | _ => false
  end.

Definition is_read_of (document_id : Z) (req : Request) : bool :=
  match req with
  | GetDocument i => i =? document_id
  | _ => false
  end.

(** How many requests of the trace are reads of the document that pass a
    test on the store they meet. *)
Fixpoint reads_that (test : DB -> call -> bool) (m : Mapping) (document_id : Z)
  (calls : list call) (db : DB) : Z :=
  match calls with
  | [] => 0
  | c :: rest =>
      (if is_read_of document_id (fst (fst c)) && test db c then 1 else 0)
      + reads_that test m document_id rest (serve m db c)
  end.

(** How many requests of the trace are successful reads of the document,
    and how many are reads of it that fail after their commit. *)
Definition successful_reads (m : Mapping) : Z -> list call -> DB -> Z :=
  reads_that (succeeds m) m.

Definition unvalidated_reads (m : Mapping) : Z -> list call -> DB -> Z :=
  reads_that (fails_validation m) m.

(** The request is refused with [e] and writes nothing; when the mappers do
    not configure, the error is that of the configuration instead. *)
Definition refused_with (m : Mapping) (e : exn) (db : DB) (out : result Response * DB)
  : Prop :=
  out = (Raise match configure_mappers m with
               | Ok _ => e
               | Raise e' => e'
               end, db).

(** The primary key of the document table. *)
Definition unique_ids (db : DB) : Prop :=
  NoDup (map PolicyDocument.id (policy_documents db)).

(** The row that an event of [document_id] at [clk] touches: the first
    stored row of that document and day, or the row the event creates. *)
Definition touched (c : counter) (document_id : Z) (clk : Clock)
  (rows : list PolicyAnalytics.t) : PolicyAnalytics.t :=
  match first (row_of_day document_id (date_of (datetime_now clk))) rows with
  | Some a => a
  | None => new_row c (next_id (map PolicyAnalytics.id rows)) document_id
              (datetime_now clk)
  end.

(** The timestamp kept by the bucket of a document and day, if the bucket
    has a row: the time of the event that created its first row. *)
Definition bucket_time (document_id : Z) (day : date)
  (rows : list PolicyAnalytics.t) : option datetime :=
  option_map PolicyAnalytics.analytics_date
    (first (row_of_day document_id day) rows).

Definition within (start_date end_date t : datetime) : bool :=
  (start_date <=? t) && (t <=? end_date).

(** Who may edit a document: an administrator, or the official who
    created it. *)
Definition may_edit (u : User.t) (d : PolicyDocument.t) : bool :=
  String.eqb (User.role u) "admin"
  || (String.eqb (User.role u) "government_official"
      && (PolicyDocument.created_by d =? User.id u)).




(** The HTTP status that the caller sees: the code of an [HTTPException],
    500 for every other exception. *)
Definition http_status (e : exn) : Z :=
  match e with
  | HTTPException code _ => code
  | _ => 500
  end.

(** The requests whose handler reaches a [commit] that writes. *)
Definition writes (req : Request) : bool :=
  match req with
  | CreateDocument _ | SearchDocuments _ | GetDocument _ | UpdateDocument _ _ => true
  | _ => false
  end.

Definition validation_error (e : exn) : bool :=
  match e with
  | ResponseValidationError _ => true
  | _ => false
  end.

(** What one request does, whatever the mapping: how it is answered and
    the store it leaves.  A request of the six other routes leaves the
    store alone; one of the four writing routes that raises anything but a
    failed response validation leaves it alone too; otherwise a create has
    added its row, a read has stored and recorded its view, an update has
    stored its assignments, and a search has recorded its entries. *)
Inductive serves_as (clk : Clock) (db : DB)
  : Request -> User.t -> result Response -> DB -> Prop :=
| serves_reading (req : Request) (user : User.t) (answer : result Response) :
    writes req = false ->
    serves_as clk db req user answer db
| serves_refusing (req : Request) (user : User.t) (e : exn) :
    writes req = true ->
    validation_error e = false ->
    serves_as clk db req user (Raise e) db
| serves_creating (document : PolicyDocumentCreate.t) (user : User.t)
    (created : PolicyDocument.t) :
    elevated user = true ->
    first (fun d => String.eqb (PolicyDocument.document_number d)
                      (PolicyDocumentCreate.document_number document))
      (policy_documents db) = None ->
    fits (next_id (map PolicyDocument.id (policy_documents db))) = true ->
    created = new_document document
                (next_id (map PolicyDocument.id (policy_documents db)))
                (User.id user) clk ->
    serves_as clk db (CreateDocument document) user (Ok (Document created))
      (set_policy_documents (policy_documents db ++ [created]) db)
| serves_viewing (document_id : Z) (user : User.t) (d : PolicyDocument.t)
    (rows : list PolicyAnalytics.t) :
    first (has_id document_id) (policy_documents db) = Some d ->
    is_true (PolicyDocument.is_public d) = true ->
    fits (PolicyDocument.view_count d + 1) = true ->
    record_event Views document_id clk (policy_analytics db) = Ok rows ->
    serves_as clk db (GetDocument document_id) user
      (bind (PolicyDocumentResponse (viewed clk d)) (fun a => Ok (Document a)))
      (mkDB (update_first (has_id document_id) (viewed clk) (policy_documents db))
            (policy_comments db) rows)
| serves_updating (document_id : Z) (document_update : PolicyDocumentUpdate.t)
    (user : User.t) (d : PolicyDocument.t) :
    first (has_id document_id) (policy_documents db) = Some d ->
    may_edit user d = true ->
    nulls_required_column document_update = false ->
    serves_as clk db (UpdateDocument document_id document_update) user
      (bind (PolicyDocumentResponse (committed clk document_update d))
         (fun a => Ok (Document a)))
      (set_policy_documents
         (update_first (has_id document_id) (committed clk document_update)
            (policy_documents db)) db)
| serves_searching (params : SearchParams) (user : User.t)
    (results : list PolicySearchResult.t) (rows : list PolicyAnalytics.t) :
    search_results (param_query params) (default 0 (param_skip params))
      (default 100 (param_limit params)) (param_document_type params)
      (param_category params) (param_department params)
      (Some (default "active" (param_status params))) (policy_documents db)
    = Ok results ->
    record_appearances results clk (policy_analytics db) = Ok rows ->
    serves_as clk db (SearchDocuments params) user (Ok (SearchResults results))
      (set_policy_analytics rows db).

(** ** Vocabulary of the further properties *)

(** Largest key first. *)
Definition sorted_desc {A} (key : A -> Z) (l : list A) : Prop :=
  StronglySorted (fun a b => key b <= key a) l.

(** The rows of a list that carry a given key, in their order. *)
Definition with_key {A} (key : A -> Z) (k : Z) (l : list A) : list A :=
  filter (fun x => key x =? k) l.




(** What a grouped count holds for one key: the counts of the entries with
    that key, added up. *)
Definition lookup (k : string) (groups : list (string * Z)) : Z :=
  py_sum (map snd (filter (fun g => String.eqb (fst g) k) groups)).

(** [groups] is the dict of [SELECT key, count(id) ... GROUP BY key] over a
    column with the values [keys]: one entry per value that occurs, holding
    the number of its occurrences. *)
Definition tallies (keys : list string) (groups : list (string * Z)) : Prop :=
  NoDup (map fst groups)
  /\ py_sum (map snd groups) = len keys
  /\ (forall k, In k keys <-> In k (map fst groups))
  /\ (forall k n, In (k, n) groups -> n = count (String.eqb k) keys /\ 0 < n).

(** The filter of the recommendation query. *)
Definition recommendable (category : option string) (d : PolicyDocument.t) : bool :=
  sql_eq (PolicyDocument.status d) "active"
  && is_true (PolicyDocument.is_public d)
  && filter_passes category (Some (PolicyDocument.category d)).

(** The bucket of an analytics row: its document and its calendar day. *)
Definition bucket_key (a : PolicyAnalytics.t) : Z * date :=
  (PolicyAnalytics.policy_document_id a, date_of (PolicyAnalytics.analytics_date a)).

(** The analytics table holds at most one row per bucket, under distinct keys. *)
Definition one_row_per_bucket (rows : list PolicyAnalytics.t) : Prop :=
  NoDup (map bucket_key rows) /\ NoDup (map PolicyAnalytics.id rows).



(** How often a key occurs in a list of keys. *)
Definition occurrences (k : Z) (ids : list Z) : Z := count (Z.eqb k) ids.

(** The document numbers of the store are pairwise distinct. *)
Definition unique_numbers (db : DB) : Prop :=
  NoDup (map PolicyDocument.document_number (policy_documents db)).


(** The update payload that supplies no field. *)
Definition no_fields : PolicyDocumentUpdate.t :=
  PolicyDocumentUpdate.mk None None None None None None None None.

(** An update that withdraws a document from the public. *)
Definition make_private : PolicyDocumentUpdate.t :=
  PolicyDocumentUpdate.mk None None None None None None None (Some (Some false)).

(** The query holds none of the characters that LIKE reads as syntax. *)
Definition plain (c : ascii) : bool :=
  negb (Ascii.eqb c "%"%char) && negb (Ascii.eqb c "_"%char)
  && negb (Ascii.eqb c "\"%char).

Definition wildcard_free (query : string) : bool :=
  forallb plain (list_ascii_of_string query).

(** [sep.join(pieces)] *)
Fixpoint join (sep : ascii) (pieces : list string) : string :=
  match pieces with
  | [] => EmptyString
  | [w] => w
  | w :: rest => (w ++ String sep (join sep rest))%string
  end.

(** The character does not occur in the text. *)
Definition free_of (c : ascii) (s : string) : bool :=
  negb (existsb (Ascii.eqb c) (list_ascii_of_string s)).

(** The rows after an event that the database accepts. *)
Definition recorded (c : counter) (document_id : Z) (clk : Clock)
  (rows : list PolicyAnalytics.t) : list PolicyAnalytics.t :=
  match first (row_of_day document_id (date_of (datetime_now clk))) rows with
  | Some _ =>
      update_first (row_of_day document_id (date_of (datetime_now clk)))
        (increment c) rows
  | None =>
      rows ++ [new_row c (next_id (map PolicyAnalytics.id rows)) document_id
                 (datetime_now clk)]
  end.


(** The entry [r] recommends the document [d]: it carries its key, title
    and category, the sentence built from its category and view counter,
    and as confidence the smaller of 1.0 and the double nearest to
    [view_count / 100]. *)
Definition recommends (d : PolicyDocument.t) (r : PolicyRecommendation.t) : Prop :=
  PolicyRecommendation.policy_id r = PolicyDocument.id d
  /\ PolicyRecommendation.title r = PolicyDocument.title d
  /\ PolicyRecommendation.category r = PolicyDocument.category d
  /\ PolicyRecommendation.reason r
     = ("Popular policy in " ++ PolicyDocument.category d ++ " with "
        ++ str (PolicyDocument.view_count d) ++ " views")%string
  /\ exists quotient,
       true_div (PolicyDocument.view_count d) 100 = Ok quotient
       /\ PolicyRecommendation.confidence_score r = min_one quotient.

(** The request got as far as its commit: it is answered with its result,
    or with the failed validation of that result. *)
Definition reaches_commit (answer : result Response) : bool :=
  match answer with
  | Ok _ => true
  | Raise e => validation_error e
  end.

(** The payload supplies an [expiry_date] that carries a UTC offset. *)
Definition supplies_aware_expiry (u : PolicyDocumentUpdate.t) : bool :=
  match PolicyDocumentUpdate.expiry_date u with
  | Some (Some a) =>
      match utcoffset a with
      | Some _ => true
      | None => false
      end
  | _ => false
  end.

(** The same answer, for a row that was written again at [later]. *)
Definition rewritten_at (later : Clock) (response : Response) : Response :=
  match response with
  | Document d => Document (PolicyDocument.set_updated_at (Some (func_now later)) d)
  | other => other
  end.


(** The requests whose handler checks the caller's role before its first
    query. *)
Definition role_gated (req : Request) : bool :=
  match req with
  | CreateDocument _ | UpdateDocument _ _ | GetStats | GetAnalytics _ _ _ => true
  | _ => false
  end.


(** ** A small store for the examples *)

(** models.py with the one argument added that lets the mappers configure:
    [foreign_keys] naming [PolicyCitation.citing_document_id] on
    [PolicyDocument.citations], the column that the other side of the
    relationship names.  The examples use it to get a handler past its
    first query. *)
Definition models_with_citing_key : Mapping :=
  mkMapping policy_foreign_keys
    (relationships_before_citations
     ++ [mkRelationship "PolicyDocument.citations" "policy_documents"
           "policy_citations" (Some [("policy_citations", "citing_document_id")])]
     ++ relationships_after_citations).

(** What the first query of a request raises under models.py. *)
Definition citations_are_ambiguous : exn :=
  MapperConfigurationError (AmbiguousForeignKeys "PolicyDocument.citations").

Definition sample_document (row_id : Z) (title number summary content : string)
  (keywords status : option string) (is_public : option bool) (creator : Z)
  : PolicyDocument.t :=
  PolicyDocument.mk row_id title number "law" "environment" "water affairs"
    summary content keywords 0 None status "1.0" "en" None creator None
    is_public 0 0 None.

Definition water_act : PolicyDocument.t :=
  sample_document 1 "Water Conservation Act" "WCA-001" "Saving rivers" "Full text"
    (Some "rivers,dams") (Some "active") (Some true) 7.
Definition energy_code : PolicyDocument.t :=
  sample_document 2 "Energy Code" "EC-002" "Rules on water heating" "Full text"
    None (Some "active") (Some true) 7.
Definition forest_act : PolicyDocument.t :=
  sample_document 3 "Forest Act" "FA-003" "Trees" "Protects water sources"
    None (Some "active") (Some true) 8.
Definition quality_bill : PolicyDocument.t :=
  sample_document 4 "Water Quality Bill" "WQ-004" "Standards" "Full text"
    None (Some "draft") (Some true) 7.
Definition security_plan : PolicyDocument.t :=
  sample_document 5 "Water Security Plan" "WS-005" "Internal" "Full text"
    None (Some "active") (Some false) 8.
Definition fisheries_act : PolicyDocument.t :=
  sample_document 6 "Fisheries Act" "WATER-006" "Fish" "Full text"
    (Some "water,fish") (Some "active") (Some true) 8.

Definition sample_db : DB :=
  mkDB [water_act; energy_code; forest_act; quality_bill; security_plan;
        fisheries_act] [] [].

Definition admin : User.t := User.mk 1 "admin".
Definition official : User.t := User.mk 7 "government_official".
Definition other_official : User.t := User.mk 8 "government_official".
Definition citizen : User.t := User.mk 9 "citizen".

Definition hours (n : Z) : Z := n * 3600000000.

(** Day 0 at 00:00, 09:30, 12:00 and 23:59:59.999999; day 1 at 00:00. *)
Definition midnight : datetime := 0.
Definition morning : datetime := hours 9 + 1800000000.
Definition noon : datetime := hours 12.
Definition end_of_day : datetime := us_per_day - 1.

Definition at_time (t : datetime) : Clock := mkClock t t.

Definition water_search : SearchParams :=
  mkSearchParams "water" None None None None None None.

(** The default search for "water" at noon of day 0, evaluated with the
    mappers configured. *)
Definition water_results : list PolicySearchResult.t :=
  Eval vm_compute in
    match fst (search_request models_with_citing_key water_search (at_time noon)
                 sample_db) with
    | Ok results => results
    | Raise _ => []
    end.

Definition water_db : DB :=
  Eval vm_compute in
    snd (search_request models_with_citing_key water_search (at_time noon) sample_db).

(** A store with one day of engagement for the Water Conservation Act:
    10 views, 2 comments, 1 citation, in the row created at noon of day 0. *)
Definition engaged_db : DB :=
  mkDB [water_act] [] [PolicyAnalytics.mk 1 1 noon 10 0 2 1 0].

(** Two reads of the Water Conservation Act on day 0. *)
Definition two_reads : list call :=
  [(GetDocument 1, citizen, at_time morning); (GetDocument 1, citizen, at_time noon)].

Definition dam_safety_act : PolicyDocumentCreate.t :=
  PolicyDocumentCreate.mk "Dam Safety Act" "DSA-007" "law" "environment"
    "water affairs" "Inspection of dams" "Full text" None (naive 0) None "1.0" "en"
    None true.



(** The search for "water" from the second title match on, three entries
    at most, evaluated with the mappers configured: the one title match
    that is active and public is skipped, and the summary and content
    matches follow from their first document. *)
Definition offset_results : list PolicySearchResult.t :=
  Eval vm_compute in
    match fst (search_policy_documents models_with_citing_key "water" 1 3 None None
                 None (Some "active") (at_time noon) sample_db) with
    | Ok results => results
    | Raise _ => []
    end.

(** The analytics rows after two view events of the Water Conservation
    Act, at 09:30 and at 12:00 of day 0, on the empty table. *)
Definition two_views : list PolicyAnalytics.t :=
  Eval vm_compute in
    match record_views 1 [at_time morning; at_time noon] [] with
    | Ok rows => rows
    | Raise _ => []
    end.

(** The report on the Water Conservation Act for day 0 of the sample store,
    as the handler returns it once the mappers configure, before and after
    the two views. *)
Definition empty_report : PolicyAnalyticsReport.t :=
  PolicyAnalyticsReport.mk 1 "Water Conservation Act" (naive midnight)
    (naive end_of_day) 0 0 0 0 0 (S754_zero false) ["rivers"; "dams"].

Definition day_report_before : PolicyAnalyticsReport.t :=
  Eval vm_compute in
    match get_policy_analytics models_with_citing_key 1 (naive midnight)
            (naive end_of_day) admin sample_db with
    | Ok r => r
    | Raise _ => empty_report
    end.

Definition day_report_after : PolicyAnalyticsReport.t :=
  Eval vm_compute in
    match get_policy_analytics models_with_citing_key 1 (naive midnight)
            (naive end_of_day) admin (set_policy_analytics two_views sample_db) with
    | Ok r => r
    | Raise _ => empty_report
    end.


(** A payload that reuses the number of the Water Conservation Act. *)
Definition water_act_again : PolicyDocumentCreate.t :=
  PolicyDocumentCreate.mk "Water Conservation Act 2" "WCA-001" "law" "environment"
    "water affairs" "Saving more rivers" "Full text" None (naive 0) None "1.0" "en"
    None true.






(** The sample store after the administrator has withdrawn the Water
    Conservation Act at noon of day 0, with the mappers configured. *)
Definition withdrawn_db : DB :=
  Eval vm_compute in
    snd (handle models_with_citing_key (UpdateDocument 1 make_private) admin
           (at_time noon) sample_db).

(** The reports on the engaged store for day 0, for its part up to 09:30,
    and for the rest of it, as returned once the mappers configure. *)
Definition whole_day_report : PolicyAnalyticsReport.t :=
  Eval vm_compute in
    match get_policy_analytics models_with_citing_key 1 (naive midnight)
            (naive end_of_day) admin engaged_db with
    | Ok r => r
    | Raise _ => empty_report
    end.

Definition early_report : PolicyAnalyticsReport.t :=
  Eval vm_compute in
    match get_policy_analytics models_with_citing_key 1 (naive midnight)
            (naive morning) admin engaged_db with
    | Ok r => r
    | Raise _ => empty_report
    end.

Definition late_report : PolicyAnalyticsReport.t :=
  Eval vm_compute in
    match get_policy_analytics models_with_citing_key 1 (naive (morning + 1))
            (naive end_of_day) admin engaged_db with
    | Ok r => r
    | Raise _ => empty_report
    end.

(** ** Lists *)


Lemma py_sum_from (l : list Z) (a : Z) : fold_left Z.add l a = a + py_sum l.
Proof.
  unfold py_sum. revert a.
  induction l as [|x l IH]; intros a; simpl.
  - lia.
  - rewrite (IH (a + x)), (IH x). lia.
Qed.

Lemma py_sum_cons (x : Z) (l : list Z) : py_sum (x :: l) = x + py_sum l.
Proof. unfold py_sum at 1. simpl. apply py_sum_from. Qed.

Lemma py_sum_app (l1 l2 : list Z) : py_sum (l1 ++ l2) = py_sum l1 + py_sum l2.
Proof.
  induction l1 as [|x l1 IH]; simpl.
  - reflexivity.
  - rewrite !py_sum_cons, IH. lia.
Qed.

Lemma len_app {A} (l1 l2 : list A) : len (l1 ++ l2) = len l1 + len l2.
Proof. unfold len. rewrite length_app. lia. Qed.

Lemma len_cons {A} (x : A) (l : list A) : len (x :: l) = 1 + len l.
Proof. unfold len. cbn [List.length]. lia. Qed.

Lemma len_nonneg {A} (l : list A) : 0 <= len l.
Proof. unfold len. lia. Qed.

Lemma len_firstn {A} (n : Z) (l : list A) : 0 <= n -> len (firstn (Z.to_nat n) l) <= n.
Proof.
  intros Hn. unfold len. rewrite length_firstn. lia.
Qed.

Lemma first_app_found {A} (p : A -> bool) (l1 l2 : list A) (x : A) :
  first p l1 = Some x -> first p (l1 ++ l2) = Some x.
Proof.
  unfold first. induction l1 as [|y l1 IH]; simpl; [discriminate|].
  destruct (p y); auto.
Qed.

Lemma first_app_missing {A} (p : A -> bool) (l1 l2 : list A) :
  first p l1 = None -> first p (l1 ++ l2) = first p l2.
Proof.
  unfold first. induction l1 as [|y l1 IH]; simpl; [reflexivity|].
  destruct (p y); [discriminate|auto].
Qed.

Lemma first_none_filter {A} (p : A -> bool) (l : list A) :
  first p l = None -> filter p l = [].
Proof.
  unfold first. induction l as [|y l IH]; simpl; [reflexivity|].
  destruct (p y); [discriminate|auto].
Qed.

Lemma first_in {A} (p : A -> bool) (l : list A) (x : A) :
  first p l = Some x -> In x l /\ p x = true.
Proof. unfold first. apply find_some. Qed.

Lemma in_first {A} (p : A -> bool) (l : list A) (x : A) :
  In x l -> p x = true -> exists y, first p l = Some y.
Proof.
  unfold first. intros Hin Hp.
  destruct (find p l) as [y|] eqn:E; [eauto|].
  rewrite (find_none _ _ E _ Hin) in Hp. discriminate.
Qed.

(** Updating the first [p]-row with a function that keeps rows in [p]. *)
Lemma first_update_same {A} (p : A -> bool) (f : A -> A) (l : list A) :
  (forall x, p x = true -> p (f x) = true) ->
  first p (update_first p f l) = option_map f (first p l).
Proof.
  intros Hf. unfold first.
  induction l as [|y l IH]; simpl; [reflexivity|].
  destruct (p y) eqn:E; simpl.
  - rewrite (Hf _ E). reflexivity.
  - rewrite E. exact IH.
Qed.

(** Updating the first [q]-row does not move the first [p]-row when no row is
    in both and the update keeps rows out of [p]. *)
Lemma first_update_other {A} (p q : A -> bool) (f : A -> A) (l : list A) :
  (forall x, q x = true -> p x = false /\ p (f x) = false) ->
  first p (update_first q f l) = first p l.
Proof.
  intros Hq. unfold first.
  induction l as [|y l IH]; simpl; [reflexivity|].
  destruct (q y) eqn:E; simpl.
  - destruct (Hq _ E) as [H1 H2]. rewrite H1, H2. reflexivity.
  - destruct (p y); [reflexivity|exact IH].
Qed.

Lemma map_update_first {A B} (g : A -> B) (p : A -> bool) (f : A -> A) (l : list A) :
  (forall x, g (f x) = g x) -> map g (update_first p f l) = map g l.
Proof.
  intros Hg. induction l as [|y l IH]; simpl; [reflexivity|].
  destruct (p y); simpl; rewrite ?Hg, ?IH; reflexivity.
Qed.

Lemma in_firstn_all {A} (n : Z) (l : list A) (x : A) :
  len l <= n -> In x l -> In x (firstn (Z.to_nat n) l).
Proof.
  unfold len. intros Hn Hin. rewrite firstn_all2; [exact Hin|lia].
Qed.

Lemma in_firstn {A} (n : nat) (l : list A) (x : A) : In x (firstn n l) -> In x l.
Proof. intros H. rewrite <- (firstn_skipn n l). apply in_or_app. now left. Qed.

Lemma in_skipn {A} (n : nat) (l : list A) (x : A) : In x (skipn n l) -> In x l.
Proof. intros H. rewrite <- (firstn_skipn n l). apply in_or_app. now right. Qed.

Lemma NoDup_firstn {A} (n : nat) (l : list A) : NoDup l -> NoDup (firstn n l).
Proof.
  intros H. rewrite <- (firstn_skipn n l) in H. exact (NoDup_app_remove_r _ _ H).
Qed.

Lemma NoDup_skipn {A} (n : nat) (l : list A) : NoDup l -> NoDup (skipn n l).
Proof.
  intros H. rewrite <- (firstn_skipn n l) in H. exact (NoDup_app_remove_l _ _ H).
Qed.

(** A key that is unique on a table is unique on any duplicate-free
    selection of its rows. *)
Lemma key_injective {A B} (f : A -> B) (l : list A) (a b : A) :
  NoDup (map f l) -> In a l -> In b l -> f a = f b -> a = b.
Proof.
  induction l as [|x l IH]; simpl; intros Hnd Ha Hb Hf; [contradiction|].
  inversion Hnd as [|? ? Hx Hl]; subst.
  destruct Ha as [->|Ha], Hb as [->|Hb]; auto.
  - exfalso. apply Hx. rewrite Hf. now apply in_map.
  - exfalso. apply Hx. rewrite <- Hf. now apply in_map.
Qed.

Lemma NoDup_map_selection {A B} (f : A -> B) (l sel : list A) :
  NoDup (map f l) -> NoDup sel -> incl sel l -> NoDup (map f sel).
Proof.
  intros Hl Hsel Hincl.
  induction sel as [|a sel IH]; simpl; [constructor|].
  inversion Hsel as [|? ? Ha Hs]; subst.
  constructor.
  - intros Hin. apply in_map_iff in Hin. destruct Hin as [b [Hfb Hb]].
    assert (b = a).
    { apply (key_injective f l); auto.
      - apply Hincl. now right.
      - apply Hincl. now left. }
    subst. contradiction.
  - apply IH; auto. intros x Hx. apply Hincl. now right.
Qed.

(** ** LIKE and case-insensitive containment *)

Lemma like_percent (p s : list ascii) :
  like ("%"%char :: p) s
  = like p s || match s with [] => false | _ :: s' => like ("%"%char :: p) s' end.
Proof. destruct s; reflexivity. Qed.

Lemma like_percent_here (p s : list ascii) :
  like p s = true -> like ("%"%char :: p) s = true.
Proof. intros H. rewrite like_percent, H. reflexivity. Qed.

Lemma like_percent_later (p : list ascii) (x : ascii) (s : list ascii) :
  like ("%"%char :: p) s = true -> like ("%"%char :: p) (x :: s) = true.
Proof. intros H. rewrite like_percent, H. apply orb_true_r. Qed.

Lemma like_trailing_percent (s : list ascii) : like ["%"%char] s = true.
Proof.
  induction s as [|x s IH].
  - reflexivity.
  - apply like_percent_later, IH.
Qed.

(** Folding the case never produces or removes a backslash. *)
Lemma lower_ascii_backslash (c : ascii) :
  Ascii.eqb (lower_ascii c) "\"%char = Ascii.eqb c "\"%char.
Proof.
  destruct c as [[] [] [] [] [] [] [] []]; reflexivity.
Qed.

(** One pattern character that is not the escape matches its own image. *)
Lemma like_step (c : ascii) (p s : list ascii) :
  Ascii.eqb c "\"%char = false ->
  like p s = true -> like (c :: p) (c :: s) = true.
Proof.
  intros Hesc H. simpl.
  destruct (Ascii.eqb c "%"%char) eqn:E1.
  - apply Ascii.eqb_eq in E1. subst c.
    change (like ("%"%char :: p) ("%"%char :: s) = true).
    apply like_percent_later, like_percent_here, H.
  - destruct (Ascii.eqb c "_"%char); [exact H|].
    rewrite Hesc. simpl. rewrite Ascii.eqb_refl. exact H.
Qed.

Lemma iprefix_like (q s : list ascii) :
  existsb (fun c => Ascii.eqb c "\"%char) q = false ->
  iprefix q s = true ->
  like (map lower_ascii q ++ ["%"%char]) (map lower_ascii s) = true.
Proof.
  revert s. induction q as [|c q IH]; intros s Hesc Hpre.
  - apply like_trailing_percent.
  - simpl in Hesc. apply orb_false_iff in Hesc. destruct Hesc as [Hc Hq].
    destruct s as [|x s]; [discriminate|].
    simpl in Hpre. apply andb_true_iff in Hpre. destruct Hpre as [Hx Hs].
    apply Ascii.eqb_eq in Hx. simpl. rewrite Hx.
    apply like_step.
    + rewrite lower_ascii_backslash. exact Hc.
    + apply IH; assumption.
Qed.

Lemma ioccurs_like (q s : list ascii) :
  existsb (fun c => Ascii.eqb c "\"%char) q = false ->
  ioccurs q s = true ->
  like ("%"%char :: map lower_ascii q ++ ["%"%char]) (map lower_ascii s) = true.
Proof.
  intros Hesc. induction s as [|x s IH]; intros Hocc.
  - simpl in Hocc. rewrite orb_false_r in Hocc.
    apply like_percent_here. now apply (iprefix_like q []).
  - simpl in Hocc. apply orb_true_iff in Hocc. destruct Hocc as [Hpre|Hlater].
    + apply like_percent_here. now apply (iprefix_like q (x :: s)).
    + simpl map. apply like_percent_later. apply IH, Hlater.
Qed.

Lemma list_ascii_of_string_app (a b : string) :
  list_ascii_of_string (a ++ b)
  = list_ascii_of_string a ++ list_ascii_of_string b.
Proof.
  induction a as [|c a IH]; simpl; [reflexivity|]. now rewrite IH.
Qed.

(** A text that contains the query, case folded, passes the filter
    [ilike(f"%{query}%")], provided the query holds no escape character. *)
Lemma icontains_ilike (text query : string) :
  has_backslash query = false ->
  icontains text query = true ->
  ilike_contains text query = true.
Proof.
  unfold has_backslash, icontains, ilike_contains, ilike, lower.
  intros Hesc Hocc.
  rewrite !list_ascii_of_string_app, !map_app. simpl.
  now apply ioccurs_like.
Qed.

(** ** The result list of a search *)

Lemma append_results_ok (score : Q) (docs : list PolicyDocument.t) :
  forall acc results,
    append_results score docs acc = Ok results ->
    exists made,
      results = acc ++ made /\ Forall2 made_from (map (pair score) docs) made.
Proof.
  induction docs as [|d docs IH]; simpl; intros acc results H.
  - exists []. inversion H; subst. rewrite app_nil_r. split; constructor.
  - unfold bind in H. destruct (make_result score d) as [r|e] eqn:E; [|discriminate].
    destruct (IH _ _ H) as [made [-> Hmade]].
    exists (r :: made). split.
    + now rewrite <- app_assoc.
    + constructor; assumption.
Qed.


Lemma made_from_len (hits : list (Q * PolicyDocument.t))
  (results : list PolicySearchResult.t) :
  Forall2 made_from hits results -> len results = len hits.
Proof. intros H. unfold len. now rewrite (Forall2_length H). Qed.

Lemma made_from_id (hit : Q * PolicyDocument.t) (r : PolicySearchResult.t) :
  made_from hit r ->
  PolicySearchResult.id r = PolicyDocument.id (snd hit)
  /\ PolicySearchResult.relevance_score r = Some (fst hit).
Proof.
  unfold made_from, make_result.
  destruct (PolicyDocument.status (snd hit)); [|discriminate].
  intros H. inversion H; subst. split; reflexivity.
Qed.

Lemma made_from_ids (hits : list (Q * PolicyDocument.t))
  (results : list PolicySearchResult.t) :
  Forall2 made_from hits results ->
  map PolicySearchResult.id results = map (fun h => PolicyDocument.id (snd h)) hits.
Proof.
  induction 1 as [|h r hits results Hhr _ IH]; simpl; [reflexivity|].
  destruct (made_from_id _ _ Hhr) as [-> _]. now rewrite IH.
Qed.

Lemma Forall2_in_right {A B} (R : A -> B -> Prop) (l : list A) (l' : list B) (b : B) :
  Forall2 R l l' -> In b l' -> exists a, In a l /\ R a b.
Proof.
  induction 1 as [|x y l l' Hxy _ IH]; simpl; intros Hin; [contradiction|].
  destruct Hin as [->|Hin].
  - exists x. auto.
  - destruct (IH Hin) as [a [Ha HR]]. exists a. auto.
Qed.


Lemma len_map {A B} (f : A -> B) (l : list A) : len (map f l) = len l.
Proof. unfold len. now rewrite length_map. Qed.

Lemma firstn_nonpositive {A} (n : Z) (l : list A) :
  n <= 0 -> firstn (Z.to_nat n) l = [].
Proof. intros Hn. replace (Z.to_nat n) with 0%nat by lia. reflexivity. Qed.

(** The loop of the handler produces exactly the page of the design. *)
Lemma search_results_page (query : string) (skip limit : Z)
  (document_type category department status : option string)
  (docs : list PolicyDocument.t) (results : list PolicySearchResult.t) :
  search_results query skip limit document_type category department status docs
  = Ok results ->
  0 <= skip /\ 0 <= limit
  /\ Forall2 made_from
       (page query skip limit document_type category department status docs)
       results.
Proof.
  unfold search_results, offset_limit.
  destruct ((skip <? 0) || (limit <? 0)) eqn:Hneg; [discriminate|].
  apply orb_false_iff in Hneg. destruct Hneg as [Hs Hl].
  apply Z.ltb_ge in Hs. apply Z.ltb_ge in Hl.
  unfold bind at 1.
  fold (tier_a query skip limit document_type category department status docs).
  set (ta := tier_a query skip limit document_type category department status docs).
  intros H. unfold bind at 1 in H.
  destruct (append_results score_title ta []) as [ra|] eqn:Ea; [|discriminate].
  destruct (append_results_ok _ _ _ _ Ea) as [ma [-> Hma]]. simpl in H.
  assert (Lma : len ma = len ta).
  { rewrite (made_from_len _ _ Hma). apply len_map. }
  rewrite Lma in H.
  unfold bind at 1 in H.
  assert (Hb : (exists mb,
             Forall2 made_from
               (map (pair score_summary)
                  (tier_b query skip limit document_type category department
                     status docs)) mb
             /\ (if limit - len ta >? 0
                 then append_results score_summary
                        (firstn (Z.to_nat (limit - len ta))
                           (summary_matches query document_type category
                              department status docs)) ma
                 else Ok ma) = Ok (ma ++ mb))
             \/ exists e, (if limit - len ta >? 0
                 then append_results score_summary
                        (firstn (Z.to_nat (limit - len ta))
                           (summary_matches query document_type category
                              department status docs)) ma
                 else Ok ma) = Raise e).
  { unfold tier_b. fold ta.
    destruct (limit - len ta >? 0) eqn:Hrem.
    - destruct (append_results score_summary _ ma) as [rb|e] eqn:Eb.
      + destruct (append_results_ok _ _ _ _ Eb) as [mb [-> Hmb]].
        left. exists mb. auto.
      + right. eauto.
    - left. exists []. rewrite app_nil_r. split; [|reflexivity].
      rewrite firstn_nonpositive; [constructor|].
      rewrite Z.gtb_ltb in Hrem. apply Z.ltb_ge in Hrem. lia. }
  destruct Hb as [[mb [Hmb Eb]]|[e Eb]]; rewrite Eb in H; [|discriminate].
  assert (Lmb : len mb
                = len (tier_b query skip limit document_type category department
                         status docs)).
  { rewrite (made_from_len _ _ Hmb). apply len_map. }
  rewrite len_app, Lma, Lmb in H.
  replace (limit - (len ta + len (tier_b query skip limit document_type category
                                    department status docs)))
    with (limit - len ta - len (tier_b query skip limit document_type category
                                  department status docs)) in H by lia.
  split; [exact Hs|]. split; [exact Hl|].
  unfold page. fold ta.
  destruct (limit - len ta - len (tier_b query skip limit document_type category
                                    department status docs) >? 0) eqn:Hrem.
  - destruct (append_results_ok _ _ _ _ H) as [mc [-> Hmc]].
    rewrite <- app_assoc.
    apply Forall2_app; [exact Hma|]. apply Forall2_app; [exact Hmb|exact Hmc].
  - inversion H; subst.
    apply Forall2_app; [exact Hma|].
    rewrite <- (app_nil_r mb). apply Forall2_app; [exact Hmb|].
    unfold tier_c. fold ta. rewrite firstn_nonpositive; [constructor|].
    rewrite Z.gtb_ltb in Hrem. apply Z.ltb_ge in Hrem. lia.
Qed.



(** ** Membership in the filtered queries and in the tiers *)

Lemma filter_eq_In (param : option string) (col : PolicyDocument.t -> option string)
  (rows : list PolicyDocument.t) (d : PolicyDocument.t) :
  In d (filter_eq param col rows) <-> In d rows /\ filter_passes param (col d) = true.
Proof.
  unfold filter_eq, filter_passes. destruct (truthy param).
  - apply filter_In.
  - tauto.
Qed.

Lemma filter_eq_NoDup (param : option string) (col : PolicyDocument.t -> option string)
  (rows : list PolicyDocument.t) :
  NoDup rows -> NoDup (filter_eq param col rows).
Proof.
  unfold filter_eq. destruct (truthy param); [apply NoDup_filter|auto].
Qed.

Section Tiers.
Variables (query : string) (skip limit : Z).
Variables (document_type category department status : option string).
Variable docs : list PolicyDocument.t.

Let base := base_query document_type category department status docs.
Let found := search_query query document_type category department status docs.
Let ta := tier_a query skip limit document_type category department status docs.
Let tb := tier_b query skip limit document_type category department status docs.
Let tc := tier_c query skip limit document_type category department status docs.

Lemma base_query_In (d : PolicyDocument.t) :
  In d base <->
  In d docs
  /\ PolicyDocument.is_public d = Some true
  /\ filter_passes status (PolicyDocument.status d) = true
  /\ filter_passes document_type (Some (PolicyDocument.document_type d)) = true
  /\ filter_passes category (Some (PolicyDocument.category d)) = true
  /\ filter_passes department (Some (PolicyDocument.department d)) = true.
Proof.
  unfold base, base_query.
  rewrite !filter_eq_In, filter_In.
  assert (Hpub : is_true (PolicyDocument.is_public d) = true
                 <-> PolicyDocument.is_public d = Some true).
  { unfold is_true. destruct (PolicyDocument.is_public d) as [[]|];
      split; congruence. }
  rewrite Hpub. tauto.
Qed.

Lemma base_query_NoDup : NoDup docs -> NoDup base.
Proof.
  intros H. unfold base, base_query.
  repeat apply filter_eq_NoDup. now apply NoDup_filter.
Qed.

Lemma title_matches_In (d : PolicyDocument.t) :
  In d (title_matches query document_type category department status docs)
  <-> In d base /\ title_ilike query d = true.
Proof.
  unfold title_matches, search_query. fold base. rewrite !filter_In.
  split.
  - tauto.
  - intros [Hb Ht]. rewrite Ht. simpl. tauto.
Qed.

Lemma summary_matches_In (d : PolicyDocument.t) :
  In d (summary_matches query document_type category department status docs)
  <-> In d base /\ summary_ilike query d = true /\ title_ilike query d = false.
Proof.
  unfold summary_matches, search_query. fold base. rewrite !filter_In.
  rewrite andb_true_iff, negb_true_iff.
  split.
  - tauto.
  - intros [Hb [Hs Ht]]. rewrite Hs, Ht. simpl. tauto.
Qed.

Lemma content_matches_In (d : PolicyDocument.t) :
  In d (content_matches query document_type category department status docs)
  <-> In d base /\ content_ilike query d = true
      /\ title_ilike query d = false /\ summary_ilike query d = false.
Proof.
  unfold content_matches, search_query. fold base. rewrite !filter_In.
  rewrite !andb_true_iff, !negb_true_iff.
  split.
  - tauto.
  - intros [Hb [Hc [Ht Hs]]]. rewrite Hc, Ht, Hs. simpl. tauto.
Qed.

Lemma tier_a_In (d : PolicyDocument.t) :
  In d ta -> In d base /\ title_ilike query d = true.
Proof.
  intros H. apply title_matches_In. unfold ta, tier_a in H.
  eapply in_skipn, in_firstn, H.
Qed.

Lemma tier_b_In (d : PolicyDocument.t) :
  In d tb ->
  In d base /\ summary_ilike query d = true /\ title_ilike query d = false.
Proof.
  intros H. apply summary_matches_In. unfold tb, tier_b in H.
  eapply in_firstn, H.
Qed.

Lemma tier_c_In (d : PolicyDocument.t) :
  In d tc ->
  In d base /\ content_ilike query d = true
  /\ title_ilike query d = false /\ summary_ilike query d = false.
Proof.
  intros H. apply content_matches_In. unfold tc, tier_c in H.
  eapply in_firstn, H.
Qed.

Lemma base_In_docs (d : PolicyDocument.t) : In d base -> In d docs.
Proof. intros H. now apply base_query_In in H. Qed.

(** No document sits in two tiers. *)
Lemma tiers_NoDup : NoDup docs -> NoDup (ta ++ tb ++ tc).
Proof.
  intros Hnd. pose proof (base_query_NoDup Hnd) as Hbase.
  assert (Hfound : NoDup found).
  { unfold found, search_query. now apply NoDup_filter. }
  apply NoDup_app; [| apply NoDup_app |].
  - unfold ta, tier_a, title_matches.
    now apply NoDup_firstn, NoDup_skipn, NoDup_filter.
  - unfold tb, tier_b, summary_matches. now apply NoDup_firstn, NoDup_filter.
  - unfold tc, tier_c, content_matches. now apply NoDup_firstn, NoDup_filter.
  - intros d Hb Hc. apply tier_b_In in Hb. apply tier_c_In in Hc.
    destruct Hb as [_ [Hs _]], Hc as [_ [_ [_ Hs']]]. congruence.
  - intros d Ha Hbc. apply tier_a_In in Ha. destruct Ha as [_ Ht].
    apply in_app_or in Hbc. destruct Hbc as [Hb|Hc].
    + apply tier_b_In in Hb. destruct Hb as [_ [_ Ht']]. congruence.
    + apply tier_c_In in Hc. destruct Hc as [_ [_ [Ht' _]]]. congruence.
Qed.

Lemma tiers_incl : incl (ta ++ tb ++ tc) docs.
Proof.
  intros d H. apply in_app_or in H. destruct H as [H|H].
  - now apply base_In_docs, tier_a_In.
  - apply in_app_or in H. destruct H as [H|H].
    + now apply base_In_docs, tier_b_In.
    + now apply base_In_docs, tier_c_In.
Qed.

Lemma page_documents :
  map snd (page query skip limit document_type category department status docs)
  = ta ++ tb ++ tc.
Proof.
  unfold page. rewrite !map_app, !map_map. simpl. now rewrite !map_id.
Qed.

Lemma page_In (s : Q) (d : PolicyDocument.t) :
  In (s, d) (page query skip limit document_type category department status docs) ->
  (s = score_title /\ In d ta) \/ (s = score_summary /\ In d tb)
  \/ (s = score_content /\ In d tc).
Proof.
  unfold page. intros H.
  apply in_app_or in H. destruct H as [H|H].
  - apply in_map_iff in H. destruct H as [x [E Hx]]. inversion E; subst. auto.
  - apply in_app_or in H. destruct H as [H|H];
      apply in_map_iff in H; destruct H as [x [E Hx]]; inversion E; subst; auto.
Qed.

Lemma page_len :
  0 <= limit ->
  len (page query skip limit document_type category department status docs)
  = len ta + len tb + len tc
  /\ len ta + len tb + len tc <= limit.
Proof.
  intros Hl. split.
  - unfold page. rewrite !len_app, !len_map. fold ta tb tc. lia.
  - assert (Ha : len ta <= limit) by (apply len_firstn; lia).
    pose proof (len_nonneg ta).
    assert (Hb : len tb <= limit - len ta).
    { unfold tb, tier_b. fold ta. apply len_firstn. lia. }
    pose proof (len_nonneg tb).
    assert (Hc : len tc <= limit - len ta - len tb).
    { unfold tc, tier_c. fold ta tb. apply len_firstn. lia. }
    lia.
Qed.
End Tiers.


(** ** Mapper configuration *)

(** models.py as declared does not configure: [PolicyDocument.citations]
    has two candidate foreign keys. *)
Lemma models_do_not_configure : configure_mappers models = Raise citations_are_ambiguous.
Proof. reflexivity. Qed.

Lemma citing_key_configures : configure_mappers models_with_citing_key = Ok tt.
Proof. reflexivity. Qed.

Lemma on_first_query_ok {A} (m : Mapping) (db db' : DB) (body : result A * DB) (a : A) :
  on_first_query m db body = (Ok a, db') ->
  configure_mappers m = Ok tt /\ body = (Ok a, db').
Proof.
  unfold on_first_query. destruct (configure_mappers m) as [[]|e].
  - auto.
  - discriminate.
Qed.

Lemma on_first_query_raise {A} (m : Mapping) (db db' : DB) (body : result A * DB)
  (e : exn) :
  on_first_query m db body = (Raise e, db') ->
  (configure_mappers m = Raise e /\ db' = db)
  \/ (configure_mappers m = Ok tt /\ body = (Raise e, db')).
Proof.
  unfold on_first_query. destruct (configure_mappers m) as [[]|e'].
  - auto.
  - intros H. inversion H. auto.
Qed.


Lemma on_first_query_snd {A} (m : Mapping) (db : DB) (body : result A * DB) :
  snd (on_first_query m db body) = db \/ on_first_query m db body = body.
Proof.
  unfold on_first_query. destruct (configure_mappers m); auto.
Qed.

(** ** Search: what the handler returns and stores *)

Lemma filter_eq_as_filter (param : option string)
  (col : PolicyDocument.t -> option string) (rows : list PolicyDocument.t) :
  filter_eq param col rows = filter (fun d => filter_passes param (col d)) rows.
Proof.
  unfold filter_eq, filter_passes. destruct (truthy param); [reflexivity|].
  induction rows as [|d rows IH]; simpl; congruence.
Qed.

Lemma filter_filter {A} (p q : A -> bool) (l : list A) :
  filter q (filter p l) = filter (fun x => p x && q x) l.
Proof.
  induction l as [|x l IH]; simpl; [reflexivity|].
  destruct (p x); simpl; [destruct (q x)|]; now rewrite ?IH.
Qed.

Lemma search_returned (m : Mapping) (query : string) (skip limit : Z)
  (document_type category department status : option string)
  (clk : Clock) (db db' : DB) (results : list PolicySearchResult.t) :
  search_policy_documents m query skip limit document_type category department
    status clk db = (Ok results, db') ->
  configure_mappers m = Ok tt
  /\ search_results query skip limit document_type category department status
       (policy_documents db) = Ok results
  /\ record_appearances results clk (policy_analytics db) = Ok (policy_analytics db')
  /\ db' = set_policy_analytics (policy_analytics db') db.
Proof.
  unfold search_policy_documents. intros H.
  apply on_first_query_ok in H. destruct H as [Hm H].
  destruct (search_results query skip limit document_type category department
              status (policy_documents db)) as [rs|e]; [|discriminate].
  destruct (record_appearances rs clk (policy_analytics db)) as [rows|e] eqn:R;
    [|discriminate].
  inversion H; subst. repeat split; auto.
Qed.

Lemma search_raised (m : Mapping) (query : string) (skip limit : Z)
  (document_type category department status : option string)
  (clk : Clock) (db db' : DB) (e : exn) :
  search_policy_documents m query skip limit document_type category department
    status clk db = (Raise e, db') ->
  db' = db
  /\ (configure_mappers m = Raise e
      \/ search_results query skip limit document_type category department status
           (policy_documents db) = Raise e
      \/ exists results,
           search_results query skip limit document_type category department status
             (policy_documents db) = Ok results
           /\ record_appearances results clk (policy_analytics db) = Raise e).
Proof.
  unfold search_policy_documents. intros H.
  apply on_first_query_raise in H. destruct H as [[Hm ->]|[Hm H]]; [auto|].
  destruct (search_results query skip limit document_type category department
              status (policy_documents db)) as [rs|e0].
  - destruct (record_appearances rs clk (policy_analytics db)) as [rows|e1] eqn:R;
      [discriminate|].
    inversion H; subst. eauto 6.
  - inversion H; subst. auto.
Qed.

(** What the handler's queries select, read off the stored documents. *)
Lemma base_query_found (document_type category department status : option string)
  (docs : list PolicyDocument.t) :
  base_query document_type category department status docs
  = filter (can_be_found document_type category department status) docs.
Proof.
  unfold base_query. rewrite !filter_eq_as_filter, !filter_filter.
  apply filter_ext. intros d. unfold can_be_found. now rewrite !andb_assoc.
Qed.

Lemma title_matches_found (query : string)
  (document_type category department status : option string)
  (docs : list PolicyDocument.t) :
  title_matches query document_type category department status docs
  = filter (in_tier_a query)
      (filter (can_be_found document_type category department status) docs).
Proof.
  unfold title_matches, search_query. rewrite base_query_found, filter_filter.
  apply filter_ext. intros d. unfold in_tier_a, title_ilike.
  destruct (ilike_contains (PolicyDocument.title d) query); simpl;
    [reflexivity|apply andb_false_r].
Qed.

Lemma summary_matches_found (query : string)
  (document_type category department status : option string)
  (docs : list PolicyDocument.t) :
  summary_matches query document_type category department status docs
  = filter (in_tier_b query)
      (filter (can_be_found document_type category department status) docs).
Proof.
  unfold summary_matches, search_query. rewrite base_query_found, filter_filter.
  apply filter_ext. intros d.
  unfold in_tier_b, title_ilike, summary_ilike.
  destruct (ilike_contains (PolicyDocument.title d) query),
           (ilike_contains (PolicyDocument.summary d) query); simpl;
    rewrite ?andb_false_r; reflexivity.
Qed.

Lemma content_matches_found (query : string)
  (document_type category department status : option string)
  (docs : list PolicyDocument.t) :
  content_matches query document_type category department status docs
  = filter (in_tier_c query)
      (filter (can_be_found document_type category department status) docs).
Proof.
  unfold content_matches, search_query. rewrite base_query_found, filter_filter.
  apply filter_ext. intros d.
  unfold in_tier_c, title_ilike, summary_ilike, content_ilike.
  destruct (ilike_contains (PolicyDocument.title d) query),
           (ilike_contains (PolicyDocument.summary d) query),
           (ilike_contains (PolicyDocument.content d) query); simpl;
    rewrite ?andb_false_r; reflexivity.
Qed.

Lemma page_expected (query : string) (skip limit : Z)
  (document_type category department status : option string)
  (docs : list PolicyDocument.t) :
  page query skip limit document_type category department status docs
  = expected_page query skip limit document_type category department status docs.
Proof.
  unfold page, expected_page, tier_c, tier_b, tier_a.
  now rewrite title_matches_found, summary_matches_found, content_matches_found.
Qed.

Lemma made_from_shows (hit : Q * PolicyDocument.t) (r : PolicySearchResult.t) :
  made_from hit r -> shows hit r.
Proof.
  unfold made_from, make_result, shows.
  destruct (PolicyDocument.status (snd hit)) as [st|]; [|discriminate].
  intros H. injection H as <-. cbn. repeat split.
Qed.

Lemma Forall2_impl {A B} (R R' : A -> B -> Prop) (l : list A) (l' : list B) :
  (forall a b, R a b -> R' a b) -> Forall2 R l l' -> Forall2 R' l l'.
Proof. intros HR. induction 1; constructor; auto. Qed.

Lemma page_bound (query : string) (skip limit : Z)
  (document_type category department status : option string)
  (docs : list PolicyDocument.t) (results : list PolicySearchResult.t) :
  search_results query skip limit document_type category department status docs
  = Ok results ->
  len results <= limit.
Proof.
  intros E.
  destruct (search_results_page _ _ _ _ _ _ _ _ _ E) as [_ [Hl Hpage]].
  rewrite (made_from_len _ _ Hpage).
  destruct (page_len query skip limit document_type category department status
              docs Hl) as [-> Hle]. exact Hle.
Qed.

(** ** Search: pagination, tiers, inclusion *)

(** C4.  Pagination of the search.  Every list that the search returns is
    the page of the design, entry by entry: tier A of the stored documents
    from [skip] on (the only place where the offset is applied) cut at
    [limit], then tier B from its first document for the [limit - count(A)]
    slots left, then tier C from its first document for the slots still
    left.  Each entry shows its document field by field with the score of
    its tier, and the list never has more than [limit] entries.  A search
    that raises leaves the store as it was. *)
Theorem search_pagination (m : Mapping) (query : string) (skip limit : Z)
  (document_type category department status : option string)
  (clk : Clock) (db : DB) :
  match search_policy_documents m query skip limit document_type category
          department status clk db with
  | (Ok results, _) =>
      Forall2 shows
        (expected_page query skip limit document_type category department status
           (policy_documents db))
        results
      /\ len results <= limit
      /\ 0 <= skip
  | (Raise _, db') => db' = db
  end.
Proof.
  destruct (search_policy_documents m query skip limit document_type category
              department status clk db) as [[results|e] db'] eqn:E.
  - apply search_returned in E. destruct E as [_ [E _]].
    destruct (search_results_page _ _ _ _ _ _ _ _ _ E) as [Hs [Hl Hpage]].
    split; [|split; [|exact Hs]].
    + rewrite <- page_expected.
      revert Hpage. apply Forall2_impl, made_from_shows.
    + now apply page_bound in E.
  - now apply search_raised in E.
Qed.

Example search_pagination_witness :
  Forall2 shows
    (expected_page "water" 1 3 None None None (Some "active")
       (policy_documents sample_db))
    offset_results
  /\ len offset_results <= 3
  /\ map PolicySearchResult.id offset_results
     = [PolicyDocument.id energy_code; PolicyDocument.id forest_act]
  /\ map PolicySearchResult.relevance_score offset_results
     = [Some score_summary; Some score_content].
Proof.
  pose proof (search_pagination models_with_citing_key "water" 1 3 None None None
                (Some "active") (at_time noon) sample_db) as H.
  assert (E : search_policy_documents models_with_citing_key "water" 1 3 None None
                None (Some "active") (at_time noon) sample_db
              = (Ok offset_results,
                 snd (search_policy_documents models_with_citing_key "water" 1 3
                        None None None (Some "active") (at_time noon) sample_db)))
    by (vm_compute; reflexivity).
  rewrite E in H. destruct H as [Hpage [Hlen _]].
  split; [exact Hpage|]. split; [exact Hlen|]. split; reflexivity.
Defined.

(** C2.  Tier exclusivity.  On a store whose document keys are unique, every
    entry of a returned result list comes from one stored document; an entry
    for a document whose title matches the query always carries the title
    score, an entry with the summary score belongs to a document whose title
    does not match, an entry with the content score to one whose title and
    summary do not match; and no document id occurs twice in the list. *)
Theorem tier_exclusivity (m : Mapping) (query : string) (skip limit : Z)
  (document_type category department status : option string)
  (clk : Clock) (db db' : DB) (results : list PolicySearchResult.t) :
  unique_ids db ->
  search_policy_documents m query skip limit document_type category department
    status clk db = (Ok results, db') ->
  NoDup (map PolicySearchResult.id results)
  /\ (forall r, In r results ->
        exists d, In d (policy_documents db)
                  /\ PolicyDocument.id d = PolicySearchResult.id r)
  /\ (forall d r,
        In d (policy_documents db) -> In r results ->
        PolicySearchResult.id r = PolicyDocument.id d ->
        (title_ilike query d = true ->
           PolicySearchResult.relevance_score r = Some score_title)
        /\ (PolicySearchResult.relevance_score r = Some score_summary ->
              title_ilike query d = false /\ summary_ilike query d = true)
        /\ (PolicySearchResult.relevance_score r = Some score_content ->
              title_ilike query d = false /\ summary_ilike query d = false
              /\ content_ilike query d = true)).
Proof.
  unfold unique_ids. intros Huniq H.
  apply search_returned in H. destruct H as [_ [E _]].
  destruct (search_results_page _ _ _ _ _ _ _ _ _ E) as [_ [_ Hpage]].
  pose proof (tiers_incl query skip limit document_type category department
                status (policy_documents db)) as Hincl.
  assert (Hsrc : forall r, In r results ->
            exists s d, In (s, d) (page query skip limit document_type category
                                     department status (policy_documents db))
                        /\ In d (policy_documents db)
                        /\ PolicySearchResult.id r = PolicyDocument.id d
                        /\ PolicySearchResult.relevance_score r = Some s).
  { intros r Hr.
    destruct (Forall2_in_right _ _ _ _ Hpage Hr) as [[s d] [Hin Hmade]].
    destruct (made_from_id _ _ Hmade) as [Hid Hsc].
    exists s, d. repeat split; auto.
    apply Hincl. rewrite <- page_documents.
    change d with (snd (s, d)). now apply in_map. }
  split; [|split].
  - rewrite (made_from_ids _ _ Hpage), <- (map_map snd PolicyDocument.id),
      page_documents.
    apply (NoDup_map_selection _ (policy_documents db)); auto.
    apply tiers_NoDup. now apply NoDup_map_inv in Huniq.
  - intros r Hr. destruct (Hsrc r Hr) as [s [d [_ [Hd [Hid _]]]]]. eauto.
  - intros d r Hd Hr Hid.
    destruct (Hsrc r Hr) as [s [d' [Hpg [Hd' [Hid' Hsc]]]]].
    assert (d' = d).
    { apply (key_injective PolicyDocument.id (policy_documents db)); auto.
      congruence. }
    subst d'. rewrite Hsc.
    apply page_In in Hpg.
    destruct Hpg as [[-> Hin]|[[-> Hin]|[-> Hin]]].
    + apply tier_a_In in Hin. destruct Hin as [_ Ht].
      repeat split; intros; try reflexivity; try discriminate.
    + apply tier_b_In in Hin. destruct Hin as [_ [Hs Ht]].
      repeat split; intros; try congruence; try discriminate.
    + apply tier_c_In in Hin. destruct Hin as [_ [Hc [Ht Hs]]].
      repeat split; intros; try congruence; try discriminate.
Qed.

Example tier_exclusivity_witness :
  NoDup (map PolicySearchResult.id water_results)
  /\ (forall r, In r water_results ->
        exists d, In d (policy_documents sample_db)
                  /\ PolicyDocument.id d = PolicySearchResult.id r)
  /\ (forall d r,
        In d (policy_documents sample_db) -> In r water_results ->
        PolicySearchResult.id r = PolicyDocument.id d ->
        (title_ilike "water" d = true ->
           PolicySearchResult.relevance_score r = Some score_title)
        /\ (PolicySearchResult.relevance_score r = Some score_summary ->
              title_ilike "water" d = false /\ summary_ilike "water" d = true)
        /\ (PolicySearchResult.relevance_score r = Some score_content ->
              title_ilike "water" d = false /\ summary_ilike "water" d = false
              /\ content_ilike "water" d = true)).
Proof.
  apply (tier_exclusivity models_with_citing_key "water" 0 100 None None None (Some "active")
           (at_time noon) sample_db water_db water_results).
  - unfold unique_ids. cbn. repeat constructor; cbn; lia.
  - vm_compute. reflexivity.
Defined.

(** C10.  A match in the keywords or in the document number alone does not
    bring a document into the results.  Such a document passes the full-text
    filter of the handler, but every entry of a returned list carries one of
    the three scores 1.0, 0.7, 0.5 and belongs to a public stored document
    that matches the query in its title, its summary or its content; on a
    store with unique keys, a document that matches in none of the three
    has no entry. *)
Theorem keyword_only_match_excluded (m : Mapping) (query : string) (skip limit : Z)
  (document_type category department status : option string)
  (clk : Clock) (db db' : DB) (results : list PolicySearchResult.t) :
  unique_ids db ->
  search_policy_documents m query skip limit document_type category department
    status clk db = (Ok results, db') ->
  (forall r, In r results ->
     (PolicySearchResult.relevance_score r = Some score_title
      \/ PolicySearchResult.relevance_score r = Some score_summary
      \/ PolicySearchResult.relevance_score r = Some score_content)
     /\ exists d, In d (policy_documents db)
                  /\ PolicyDocument.id d = PolicySearchResult.id r
                  /\ PolicyDocument.is_public d = Some true
                  /\ (title_ilike query d || summary_ilike query d
                      || content_ilike query d) = true)
  /\ (forall d, In d (policy_documents db) ->
        title_ilike query d = false -> summary_ilike query d = false ->
        content_ilike query d = false ->
        ~ In (PolicyDocument.id d) (map PolicySearchResult.id results))
  /\ (forall d,
        In d (base_query document_type category department status
                (policy_documents db)) ->
        (keywords_ilike query d || document_number_ilike query d) = true ->
        In d (search_query query document_type category department status
                (policy_documents db))).
Proof.
  unfold unique_ids. intros Huniq H.
  apply search_returned in H. destruct H as [_ [E _]].
  destruct (search_results_page _ _ _ _ _ _ _ _ _ E) as [_ [_ Hpage]].
  assert (Hsrc : forall r, In r results ->
            (PolicySearchResult.relevance_score r = Some score_title
             \/ PolicySearchResult.relevance_score r = Some score_summary
             \/ PolicySearchResult.relevance_score r = Some score_content)
            /\ exists d, In d (policy_documents db)
                 /\ PolicyDocument.id d = PolicySearchResult.id r
                 /\ PolicyDocument.is_public d = Some true
                 /\ (title_ilike query d || summary_ilike query d
                     || content_ilike query d) = true).
  { intros r Hr.
    destruct (Forall2_in_right _ _ _ _ Hpage Hr) as [[s d] [Hin Hmade]].
    destruct (made_from_id _ _ Hmade) as [Hid Hsc]. simpl in Hid, Hsc.
    rewrite Hsc.
    apply page_In in Hin.
    destruct Hin as [[-> Hin]|[[-> Hin]|[-> Hin]]].
    - apply tier_a_In in Hin. destruct Hin as [Hb Ht].
      apply base_query_In in Hb. destruct Hb as [Hd [Hpub _]].
      split; [auto|]. exists d. rewrite Ht. auto.
    - apply tier_b_In in Hin. destruct Hin as [Hb [Hs Ht]].
      apply base_query_In in Hb. destruct Hb as [Hd [Hpub _]].
      split; [auto|]. exists d. rewrite Hs, orb_true_r. auto.
    - apply tier_c_In in Hin. destruct Hin as [Hb [Hc _]].
      apply base_query_In in Hb. destruct Hb as [Hd [Hpub _]].
      split; [auto|]. exists d. rewrite Hc, orb_true_r. auto. }
  split; [exact Hsrc|]. split.
  - intros d Hd Ht Hs Hc Hin.
    apply in_map_iff in Hin. destruct Hin as [r [Hid Hr]].
    destruct (Hsrc r Hr) as [_ [d' [Hd' [Hid' [_ Hm]]]]].
    assert (d' = d).
    { apply (key_injective PolicyDocument.id (policy_documents db)); auto.
      congruence. }
    subst d'. rewrite Ht, Hs, Hc in Hm. discriminate.
  - intros d Hb Hk. unfold search_query. apply filter_In. split; [exact Hb|].
    apply orb_true_iff in Hk. destruct Hk as [Hk|Hk]; rewrite Hk;
      rewrite ?orb_true_r; reflexivity.
Qed.

Example keyword_only_match_excluded_witness :
  ~ In (PolicyDocument.id fisheries_act) (map PolicySearchResult.id water_results)
  /\ In fisheries_act
       (search_query "water" None None None (Some "active")
          (policy_documents sample_db)).
Proof.
  destruct (keyword_only_match_excluded models_with_citing_key "water" 0 100 None None None
              (Some "active") (at_time noon) sample_db water_db water_results)
    as [_ [Hout Hbase]].
  - unfold unique_ids. cbn. repeat constructor; cbn; lia.
  - vm_compute. reflexivity.
  - split.
    + apply Hout; [cbn; tauto|reflexivity|reflexivity|reflexivity].
    + apply Hbase; [cbn; tauto|reflexivity].
Defined.

(** The exceptions of the handler body. *)
Lemma append_results_error (score : Q) (docs : list PolicyDocument.t) :
  forall acc e, append_results score docs acc = Raise e -> e = ValidationError "status".
Proof.
  induction docs as [|d docs IH]; simpl; intros acc e H; [discriminate|].
  unfold bind, make_result in H.
  destruct (PolicyDocument.status d).
  - eapply IH, H.
  - now inversion H.
Qed.

Lemma search_results_error (query : string) (skip limit : Z)
  (document_type category department status : option string)
  (docs : list PolicyDocument.t) (e : exn) :
  search_results query skip limit document_type category department status docs
  = Raise e ->
  skip < 0 \/ limit < 0 \/ e = ValidationError "status".
Proof.
  unfold search_results, offset_limit.
  destruct (Z.ltb_spec skip 0) as [Hs|Hs]; [auto|].
  destruct (Z.ltb_spec limit 0) as [Hl|Hl]; [auto|].
  cbn [orb bind]. intros H. right. right.
  destruct (append_results score_title _ []) as [ra|e0] eqn:Ea; cbn [bind] in H.
  - destruct (limit - len ra >? 0).
    + destruct (append_results score_summary _ ra) as [rb|e1] eqn:Eb; cbn [bind] in H.
      * destruct (limit - len rb >? 0); [|discriminate].
        eapply append_results_error, H.
      * inversion H; subst. eapply append_results_error, Eb.
    + cbn [bind] in H. destruct (limit - len ra >? 0); [|discriminate].
      eapply append_results_error, H.
  - inversion H; subst. eapply append_results_error, Ea.
Qed.

Lemma record_event_error (c : counter) (document_id : Z) (clk : Clock)
  (rows : list PolicyAnalytics.t) (e : exn) :
  record_event c document_id clk rows = Raise e -> e = out_of_range.
Proof.
  unfold record_event.
  destruct (first _ rows) as [a|].
  - destruct (fits _); [discriminate|]. now inversion 1.
  - destruct (fits _); [discriminate|]. now inversion 1.
Qed.

Lemma for_each_error {A B} (body : B -> A -> result B) (bad : exn) (l : list A) :
  (forall acc x e, body acc x = Raise e -> e = bad) ->
  forall acc e, for_each body l acc = Raise e -> e = bad.
Proof.
  intros Hbody. induction l as [|x l IH]; simpl; intros acc e H; [discriminate|].
  unfold bind in H. destruct (body acc x) as [acc'|e'] eqn:E.
  - eapply IH, H.
  - inversion H; subst. eapply Hbody, E.
Qed.

Lemma record_appearances_error (results : list PolicySearchResult.t) (clk : Clock)
  (rows : list PolicyAnalytics.t) (e : exn) :
  record_appearances results clk rows = Raise e -> e = out_of_range.
Proof.
  unfold record_appearances. apply for_each_error.
  intros acc x e'. apply record_event_error.
Qed.




(** ** The daily analytics rows *)

Lemma day_bounds (t : datetime) :
  days (date_of t) <= t <= days (date_of t + 1) - 1.
Proof.
  unfold days, date_of.
  assert (Hpos : 0 < us_per_day) by reflexivity.
  pose proof (Z.div_mod t us_per_day ltac:(lia)).
  pose proof (Z.mod_pos_bound t us_per_day Hpos).
  lia.
Qed.

Lemma total_update_first {A} (g : A -> Z) (p q : A -> bool) (f : A -> A) (l : list A) :
  (forall x, q (f x) = q x) ->
  py_sum (map g (filter q (update_first p f l)))
  = py_sum (map g (filter q l))
    + match first p l with
      | Some x => if q x then g (f x) - g x else 0
      | None => 0
      end.
Proof.
  intros Hq. unfold first.
  induction l as [|y l IH]; simpl.
  - reflexivity.
  - destruct (p y) eqn:Hp; simpl.
    + rewrite Hq. destruct (q y); simpl; rewrite ?py_sum_cons; lia.
    + destruct (q y); simpl; rewrite ?py_sum_cons, IH; lia.
Qed.

Lemma increment_value (c : counter) (col : column) (a : PolicyAnalytics.t) :
  value col (increment c a) - value col a
  = if column_eqb col (column_of c) then 1 else 0.
Proof. destruct a, c, col; simpl; lia. Qed.

Lemma new_row_value (c : counter) (col : column) (row_id document_id : Z)
  (now : datetime) :
  value col (new_row c row_id document_id now)
  = if column_eqb col (column_of c) then 1 else 0.
Proof. destruct c, col; reflexivity. Qed.

Lemma increment_key (c : counter) (a : PolicyAnalytics.t) :
  PolicyAnalytics.policy_document_id (increment c a)
  = PolicyAnalytics.policy_document_id a
  /\ PolicyAnalytics.analytics_date (increment c a)
     = PolicyAnalytics.analytics_date a.
Proof. destruct a, c; split; reflexivity. Qed.

Lemma new_row_key (c : counter) (row_id document_id : Z) (now : datetime) :
  PolicyAnalytics.policy_document_id (new_row c row_id document_id now) = document_id
  /\ PolicyAnalytics.analytics_date (new_row c row_id document_id now) = now.
Proof. destruct c; split; reflexivity. Qed.

Lemma increment_row_of_day (c : counter) (document_id : Z) (day : date)
  (a : PolicyAnalytics.t) :
  row_of_day document_id day (increment c a) = row_of_day document_id day a.
Proof.
  unfold row_of_day. destruct (increment_key c a) as [-> ->]. reflexivity.
Qed.

Lemma increment_in_period (c : counter) (document_id : Z) (s e : datetime)
  (a : PolicyAnalytics.t) :
  in_period document_id s e (increment c a) = in_period document_id s e a.
Proof.
  unfold in_period. destruct (increment_key c a) as [-> ->]. reflexivity.
Qed.

(** One event adds exactly one to its counter on the touched row and leaves
    every sum over a set of rows closed under [increment] otherwise alone. *)
Lemma recorded_total (q : PolicyAnalytics.t -> bool) (c : counter) (col : column)
  (document_id : Z) (clk : Clock) (rows : list PolicyAnalytics.t) :
  (forall a, q (increment c a) = q a) ->
  py_sum (map (value col) (filter q (recorded c document_id clk rows)))
  = py_sum (map (value col) (filter q rows))
    + (if q (touched c document_id clk rows) && column_eqb col (column_of c)
       then 1 else 0).
Proof.
  intros Hq. unfold recorded, touched.
  destruct (first (row_of_day document_id (date_of (datetime_now clk))) rows)
    as [a|] eqn:E.
  - rewrite total_update_first by exact Hq. rewrite E.
    rewrite increment_value.
    destruct (q a), (column_eqb col (column_of c)); reflexivity.
  - rewrite filter_app, map_app, py_sum_app. simpl.
    destruct (q (new_row c _ document_id (datetime_now clk))); simpl.
    + rewrite py_sum_cons, new_row_value.
      destruct (column_eqb col (column_of c)); reflexivity.
    + reflexivity.
Qed.

Lemma row_of_day_touched (c : counter) (document_id : Z) (clk : Clock)
  (rows : list PolicyAnalytics.t) (document_id' : Z) (day : date) :
  row_of_day document_id' day (touched c document_id clk rows)
  = (document_id =? document_id') && (date_of (datetime_now clk) =? day).
Proof.
  unfold touched.
  destruct (first (row_of_day document_id (date_of (datetime_now clk))) rows)
    as [a|] eqn:E.
  - apply first_in in E. destruct E as [_ Ha].
    unfold row_of_day in *. apply andb_true_iff in Ha. destruct Ha as [H1 H2].
    apply Z.eqb_eq in H1, H2. rewrite H1, H2. reflexivity.
  - unfold row_of_day. destruct (new_row_key c (next_id (map PolicyAnalytics.id rows))
                                   document_id (datetime_now clk)) as [-> ->].
    reflexivity.
Qed.

(** Day bucketing: an event adds one to its counter in the bucket of its
    document and day, and nothing anywhere else. *)
Lemma recorded_day_total (c : counter) (col : column)
  (document_id : Z) (clk : Clock) (rows : list PolicyAnalytics.t)
  (document_id' : Z) (day : date) :
  day_total col document_id' day (recorded c document_id clk rows)
  = day_total col document_id' day rows
    + (if (document_id =? document_id') && (date_of (datetime_now clk) =? day)
          && column_eqb col (column_of c)
       then 1 else 0).
Proof.
  unfold day_total. rewrite recorded_total.
  - now rewrite row_of_day_touched.
  - intros a. apply increment_row_of_day.
Qed.

Lemma bucket_time_recorded (c : counter) (document_id : Z) (clk : Clock)
  (rows : list PolicyAnalytics.t) :
  bucket_time document_id (date_of (datetime_now clk))
    (recorded c document_id clk rows)
  = Some (default (datetime_now clk)
            (bucket_time document_id (date_of (datetime_now clk)) rows)).
Proof.
  unfold bucket_time, recorded.
  destruct (first (row_of_day document_id (date_of (datetime_now clk))) rows)
    as [a|] eqn:E.
  - rewrite first_update_same.
    + rewrite E. simpl. now destruct (increment_key c a) as [_ ->].
    + intros x Hx. now rewrite increment_row_of_day.
  - rewrite (first_app_missing _ _ _ E). unfold first. simpl.
    unfold row_of_day at 1.
    destruct (new_row_key c (next_id (map PolicyAnalytics.id rows)) document_id
                (datetime_now clk)) as [Hid Ht].
    rewrite Hid, Ht, !Z.eqb_refl. simpl. now rewrite Ht.
Qed.

Lemma in_period_touched (c : counter) (document_id : Z) (clk : Clock)
  (rows : list PolicyAnalytics.t) (s e : datetime) :
  in_period document_id s e (touched c document_id clk rows)
  = within s e (default (datetime_now clk)
                  (bucket_time document_id (date_of (datetime_now clk)) rows)).
Proof.
  unfold touched, bucket_time, in_period, within.
  destruct (first (row_of_day document_id (date_of (datetime_now clk))) rows)
    as [a|] eqn:E; simpl.
  - apply first_in in E. destruct E as [_ Ha].
    unfold row_of_day in Ha. apply andb_true_iff in Ha. destruct Ha as [H1 _].
    now rewrite H1.
  - destruct (new_row_key c (next_id (map PolicyAnalytics.id rows)) document_id
                (datetime_now clk)) as [-> ->].
    now rewrite Z.eqb_refl.
Qed.

(** The report window sees an event through the timestamp of its bucket. *)
Lemma recorded_period_total (c : counter) (col : column)
  (document_id : Z) (clk : Clock) (rows : list PolicyAnalytics.t) (s e : datetime) :
  period_total col document_id s e (recorded c document_id clk rows)
  = period_total col document_id s e rows
    + (if within s e (default (datetime_now clk)
                        (bucket_time document_id (date_of (datetime_now clk)) rows))
          && column_eqb col (column_of c)
       then 1 else 0).
Proof.
  unfold period_total. rewrite recorded_total.
  - now rewrite in_period_touched.
  - intros a. apply increment_in_period.
Qed.

(** An event that is accepted leaves the rows of [recorded]; one that is
    refused was about to leave the range of a column. *)
Lemma record_event_ok (c : counter) (document_id : Z) (clk : Clock)
  (rows rows' : list PolicyAnalytics.t) :
  record_event c document_id clk rows = Ok rows' ->
  rows' = recorded c document_id clk rows.
Proof.
  unfold record_event, recorded.
  destruct (first _ rows) as [a|].
  - destruct (fits _); [|discriminate]. now inversion 1.
  - destruct (fits _); [|discriminate]. now inversion 1.
Qed.

Lemma record_event_day_total (c : counter) (col : column)
  (document_id : Z) (clk : Clock) (rows rows' : list PolicyAnalytics.t)
  (document_id' : Z) (day : date) :
  record_event c document_id clk rows = Ok rows' ->
  day_total col document_id' day rows'
  = day_total col document_id' day rows
    + (if (document_id =? document_id') && (date_of (datetime_now clk) =? day)
          && column_eqb col (column_of c)
       then 1 else 0).
Proof. intros H. apply record_event_ok in H. subst. apply recorded_day_total. Qed.

Lemma record_event_period_total (c : counter) (col : column)
  (document_id : Z) (clk : Clock) (rows rows' : list PolicyAnalytics.t)
  (s e : datetime) :
  record_event c document_id clk rows = Ok rows' ->
  period_total col document_id s e rows'
  = period_total col document_id s e rows
    + (if within s e (default (datetime_now clk)
                        (bucket_time document_id (date_of (datetime_now clk)) rows))
          && column_eqb col (column_of c)
       then 1 else 0).
Proof. intros H. apply record_event_ok in H. subst. apply recorded_period_total. Qed.

Lemma bucket_time_record_event (c : counter) (document_id : Z) (clk : Clock)
  (rows rows' : list PolicyAnalytics.t) :
  record_event c document_id clk rows = Ok rows' ->
  bucket_time document_id (date_of (datetime_now clk)) rows'
  = Some (default (datetime_now clk)
            (bucket_time document_id (date_of (datetime_now clk)) rows)).
Proof. intros H. apply record_event_ok in H. subst. apply bucket_time_recorded. Qed.

(** Further views of a day whose bucket was created at time [t]. *)
Lemma record_views_later (col : column) (document_id : Z) (day : date)
  (t s e : datetime) (clks : list Clock) :
  Forall (fun c => date_of (datetime_now c) = day) clks ->
  forall rows rows',
    bucket_time document_id day rows = Some t ->
    record_views document_id clks rows = Ok rows' ->
    bucket_time document_id day rows' = Some t
    /\ period_total col document_id s e rows'
       = period_total col document_id s e rows
         + (if within s e t && column_eqb col ColViews then len clks else 0)
    /\ day_total col document_id day rows'
       = day_total col document_id day rows
         + (if column_eqb col ColViews then len clks else 0).
Proof.
  unfold record_views.
  induction 1 as [|clk clks Hclk _ IH]; intros rows rows' Hb Hrun; simpl in Hrun.
  - inversion Hrun; subst. split; [exact Hb|].
    split; destruct (_ : bool); unfold len; simpl; lia.
  - unfold bind in Hrun.
    destruct (record_event Views document_id clk rows) as [rows1|] eqn:E1;
      [|discriminate].
    assert (Hb1 : bucket_time document_id day rows1 = Some t).
    { rewrite <- Hclk at 1. rewrite (bucket_time_record_event _ _ _ _ _ E1).
      now rewrite Hclk, Hb. }
    destruct (IH rows1 rows' Hb1 Hrun) as [Hb' [Hp Hd]].
    split; [exact Hb'|]. rewrite Hp, Hd.
    rewrite (record_event_period_total _ col _ _ _ _ s e E1).
    rewrite (record_event_day_total _ col _ _ _ _ document_id day E1).
    rewrite Hclk, Hb, !Z.eqb_refl. cbn [default andb column_of].
    rewrite len_cons.
    split; destruct (within s e t), (column_eqb col ColViews); cbn [andb]; lia.
Qed.

(** What a returned report holds. *)
Lemma report_shape (m : Mapping) (document_id : Z) (s e : datetime_tz) (user : User.t)
  (db : DB) (r : PolicyAnalyticsReport.t) :
  get_policy_analytics m document_id s e user db = Ok r ->
  exists doc divisor,
    configure_mappers m = Ok tt
    /\ elevated user = true
    /\ first (has_id document_id) (policy_documents db) = Some doc
    /\ days_in_period s e = Ok divisor
    /\ true_div
         (period_total ColViews document_id (wall s) (wall e) (policy_analytics db)
          + period_total ColComments document_id (wall s) (wall e)
              (policy_analytics db) * 5
          + period_total ColCitations document_id (wall s) (wall e)
              (policy_analytics db) * 10)
         divisor
       = Ok (PolicyAnalyticsReport.engagement_score r)
    /\ r = PolicyAnalyticsReport.mk document_id (PolicyDocument.title doc) s e
             (period_total ColViews document_id (wall s) (wall e) (policy_analytics db))
             (period_total ColDownloads document_id (wall s) (wall e)
                (policy_analytics db))
             (period_total ColComments document_id (wall s) (wall e)
                (policy_analytics db))
             (period_total ColCitations document_id (wall s) (wall e)
                (policy_analytics db))
             (period_total ColSearch document_id (wall s) (wall e) (policy_analytics db))
             (PolicyAnalyticsReport.engagement_score r)
             (match truthy (PolicyDocument.keywords doc) with
              | Some k => firstn 5 (str_split ","%char k)
              | None => []
              end).
Proof.
  unfold get_policy_analytics.
  destruct (elevated user); [|discriminate]. cbn [negb].
  destruct (configure_mappers m) as [[]|]; [|discriminate]. cbn [bind].
  destruct (first (has_id document_id) (policy_documents db)) as [doc|];
    [|discriminate].
  destruct (days_in_period s e) as [divisor|]; [|discriminate]. cbn [bind].
  fold (period_total ColViews document_id (wall s) (wall e) (policy_analytics db)).
  fold (period_total ColComments document_id (wall s) (wall e) (policy_analytics db)).
  fold (period_total ColCitations document_id (wall s) (wall e) (policy_analytics db)).
  destruct (true_div _ divisor) as [score|] eqn:Escore; [|discriminate]. cbn [bind].
  intros H. injection H as <-. exists doc, divisor.
  repeat split; auto.
Qed.

Lemma report_totals (m : Mapping) (document_id : Z) (s e : datetime_tz) (user : User.t)
  (db : DB) (r : PolicyAnalyticsReport.t) :
  get_policy_analytics m document_id s e user db = Ok r ->
  forall col,
    report_total col r
    = period_total col document_id (wall s) (wall e) (policy_analytics db).
Proof.
  intros H col. destruct (report_shape _ _ _ _ _ _ _ H) as [doc [dv [_ [_ [_ [_ [_ Hr]]]]]]].
  rewrite Hr. destruct col; reflexivity.
Qed.

Lemma day_total_empty_bucket (col : column) (document_id : Z) (day : date)
  (rows : list PolicyAnalytics.t) :
  bucket_time document_id day rows = None -> day_total col document_id day rows = 0.
Proof.
  unfold bucket_time, day_total. intros H.
  destruct (first (row_of_day document_id day) rows) as [a|] eqn:E; [discriminate|].
  now rewrite (first_none_filter _ _ E).
Qed.

(** C1 (amended).  A view event upserts the row of its document and day: a
    row that is created keeps the timestamp of the event that created it,
    a row that is there is incremented in place.  Every report that is
    returned holds, for each of the five counters, the sum over exactly the
    rows of the document whose stored timestamp [t] satisfies
    [start <= t <= end], where the two bounds are compared as wall-clock
    timestamps and not as days.  So [n] recorded view events on one day,
    the first at time [t1], on a store that had no row for that document
    and day, are all held by the row of that day, and between a report
    returned before and one returned after them [total_views] grows by [n]
    when [start <= t1 <= end] and by nothing otherwise, the other four
    totals staying as they were.  A window from 00:00:00 to 23:59:59.999999
    of that day (or wider) therefore counts all [n]; a window with
    [start = end] counts them only if the first event fell on that very
    instant. *)
Theorem views_report (m : Mapping) (document_id : Z) (clk1 : Clock)
  (clks : list Clock) (start_date end_date : datetime_tz) (user : User.t) (db : DB)
  (rows' : list PolicyAnalytics.t) (before after : PolicyAnalyticsReport.t) :
  bucket_time document_id (date_of (datetime_now clk1)) (policy_analytics db) = None ->
  Forall (fun c => date_of (datetime_now c) = date_of (datetime_now clk1)) clks ->
  record_views document_id (clk1 :: clks) (policy_analytics db) = Ok rows' ->
  get_policy_analytics m document_id start_date end_date user db = Ok before ->
  get_policy_analytics m document_id start_date end_date user
    (set_policy_analytics rows' db) = Ok after ->
  (forall col,
     report_total col before
     = period_total col document_id (wall start_date) (wall end_date)
         (policy_analytics db))
  /\ (forall col,
        report_total col after
        = period_total col document_id (wall start_date) (wall end_date) rows')
  /\ bucket_time document_id (date_of (datetime_now clk1)) rows'
     = Some (datetime_now clk1)
  /\ day_total ColViews document_id (date_of (datetime_now clk1)) rows'
     = len (clk1 :: clks)
  /\ (forall col,
        report_total col after
        = report_total col before
          + (if within (wall start_date) (wall end_date) (datetime_now clk1)
                && column_eqb col ColViews
             then len (clk1 :: clks) else 0))
  /\ (wall start_date <= days (date_of (datetime_now clk1)) ->
      days (date_of (datetime_now clk1) + 1) - 1 <= wall end_date ->
      PolicyAnalyticsReport.total_views after
      = PolicyAnalyticsReport.total_views before + len (clk1 :: clks))
  /\ (wall start_date = wall end_date -> datetime_now clk1 <> wall start_date ->
      PolicyAnalyticsReport.total_views after
      = PolicyAnalyticsReport.total_views before).
Proof.
  intros Hnew Hday Hrun Hb Ha.
  pose proof (report_totals _ _ _ _ _ _ _ Hb) as Tb.
  pose proof (report_totals _ _ _ _ _ _ _ Ha) as Ta.
  cbn [policy_analytics set_policy_analytics] in Ta.
  unfold record_views in Hrun. simpl in Hrun. unfold bind in Hrun.
  destruct (record_event Views document_id clk1 (policy_analytics db))
    as [rows1|] eqn:E1; [|discriminate].
  fold (record_views document_id clks rows1) in Hrun.
  assert (Hb1 : bucket_time document_id (date_of (datetime_now clk1)) rows1
                = Some (datetime_now clk1)).
  { rewrite (bucket_time_record_event _ _ _ _ _ E1), Hnew. reflexivity. }
  assert (Hmain : forall col,
            report_total col after
            = report_total col before
              + (if within (wall start_date) (wall end_date) (datetime_now clk1)
                    && column_eqb col ColViews
                 then len (clk1 :: clks) else 0)).
  { intros col. rewrite Ta, Tb.
    destruct (record_views_later col document_id _ (datetime_now clk1)
                (wall start_date) (wall end_date) clks Hday rows1 rows' Hb1 Hrun)
      as [_ [Hp _]].
    rewrite Hp, (record_event_period_total _ col _ _ _ _ _ _ E1), Hnew.
    cbn [default column_of]. rewrite len_cons.
    destruct (within (wall start_date) (wall end_date) (datetime_now clk1)),
             (column_eqb col ColViews); cbn [andb]; lia. }
  split; [exact Tb|]. split; [exact Ta|].
  destruct (record_views_later ColViews document_id _ (datetime_now clk1)
              (wall start_date) (wall end_date) clks Hday rows1 rows' Hb1 Hrun)
    as [Hb' [_ Hd]].
  split; [exact Hb'|]. split.
  { rewrite Hd, (record_event_day_total _ ColViews _ _ _ _ _ _ E1).
    rewrite (day_total_empty_bucket _ _ _ _ Hnew), !Z.eqb_refl.
    cbn [andb column_of column_eqb]. rewrite len_cons. lia. }
  split; [exact Hmain|]. split.
  - intros Hs He. rewrite (Hmain ColViews : PolicyAnalyticsReport.total_views after = _).
    change (report_total ColViews before)
      with (PolicyAnalyticsReport.total_views before).
    pose proof (day_bounds (datetime_now clk1)) as [Hlo Hhi].
    unfold within.
    replace (wall start_date <=? datetime_now clk1) with true
      by (symmetry; apply Z.leb_le; lia).
    replace (datetime_now clk1 <=? wall end_date) with true
      by (symmetry; apply Z.leb_le; lia).
    reflexivity.
  - intros Heq Hne.
    rewrite (Hmain ColViews : PolicyAnalyticsReport.total_views after = _).
    change (report_total ColViews before)
      with (PolicyAnalyticsReport.total_views before).
    rewrite <- Heq. unfold within.
    destruct (Z.leb_spec (wall start_date) (datetime_now clk1)) as [H1|H1];
      destruct (Z.leb_spec (datetime_now clk1) (wall start_date)) as [H2|H2];
      cbn [andb]; try lia.
Qed.

Example views_report_witness :
  bucket_time 1 (date_of morning) two_views = Some morning
  /\ day_total ColViews 1 (date_of morning) two_views = 2
  /\ PolicyAnalyticsReport.total_views day_report_after
     = PolicyAnalyticsReport.total_views day_report_before + 2
  /\ PolicyAnalyticsReport.total_comments day_report_after
     = PolicyAnalyticsReport.total_comments day_report_before.
Proof.
  destruct (views_report models_with_citing_key 1 (at_time morning) [at_time noon]
              (naive midnight) (naive end_of_day) admin sample_db two_views
              day_report_before day_report_after)
    as [_ [_ [Hbucket [Hday [Hcols _]]]]].
  - reflexivity.
  - repeat constructor.
  - reflexivity.
  - vm_compute. reflexivity.
  - vm_compute. reflexivity.
  - split; [exact Hbucket|]. split; [exact Hday|]. split.
    + exact (Hcols ColViews).
    + rewrite (Hcols ColComments : PolicyAnalyticsReport.total_comments _ = _).
      cbn [column_eqb andb]. rewrite andb_false_r.
      change (report_total ColComments day_report_before)
        with (PolicyAnalyticsReport.total_comments day_report_before).
      lia.
Defined.

(** C1, as stated, fails: two view events of a document on day 0, at 09:30
    and at 12:00, are held by the row of that day, and no report with
    [start = end =] day 0 (its midnight timestamp) has [total_views = 2].
    Under models.py the report raises at its first query, and so do the
    reads, which record nothing; with the mappers configured the two reads
    record the two views and the report has [total_views = 0]. *)
Example views_report_counterexample :
  record_views 1 [at_time morning; at_time noon] (policy_analytics sample_db)
  = Ok two_views
  /\ date_of morning = date_of midnight
  /\ date_of noon = date_of midnight
  /\ day_total ColViews 1 (date_of midnight) two_views = 2
  /\ get_policy_analytics models 1 (naive midnight) (naive midnight) admin
       (set_policy_analytics two_views sample_db)
     = Raise citations_are_ambiguous
  /\ run models two_reads sample_db = sample_db
  /\ policy_analytics (run models_with_citing_key two_reads sample_db) = two_views
  /\ exists r,
       get_policy_analytics models_with_citing_key 1 (naive midnight)
         (naive midnight) admin (set_policy_analytics two_views sample_db)
       = Ok r
       /\ PolicyAnalyticsReport.total_views r = 0.
Proof.
  repeat split; try reflexivity.
  eexists. split; [vm_compute; reflexivity|reflexivity].
Qed.

(** ** The engagement score *)





(** ** Reading one document *)

Lemma viewed_id (clk : Clock) (d : PolicyDocument.t) :
  PolicyDocument.id (viewed clk d) = PolicyDocument.id d.
Proof. reflexivity. Qed.

Lemma has_id_viewed (document_id : Z) (clk : Clock) (d : PolicyDocument.t) :
  has_id document_id (viewed clk d) = has_id document_id d.
Proof. reflexivity. Qed.

Lemma fits_upper (n : Z) : fits n = true -> n <= INT_MAX.
Proof.
  unfold fits. intros H. apply andb_true_iff in H. destruct H as [_ H].
  now apply Z.leb_le.
Qed.

Lemma response_cases (d : PolicyDocument.t) :
  (PolicyDocumentResponse d = Ok d
   /\ PolicyDocument.status d <> None /\ PolicyDocument.is_public d <> None)
  \/ (PolicyDocumentResponse d = Raise (ResponseValidationError "PolicyDocumentResponse")
      /\ (PolicyDocument.status d = None \/ PolicyDocument.is_public d = None)).
Proof.
  unfold PolicyDocumentResponse, serialisable.
  destruct (PolicyDocument.status d), (PolicyDocument.is_public d); auto;
    left; repeat split; congruence.
Qed.




(** ** Creating a document *)


Lemma new_document_response (document : PolicyDocumentCreate.t) (row_id creator : Z)
  (clk : Clock) :
  PolicyDocumentResponse (new_document document row_id creator clk)
  = Ok (new_document document row_id creator clk).
Proof. reflexivity. Qed.

(** What a create that returns has done. *)
Lemma create_returned (m : Mapping) (document : PolicyDocumentCreate.t)
  (current_user : User.t) (clk : Clock) (db db' : DB) (created : PolicyDocument.t) :
  create_policy_document m document current_user clk db = (Ok created, db') ->
  configure_mappers m = Ok tt
  /\ elevated current_user = true
  /\ first (fun d => String.eqb (PolicyDocument.document_number d)
                       (PolicyDocumentCreate.document_number document))
       (policy_documents db) = None
  /\ fits (next_id (map PolicyDocument.id (policy_documents db))) = true
  /\ created = new_document document
                 (next_id (map PolicyDocument.id (policy_documents db)))
                 (User.id current_user) clk
  /\ db' = set_policy_documents (policy_documents db ++ [created]) db.
Proof.
  unfold create_policy_document.
  destruct (elevated current_user); [|discriminate]. cbn [negb].
  intros H. apply on_first_query_ok in H. destruct H as [Hm H].
  destruct (first _ (policy_documents db)); [discriminate|].
  destruct (fits _); [|discriminate].
  rewrite new_document_response in H. inversion H; subst. auto 10.
Qed.

Lemma create_raised (m : Mapping) (document : PolicyDocumentCreate.t)
  (current_user : User.t) (clk : Clock) (db db' : DB) (e : exn) :
  create_policy_document m document current_user clk db = (Raise e, db') ->
  db' = db.
Proof.
  unfold create_policy_document.
  destruct (elevated current_user); cbn [negb]; [|now inversion 1].
  intros H. apply on_first_query_raise in H. destruct H as [[_ ->]|[_ H]]; [reflexivity|].
  destruct (first _ (policy_documents db)); [now inversion H|].
  destruct (fits _); [|now inversion H].
  rewrite new_document_response in H. discriminate.
Qed.




(** C8, as stated, fails: a citizen who submits the number of the stored
    Water Conservation Act is refused with the forbidden error, under
    models.py as under a mapping that configures, and not with the
    duplicate error. *)
Example duplicate_document_number_conflict_counterexample :
  In water_act (policy_documents sample_db)
  /\ PolicyDocument.document_number water_act
     = PolicyDocumentCreate.document_number water_act_again
  /\ create_policy_document models water_act_again citizen (at_time noon) sample_db
     = (Raise not_enough_permissions, sample_db)
  /\ create_policy_document models_with_citing_key water_act_again citizen
       (at_time noon) sample_db
     = (Raise not_enough_permissions, sample_db)
  /\ http_status not_enough_permissions = 403
  /\ not_enough_permissions <> document_number_exists.
Proof.
  repeat split; try reflexivity.
  - cbn. tauto.
  - discriminate.
Qed.

(** ** Updating a document *)

Lemma unchanged_required (supplied : option (option string)) (old : string) :
  changes string_eqb_opt supplied (Some old) = false -> required supplied old = old.
Proof.
  unfold changes, required, string_eqb_opt.
  destruct supplied as [[v|]|]; try reflexivity.
  intros H. apply negb_false_iff in H. now apply String.eqb_eq in H.
Qed.

Lemma unchanged_string (supplied : option (option string)) (old : option string) :
  changes string_eqb_opt supplied old = false -> setattr supplied old = old.
Proof.
  unfold changes, setattr, default, string_eqb_opt.
  destruct supplied as [[v|]|], old as [o|]; try reflexivity; try discriminate.
  intros H. apply negb_false_iff in H. apply String.eqb_eq in H. now subst.
Qed.

Lemma unchanged_bool (supplied : option (option bool)) (old : option bool) :
  changes bool_eqb_opt supplied old = false -> setattr supplied old = old.
Proof.
  unfold changes, setattr, default, bool_eqb_opt.
  destruct supplied as [[v|]|], old as [o|]; try reflexivity; try discriminate.
  intros H. apply negb_false_iff in H. apply Bool.eqb_prop in H. now subst.
Qed.

Lemma unchanged_datetime (supplied : option (option datetime_tz))
  (old : option datetime) :
  changes datetime_eqb_opt supplied old = false ->
  setattr (option_map (option_map wall) supplied) old = old.
Proof.
  unfold changes, setattr, default, datetime_eqb_opt.
  destruct supplied as [[v|]|], old as [o|]; try reflexivity; try discriminate.
  cbn. destruct (utcoffset v); [discriminate|].
  intros H. apply negb_false_iff in H. apply Z.eqb_eq in H. now subst.
Qed.

(** An update that assigns no new value leaves the row as it is. *)
Lemma unmodified_apply (u : PolicyDocumentUpdate.t) (d : PolicyDocument.t) :
  modified u d = false -> apply_update u d = d.
Proof.
  unfold modified. intros H.
  repeat (apply orb_false_iff in H; destruct H as [H ?]).
  destruct d. unfold apply_update. cbn in *.
  rewrite unchanged_required by assumption.
  rewrite (unchanged_required (PolicyDocumentUpdate.summary u)) by assumption.
  rewrite (unchanged_required (PolicyDocumentUpdate.content u)) by assumption.
  rewrite (unchanged_string (PolicyDocumentUpdate.keywords u)) by assumption.
  rewrite (unchanged_string (PolicyDocumentUpdate.status u)) by assumption.
  rewrite (unchanged_string (PolicyDocumentUpdate.file_url u)) by assumption.
  rewrite unchanged_bool by assumption.
  rewrite unchanged_datetime by assumption.
  reflexivity.
Qed.

Lemma committed_cases (clk : Clock) (u : PolicyDocumentUpdate.t) (d : PolicyDocument.t) :
  (modified u d = false /\ committed clk u d = d /\ apply_update u d = d)
  \/ (modified u d = true
      /\ committed clk u d
         = PolicyDocument.set_updated_at (Some (func_now clk)) (apply_update u d)).
Proof.
  unfold committed. destruct (modified u d) eqn:H; [auto|].
  left. auto using unmodified_apply.
Qed.

Lemma committed_fields (clk : Clock) (u : PolicyDocumentUpdate.t) (d : PolicyDocument.t) :
  committed clk u d = apply_update u d
  \/ committed clk u d
     = PolicyDocument.set_updated_at (Some (func_now clk)) (apply_update u d).
Proof.
  destruct (committed_cases clk u d) as [[_ [-> ->]]|[_ ->]]; auto.
Qed.

Lemma committed_id (clk : Clock) (u : PolicyDocumentUpdate.t) (d : PolicyDocument.t) :
  PolicyDocument.id (committed clk u d) = PolicyDocument.id d.
Proof.
  destruct (committed_fields clk u d) as [-> | ->]; reflexivity.
Qed.

Lemma committed_view_count (clk : Clock) (u : PolicyDocumentUpdate.t)
  (d : PolicyDocument.t) :
  PolicyDocument.view_count (committed clk u d) = PolicyDocument.view_count d.
Proof.
  destruct (committed_fields clk u d) as [-> | ->]; reflexivity.
Qed.

Lemma has_id_committed (document_id : Z) (clk : Clock) (u : PolicyDocumentUpdate.t)
  (d : PolicyDocument.t) :
  has_id document_id (committed clk u d) = has_id document_id d.
Proof. unfold has_id. now rewrite committed_id. Qed.

Lemma has_id_disjoint (i j : Z) (d : PolicyDocument.t) :
  i <> j -> has_id i d = true -> has_id j d = false.
Proof.
  unfold has_id. intros Hij Hi. apply Z.eqb_eq in Hi. apply Z.eqb_neq. lia.
Qed.

(** The four ways in which an update ends. *)
Lemma update_cases (m : Mapping) (document_id : Z)
  (document_update : PolicyDocumentUpdate.t) (current_user : User.t) (clk : Clock)
  (db : DB) :
  let out := update_policy_document m document_id document_update current_user clk db in
  (elevated current_user = false /\ out = (Raise not_enough_permissions, db))
  \/ (elevated current_user = true
      /\ exists e, configure_mappers m = Raise e /\ out = (Raise e, db))
  \/ (elevated current_user = true /\ configure_mappers m = Ok tt
      /\ first (has_id document_id) (policy_documents db) = None
      /\ out = (Raise document_not_found, db))
  \/ (elevated current_user = true /\ configure_mappers m = Ok tt
      /\ exists d,
           first (has_id document_id) (policy_documents db) = Some d
           /\ ((may_edit current_user d = false
                /\ out = (Raise not_enough_permissions_to_edit, db))
               \/ (may_edit current_user d = true
                   /\ nulls_required_column document_update = true
                   /\ out = (Raise (DatabaseError "Column cannot be null"), db))
               \/ (may_edit current_user d = true
                   /\ nulls_required_column document_update = false
                   /\ out = (PolicyDocumentResponse (committed clk document_update d),
                             set_policy_documents
                               (update_first (has_id document_id)
                                  (committed clk document_update)
                                  (policy_documents db)) db)))).
Proof.
  cbv zeta. unfold update_policy_document, on_first_query, may_edit, elevated.
  destruct (String.eqb (User.role current_user) "admin") eqn:Ha;
    destruct (String.eqb (User.role current_user) "government_official") eqn:Ho;
    cbn [orb andb negb]; auto;
    (destruct (configure_mappers m) as [[]|e]; [|right; left; eauto]);
    (destruct (first (has_id document_id) (policy_documents db)) as [d|] eqn:E;
     [|right; right; left; auto]);
    right; right; right; (split; [reflexivity|]); (split; [reflexivity|]);
    exists d; (split; [reflexivity|]);
    destruct (PolicyDocument.created_by d =? User.id current_user) eqn:Hc;
    cbn [orb andb negb]; auto;
    destruct (nulls_required_column document_update); auto.
Qed.




(** ** What one request does *)

Lemma for_each_raises {A B} (body : B -> A -> result B) (P : exn -> Prop)
  (l : list A) :
  (forall acc x e, body acc x = Raise e -> P e) ->
  forall acc e, for_each body l acc = Raise e -> P e.
Proof.
  intros Hbody. induction l as [|x l IH]; simpl; intros acc e H; [discriminate|].
  unfold bind in H. destruct (body acc x) as [acc'|e'] eqn:E.
  - eapply IH, H.
  - inversion H; subst. eapply Hbody, E.
Qed.

Lemma configure_error (m : Mapping) (e : exn) :
  configure_mappers m = Raise e -> validation_error e = false.
Proof.
  unfold configure_mappers.
  apply (for_each_raises _ (fun e => validation_error e = false)).
  intros acc r e'. unfold configure_relationship.
  destruct (join_candidates m r) as [|? [|? ?]]; try discriminate;
    now inversion 1.
Qed.

Lemma search_results_not_validation (query : string) (skip limit : Z)
  (document_type category department status : option string)
  (docs : list PolicyDocument.t) (e : exn) :
  search_results query skip limit document_type category department status docs
  = Raise e ->
  validation_error e = false.
Proof.
  intros H. pose proof (search_results_error _ _ _ _ _ _ _ _ _ H) as Hcases.
  unfold search_results, offset_limit in H.
  destruct ((skip <? 0) || (limit <? 0)) eqn:Hneg.
  - cbn [bind] in H. now inversion H.
  - apply orb_false_iff in Hneg. destruct Hneg as [Hs Hl].
    apply Z.ltb_ge in Hs. apply Z.ltb_ge in Hl.
    destruct Hcases as [?|[?|He]]; try lia. now subst e.
Qed.

Lemma serves_unwritten (clk : Clock) (db : DB) (req : Request) (user : User.t)
  (e : exn) :
  validation_error e = false -> serves_as clk db req user (Raise e) db.
Proof.
  intros He. destruct (writes req) eqn:Hw.
  - now apply serves_refusing.
  - now apply serves_reading.
Qed.

(** Every request is served in one of the six ways of [serves_as]. *)
Lemma handle_serves (m : Mapping) (req : Request) (user : User.t) (clk : Clock)
  (db : DB) :
  serves_as clk db req user (fst (handle m req user clk db))
    (snd (handle m req user clk db)).
Proof.
  destruct req; cbn [handle]; unfold respond; cbn [fst snd];
    try (now apply serves_reading).
  - (* create *)
    destruct (create_policy_document m document user clk db) as [[created|e] db']
      eqn:E; cbn [fst snd bind].
    + apply create_returned in E.
      destruct E as [_ [Hu [Hnone [Hfit [Hc ->]]]]].
      now apply serves_creating.
    + pose proof (create_raised _ _ _ _ _ _ _ E) as ->.
      apply serves_unwritten.
      unfold create_policy_document in E.
      destruct (elevated user); cbn [negb] in E; [|now inversion E].
      apply on_first_query_raise in E. destruct E as [[E _]|[_ E]].
      * eapply configure_error, E.
      * destruct (first _ (policy_documents db)); [now inversion E|].
        destruct (fits _); [|now inversion E].
        rewrite new_document_response in E. discriminate.
  - (* search *)
    destruct (search_request m params clk db) as [[results|e] db'] eqn:E;
      cbn [fst snd bind]; unfold search_request in E.
    + apply search_returned in E. destruct E as [_ [Hr [Hrec ->]]].
      now apply serves_searching.
    + apply search_raised in E. destruct E as [-> [E|[E|[results [_ E]]]]];
        apply serves_unwritten.
      * eapply configure_error, E.
      * eapply search_results_not_validation, E.
      * now rewrite (record_appearances_error _ _ _ _ E).
  - (* read *)
    unfold get_policy_document, on_first_query.
    destruct (configure_mappers m) as [[]|e0] eqn:Hm; cbn [fst snd bind].
    + destruct (first (has_id document_id) (policy_documents db)) as [d|] eqn:E;
        cbn [fst snd bind]; [|now apply serves_unwritten].
      destruct (is_true (PolicyDocument.is_public d)) eqn:Hpub; cbn [negb fst snd bind];
        [|now apply serves_unwritten].
      destruct (fits (PolicyDocument.view_count d + 1)) eqn:Hfit;
        cbn [negb fst snd bind]; [|now apply serves_unwritten].
      destruct (record_event Views document_id clk (policy_analytics db))
        as [rows|e1] eqn:Hrec; cbn [fst snd bind].
      * now apply serves_viewing.
      * apply serves_unwritten. now rewrite (record_event_error _ _ _ _ _ Hrec).
    + apply serves_unwritten. eapply configure_error, Hm.
  - (* update *)
    destruct (update_cases m document_id document_update user clk db)
      as [[Hu ->]|[[Hu [e [Hm ->]]]|[[Hu [Hm [E ->]]]|[Hu [Hm [d [E H]]]]]]];
      cbn [fst snd bind]; try (now apply serves_unwritten).
    + apply serves_unwritten. eapply configure_error, Hm.
    + destruct H as [[Hedit ->]|[[Hedit [Hnull ->]]|[Hedit [Hnull ->]]]];
        cbn [fst snd bind]; try (now apply serves_unwritten).
      now apply serves_updating.
  - (* comment *)
    unfold add_policy_comment, on_first_query.
    destruct (configure_mappers m) as [[]|];
      [destruct (first (has_id document_id) (policy_documents db))|];
      cbn [fst snd bind]; now apply serves_reading.
Qed.

(** ** The view counter *)

Lemma first_has_id_app (document_id : Z) (docs extra : list PolicyDocument.t)
  (d : PolicyDocument.t) :
  first (has_id document_id) docs = Some d ->
  first (has_id document_id) (docs ++ extra) = Some d.
Proof. apply first_app_found. Qed.

Lemma response_answer (d : PolicyDocument.t) :
  bind (PolicyDocumentResponse d) (fun a => Ok (Document a)) = Ok (Document d)
  \/ bind (PolicyDocumentResponse d) (fun a => Ok (Document a))
     = Raise (ResponseValidationError "PolicyDocumentResponse").
Proof.
  destruct (response_cases d) as [[-> _]|[-> _]]; cbn [bind]; auto.
Qed.

(** One request moves the counter of a stored document by one if it is a
    read of that document that reaches its commit, whether it is then
    answered with the document or with a failed response validation, and
    not at all otherwise. *)
Lemma serves_view_count (clk : Clock) (db db' : DB) (req : Request) (user : User.t)
  (answer : result Response) (document_id v : Z) :
  serves_as clk db req user answer db' ->
  view_count_of document_id db = Some v ->
  view_count_of document_id db'
  = Some (v + (if is_read_of document_id req
                  && match answer with
                     | Ok _ => true
                     | Raise e => validation_error e
                     end
               then 1 else 0)).
Proof.
  intros Hs H. unfold view_count_of in *.
  destruct Hs as [req user answer Hw|req user e Hw He|document user created Hu Hn Hf Hc
                 |i user d rows Hd Hpub Hfit Hrec|i u user d Hd Hedit Hnull
                 |params user results rows Hr Hrec];
    cbn [is_read_of andb policy_documents set_policy_documents set_policy_analytics];
    rewrite ?Z.add_0_r; try exact H.
  - destruct req; try discriminate Hw; cbn [is_read_of andb];
      now rewrite Z.add_0_r.
  - rewrite He, andb_false_r, Z.add_0_r. exact H.
  - destruct (first (has_id document_id) (policy_documents db)) as [d|] eqn:E;
      [|discriminate].
    now rewrite (first_has_id_app _ _ _ _ E).
  - assert (Hans : match bind (PolicyDocumentResponse (viewed clk d))
                           (fun a => Ok (Document a)) with
                   | Ok _ => true
                   | Raise e => validation_error e
                   end = true).
    { destruct (response_answer (viewed clk d)) as [-> | ->]; reflexivity. }
    rewrite Hans, andb_true_r.
    destruct (Z.eqb_spec i document_id) as [->|Hne].
    + rewrite first_update_same by (intros x Hx; exact Hx).
      rewrite Hd in *. cbn in *. inversion H. reflexivity.
    + rewrite first_update_other; [now rewrite Z.add_0_r|].
      intros x Hx. rewrite has_id_viewed.
      split; apply (has_id_disjoint i document_id); auto.
  - destruct (Z.eq_dec i document_id) as [->|Hne].
    + rewrite first_update_same by (intros x Hx; now rewrite has_id_committed).
      rewrite Hd in *. cbn in *. now rewrite committed_view_count.
    + rewrite first_update_other; [exact H|].
      intros x Hx. rewrite has_id_committed.
      split; apply (has_id_disjoint i document_id); auto.
Qed.

Lemma handle_view_count (m : Mapping) (req : Request) (current_user : User.t)
  (clk : Clock) (db : DB) (document_id v : Z) :
  view_count_of document_id db = Some v ->
  view_count_of document_id (serve m db (req, current_user, clk))
  = Some (v
          + (if is_read_of document_id req && succeeds m db (req, current_user, clk)
             then 1 else 0)
          + (if is_read_of document_id req
                && fails_validation m db (req, current_user, clk)
             then 1 else 0)).
Proof.
  intros H. unfold serve, succeeds, fails_validation, outcome.
  rewrite (serves_view_count _ _ _ _ _ _ _ _ (handle_serves m req current_user clk db) H).
  f_equal.
  destruct (is_read_of document_id req); cbn [andb]; [|lia].
  destruct (fst (handle m req current_user clk db)) as [a|[]]; cbn; lia.
Qed.

Lemma reads_that_bounds (test : DB -> call -> bool) (m : Mapping) (document_id : Z)
  (calls : list call) :
  forall db, 0 <= reads_that test m document_id calls db <= len calls.
Proof.
  induction calls as [|c calls IH]; intros db; cbn [reads_that].
  - unfold len. simpl. lia.
  - rewrite len_cons. specialize (IH (serve m db c)).
    destruct (_ && _); lia.
Qed.

Lemma exclusive_reads (m : Mapping) (document_id : Z) (calls : list call) :
  forall db,
    successful_reads m document_id calls db + unvalidated_reads m document_id calls db
    <= len calls.
Proof.
  unfold successful_reads, unvalidated_reads.
  induction calls as [|c calls IH]; intros db; cbn [reads_that].
  - unfold len. simpl. lia.
  - rewrite len_cons. specialize (IH (serve m db c)).
    assert (Hex : succeeds m db c && fails_validation m db c = false).
    { unfold succeeds, fails_validation. now destruct (outcome m db c) as [a|[]]. }
    destruct (is_read_of document_id (fst (fst c))); cbn [andb]; [|lia].
    destruct (succeeds m db c), (fails_validation m db c);
      try discriminate Hex; lia.
Qed.

Lemma run_view_count (m : Mapping) (document_id : Z) (calls : list call) :
  forall db v,
    view_count_of document_id db = Some v ->
    view_count_of document_id (run m calls db)
    = Some (v + successful_reads m document_id calls db
            + unvalidated_reads m document_id calls db).
Proof.
  unfold successful_reads, unvalidated_reads.
  induction calls as [|c calls IH]; intros db v H.
  - cbn [reads_that]. rewrite !Z.add_0_r. exact H.
  - change (run m (c :: calls) db) with (run m calls (serve m db c)).
    destruct c as [[req user] clk].
    rewrite (IH _ _ (handle_view_count m req user clk db document_id v H)).
    cbn [reads_that fst]. f_equal. lia.
Qed.

(** C9.  The view counter of a stored document moves only with reads of
    that document, by one each.  After any sequence of requests to the
    policy module the counter is its old value plus the number of
    successful reads of the document in the sequence, plus the number of
    reads of it that were committed and then failed the validation of their
    response; so it never decreases, and a sequence of [n] requests that
    are all successful reads of the document adds exactly [n].  A request
    that is not a read of the document leaves the counter as it was, the
    partial update included, whose schema has no [view_count]; a successful
    read adds exactly one and never takes the counter out of the range of
    its column. *)
Theorem view_count_only_reads (m : Mapping) (document_id : Z) (calls : list call)
  (db : DB) (v : Z) :
  view_count_of document_id db = Some v ->
  view_count_of document_id (run m calls db)
  = Some (v + successful_reads m document_id calls db
          + unvalidated_reads m document_id calls db)
  /\ 0 <= successful_reads m document_id calls db
  /\ 0 <= unvalidated_reads m document_id calls db
  /\ (successful_reads m document_id calls db = len calls ->
      view_count_of document_id (run m calls db) = Some (v + len calls))
  /\ (forall req user clk,
        is_read_of document_id req = false ->
        view_count_of document_id (snd (handle m req user clk db)) = Some v)
  /\ (forall i document_update user clk,
        view_count_of document_id
          (snd (handle m (UpdateDocument i document_update) user clk db)) = Some v)
  /\ (forall user clk response db',
        handle m (GetDocument document_id) user clk db = (Ok response, db') ->
        view_count_of document_id db' = Some (v + 1) /\ v + 1 <= INT_MAX)
  /\ (forall user clk e db',
        handle m (GetDocument document_id) user clk db = (Raise e, db') ->
        view_count_of document_id db'
        = Some (if validation_error e then v + 1 else v)).
Proof.
  intros H.
  pose proof (reads_that_bounds (succeeds m) m document_id calls db) as Hs.
  pose proof (reads_that_bounds (fails_validation m) m document_id calls db) as Hf.
  pose proof (exclusive_reads m document_id calls db) as Hex.
  fold (successful_reads m document_id calls db) in Hs.
  fold (unvalidated_reads m document_id calls db) in Hf.
  split; [now apply run_view_count|].
  split; [lia|]. split; [lia|].
  split; [|split; [|split; [|split]]].
  - intros Hall. rewrite (run_view_count _ _ _ _ _ H). f_equal. lia.
  - intros req user clk Hreq.
    pose proof (handle_view_count m req user clk db document_id v H) as Hv.
    rewrite Hreq in Hv. cbn [andb] in Hv. rewrite !Z.add_0_r in Hv. exact Hv.
  - intros i document_update user clk.
    pose proof (handle_view_count m (UpdateDocument i document_update) user clk db
                  document_id v H) as Hv.
    cbn [is_read_of andb] in Hv. rewrite !Z.add_0_r in Hv. exact Hv.
  - intros user clk response db' Hrun.
    pose proof (serves_view_count _ _ _ _ _ _ document_id v
                  (handle_serves m (GetDocument document_id) user clk db) H) as Hv.
    rewrite Hrun in Hv. cbn [is_read_of fst snd] in Hv.
    rewrite Z.eqb_refl in Hv. cbn [andb] in Hv. split; [exact Hv|].
    pose proof (handle_serves m (GetDocument document_id) user clk db) as Hserved.
    rewrite Hrun in Hserved. cbn [fst snd] in Hserved.
    inversion Hserved as [? ? ? Hw|  | |i u0 d rows Hd Hpub Hfit Hrec| |]; subst;
      [discriminate Hw|].
    unfold view_count_of in H. rewrite Hd in H. cbn in H. injection H as <-.
    now apply fits_upper.
  - intros user clk e db' Hrun.
    pose proof (serves_view_count _ _ _ _ _ _ document_id v
                  (handle_serves m (GetDocument document_id) user clk db) H) as Hv.
    rewrite Hrun in Hv. cbn [is_read_of fst snd] in Hv.
    rewrite Z.eqb_refl in Hv. cbn [andb] in Hv. rewrite Hv.
    destruct (validation_error e); f_equal; lia.
Qed.

Example view_count_only_reads_witness :
  view_count_of 1 (run models two_reads sample_db) = Some 0
  /\ view_count_of 1 (run models_with_citing_key two_reads sample_db) = Some 2.
Proof.
  split.
  - destruct (view_count_only_reads models 1 two_reads sample_db 0) as [H _];
      [reflexivity|].
    rewrite H. reflexivity.
  - destruct (view_count_only_reads models_with_citing_key 1 two_reads sample_db 0)
      as [_ [_ [_ [H _]]]]; [reflexivity|].
    apply H. reflexivity.
Defined.

(** ** Ordering and paging of the listings *)

Lemma insert_desc_perm {A} (key : A -> Z) (x : A) (l : list A) :
  Permutation (x :: l) (insert_desc key x l).
Proof.
  induction l as [|y l IH]; simpl; [reflexivity|].
  destruct (key y <=? key x); [reflexivity|].
  rewrite perm_swap. now constructor.
Qed.

Lemma order_by_desc_perm {A} (key : A -> Z) (l : list A) :
  Permutation l (order_by_desc key l).
Proof.
  unfold order_by_desc. induction l as [|x l IH]; simpl; [constructor|].
  rewrite <- insert_desc_perm. now constructor.
Qed.

Lemma insert_desc_sorted {A} (key : A -> Z) (x : A) (l : list A) :
  sorted_desc key l -> sorted_desc key (insert_desc key x l).
Proof.
  unfold sorted_desc. induction 1 as [|y l Hl IH Hy]; simpl.
  - repeat constructor.
  - destruct (Z.leb_spec (key y) (key x)) as [Hle|Hgt].
    + constructor; [now constructor|].
      constructor; [exact Hle|].
      apply Forall_forall. intros z Hz.
      rewrite Forall_forall in Hy. specialize (Hy z Hz). lia.
    + constructor; [exact IH|].
      apply Forall_forall. intros z Hz.
      apply (Permutation_in _ (Permutation_sym (insert_desc_perm key x l))) in Hz.
      destruct Hz as [<-|Hz]; [lia|].
      rewrite Forall_forall in Hy. now apply Hy.
Qed.

Lemma order_by_desc_sorted {A} (key : A -> Z) (l : list A) :
  sorted_desc key (order_by_desc key l).
Proof.
  unfold order_by_desc. induction l as [|x l IH]; simpl.
  - constructor.
  - now apply insert_desc_sorted.
Qed.

Lemma insert_desc_with_key {A} (key : A -> Z) (k : Z) (x : A) (l : list A) :
  with_key key k (insert_desc key x l) = with_key key k (x :: l).
Proof.
  unfold with_key. induction l as [|y l IH]; [reflexivity|].
  cbn [insert_desc]. destruct (Z.leb_spec (key y) (key x)) as [Hle|Hgt];
    [reflexivity|].
  cbn [filter] in *. rewrite IH.
  destruct (Z.eqb_spec (key x) k), (Z.eqb_spec (key y) k); try reflexivity; lia.
Qed.

Lemma sorted_desc_firstn {A} (key : A -> Z) (n : nat) (l : list A) :
  sorted_desc key l -> sorted_desc key (firstn n l).
Proof.
  unfold sorted_desc. intros H. revert n.
  induction H as [|y l Hl IH Hy]; intros [|n]; simpl; try constructor.
  - apply IH.
  - apply Forall_forall. intros z Hz. rewrite Forall_forall in Hy.
    apply Hy. eapply in_firstn, Hz.
Qed.

Lemma sorted_desc_skipn {A} (key : A -> Z) (n : nat) (l : list A) :
  sorted_desc key l -> sorted_desc key (skipn n l).
Proof.
  unfold sorted_desc. intros H. revert n.
  induction H as [|y l Hl IH Hy]; intros [|n]; simpl; try constructor; auto.
Qed.

(** The ordering step returns all the rows, each once, largest key first;
    rows with equal keys keep the order they had. *)
Lemma order_by_desc_sorts {A} (key : A -> Z) (l : list A) :
  Permutation l (order_by_desc key l)
  /\ sorted_desc key (order_by_desc key l)
  /\ forall k, with_key key k (order_by_desc key l) = with_key key k l.
Proof.
  split; [apply order_by_desc_perm|]. split; [apply order_by_desc_sorted|].
  intros k. unfold order_by_desc. induction l as [|x l IH]; [reflexivity|].
  cbn [fold_right]. rewrite insert_desc_with_key.
  unfold with_key in *. cbn [filter]. now rewrite IH.
Qed.

(** One page of an ordered, filtered table. *)
Lemma paged_query {A} (key : A -> Z) (p : A -> bool) (skip limit : Z)
  (rows : list A) :
  match offset_limit skip limit (order_by_desc key (filter p rows)) with
  | Ok out =>
      0 <= skip /\ 0 <= limit /\ len out <= limit
      /\ sorted_desc key out
      /\ (forall x, In x out -> In x rows /\ p x = true)
      /\ (NoDup rows -> NoDup out)
      /\ (skip = 0 -> len (filter p rows) <= limit ->
          forall x, In x rows -> p x = true -> In x out)
  | Raise _ => skip < 0 \/ limit < 0
  end.
Proof.
  unfold offset_limit.
  destruct (Z.ltb_spec skip 0) as [Hs|Hs]; [simpl; auto|].
  destruct (Z.ltb_spec limit 0) as [Hl|Hl]; [simpl; auto|].
  cbn [orb].
  pose proof (order_by_desc_perm key (filter p rows)) as Hperm.
  split; [exact Hs|]. split; [exact Hl|]. split; [now apply len_firstn|].
  split; [apply sorted_desc_firstn, sorted_desc_skipn, order_by_desc_sorted|].
  split; [|split].
  - intros x Hx. apply in_firstn, in_skipn in Hx.
    apply (Permutation_in _ (Permutation_sym Hperm)) in Hx.
    now apply filter_In in Hx.
  - intros Hnd. apply NoDup_firstn, NoDup_skipn.
    apply (Permutation_NoDup Hperm). now apply NoDup_filter.
  - intros -> Hlen x Hx Hp. cbn [Z.to_nat skipn].
    apply in_firstn_all.
    + unfold len in *. now rewrite <- (Permutation_length Hperm).
    + apply (Permutation_in _ Hperm). apply filter_In. auto.
Qed.






(** ** Statistics *)

Lemma count_key_keys (k : string) (groups : list (string * Z)) :
  map fst (count_key k groups)
  = if existsb (String.eqb k) (map fst groups)
    then map fst groups else map fst groups ++ [k].
Proof.
  induction groups as [|[k' n] groups IH]; [reflexivity|].
  cbn [count_key map fst existsb].
  destruct (String.eqb k k'); cbn [map fst orb]; [reflexivity|].
  rewrite IH. now destruct (existsb (String.eqb k) (map fst groups)).
Qed.

Lemma count_key_sum (k : string) (groups : list (string * Z)) :
  py_sum (map snd (count_key k groups)) = py_sum (map snd groups) + 1.
Proof.
  induction groups as [|[k' n] groups IH]; [reflexivity|].
  cbn [count_key]. destruct (String.eqb k k'); cbn [map snd];
    rewrite !py_sum_cons; lia.
Qed.

Lemma count_key_lookup (k k' : string) (groups : list (string * Z)) :
  lookup k' (count_key k groups)
  = lookup k' groups + (if String.eqb k' k then 1 else 0).
Proof.
  unfold lookup. induction groups as [|[k0 n] groups IH].
  - cbn. rewrite (String.eqb_sym k k'). destruct (String.eqb k' k); reflexivity.
  - cbn [count_key]. destruct (String.eqb_spec k k0) as [->|Hne].
    + cbn [filter fst map snd].
      rewrite (String.eqb_sym k0 k').
      destruct (String.eqb k' k0); cbn [map snd]; rewrite ?py_sum_cons; lia.
    + cbn [filter fst]. destruct (String.eqb_spec k0 k') as [->|Hne'].
      * cbn [map snd]. rewrite !py_sum_cons, IH. lia.
      * exact IH.
Qed.

Lemma lookup_unique (k : string) (n : Z) (groups : list (string * Z)) :
  NoDup (map fst groups) -> In (k, n) groups -> lookup k groups = n.
Proof.
  unfold lookup. induction groups as [|[k0 m] groups IH]; [contradiction|].
  cbn [map fst In filter]. intros Hnd Hin. inversion Hnd as [|? ? Hk0 Hrest]; subst.
  destruct Hin as [E|Hin].
  - inversion E; subst. rewrite String.eqb_refl. cbn [map snd].
    rewrite py_sum_cons.
    replace (filter _ groups) with (@nil (string * Z)); [cbn; lia|].
    symmetry. apply first_none_filter. unfold first.
    destruct (find _ groups) as [[k1 m1]|] eqn:F; [|reflexivity].
    apply find_some in F. destruct F as [F1 F2]. cbn in F2.
    apply String.eqb_eq in F2. subst. exfalso. apply Hk0.
    change k with (fst (k, m1)). now apply in_map.
  - destruct (String.eqb_spec k0 k) as [->|Hne].
    + exfalso. apply Hk0. change k with (fst (k, n)). now apply in_map.
    + now apply IH.
Qed.

Lemma group_count_from (keys : list string) :
  forall acc,
    NoDup (map fst acc) ->
    let groups := fold_left (fun groups k => count_key k groups) keys acc in
    NoDup (map fst groups)
    /\ py_sum (map snd groups) = py_sum (map snd acc) + len keys
    /\ (forall k, In k (map fst groups) <-> In k (map fst acc) \/ In k keys)
    /\ (forall k, lookup k groups = lookup k acc + count (String.eqb k) keys).
Proof.
  induction keys as [|k0 keys IH]; intros acc Hnd; cbn [fold_left].
  - unfold count, len. cbn. repeat split; try tauto; try lia; intros; lia.
  - assert (Hnd' : NoDup (map fst (count_key k0 acc))).
    { rewrite count_key_keys.
      destruct (existsb (String.eqb k0) (map fst acc)) eqn:E; [exact Hnd|].
      apply NoDup_app; [exact Hnd|repeat constructor; auto|].
      intros x Hx [Ex|[]]. subst x.
      assert (existsb (String.eqb k0) (map fst acc) = true); [|congruence].
      apply existsb_exists. exists k0. split; [exact Hx|apply String.eqb_refl]. }
    destruct (IH _ Hnd') as [H1 [H2 [H3 H4]]].
    split; [exact H1|]. split; [|split].
    + rewrite H2, count_key_sum, len_cons. lia.
    + intros k. rewrite H3, count_key_keys.
      destruct (existsb (String.eqb k0) (map fst acc)) eqn:E.
      * apply existsb_exists in E. destruct E as [x [Hx Ex]].
        apply String.eqb_eq in Ex. subst x. cbn [In]. intuition (subst; auto).
      * rewrite in_app_iff. cbn [In]. intuition.
    + intros k. rewrite H4, count_key_lookup. unfold count. cbn [filter].
      destruct (String.eqb k k0); rewrite ?len_cons; lia.
Qed.

Lemma group_count_tallies (keys : list string) : tallies keys (group_count keys).
Proof.
  unfold tallies, group_count.
  destruct (group_count_from keys [] ltac:(constructor)) as [H1 [H2 [H3 H4]]].
  split; [exact H1|]. split; [rewrite H2; reflexivity|]. split.
  - intros k. rewrite H3. cbn. tauto.
  - intros k n Hin.
    assert (Hn : n = count (String.eqb k) keys).
    { rewrite <- (lookup_unique k n _ H1 Hin), H4. reflexivity. }
    split; [exact Hn|]. subst n.
    assert (Hk : In k keys).
    { assert (In k (map fst (fold_left (fun g k1 => count_key k1 g) keys []))).
      { change k with (fst (k, count (String.eqb k) keys)). now apply in_map. }
      apply H3 in H. destruct H as [[]|H]; exact H. }
    unfold count, len.
    assert (In k (filter (String.eqb k) keys)).
    { apply filter_In. split; [exact Hk|apply String.eqb_refl]. }
    destruct (filter (String.eqb k) keys); [contradiction|]. cbn [List.length]. lia.
Qed.

Lemma count_le_len {A} (p : A -> bool) (l : list A) : 0 <= count p l <= len l.
Proof.
  unfold count, len. split; [lia|].
  apply inj_le. apply filter_length_le.
Qed.

Lemma count_disjoint {A} (p q : A -> bool) (l : list A) :
  (forall x, p x = true -> q x = false) -> count p l + count q l <= len l.
Proof.
  intros Hpq. unfold count. induction l as [|x l IH]; [cbn; lia|].
  cbn [filter]. destruct (p x) eqn:Hp.
  - rewrite (Hpq x Hp), !len_cons. lia.
  - destruct (q x); rewrite !len_cons; lia.
Qed.

(** X3.  The statistics are refused with 403 when the caller is neither an
    administrator nor a government official; for a caller with one of the
    two roles they raise only when the mappers do not configure.  The
    statistics that are returned hold three grouped counts with one entry
    per value that occurs among the stored documents, each with the number
    of documents that carry it, so each adds up to [total_documents];
    active and draft documents together never exceed the total, nor do the
    recent ones; [total_views] is the sum of the view counters and
    [total_comments] the size of the comment table. *)
Theorem policy_stats (m : Mapping) (current_user : User.t) (clk : Clock) (db : DB) :
  match get_policy_stats m current_user clk db with
  | Ok s =>
      elevated current_user = true
      /\ PolicyStats.total_documents s = len (policy_documents db)
      /\ tallies (map PolicyDocument.document_type (policy_documents db))
           (PolicyStats.documents_by_type s)
      /\ tallies (map PolicyDocument.category (policy_documents db))
           (PolicyStats.documents_by_category s)
      /\ tallies (map PolicyDocument.department (policy_documents db))
           (PolicyStats.documents_by_department s)
      /\ 0 <= PolicyStats.active_documents s
      /\ 0 <= PolicyStats.draft_documents s
      /\ PolicyStats.active_documents s + PolicyStats.draft_documents s
         <= PolicyStats.total_documents s
      /\ 0 <= PolicyStats.recent_documents s <= PolicyStats.total_documents s
      /\ PolicyStats.total_views s
         = py_sum (map PolicyDocument.view_count (policy_documents db))
      /\ PolicyStats.total_comments s = len (policy_comments db)
  | Raise e =>
      (elevated current_user = false /\ e = not_enough_permissions)
      \/ (elevated current_user = true /\ configure_mappers m = Raise e)
  end.
Proof.
  unfold get_policy_stats.
  destruct (elevated current_user); cbn [negb]; [|left; split; reflexivity].
  destruct (configure_mappers m) as [[]|e0]; cbn [bind]; [|auto].
  cbn [PolicyStats.total_documents PolicyStats.documents_by_type
       PolicyStats.documents_by_category PolicyStats.documents_by_department
       PolicyStats.active_documents PolicyStats.draft_documents
       PolicyStats.recent_documents PolicyStats.total_views
       PolicyStats.total_comments].
  split; [reflexivity|]. split; [reflexivity|].
  split; [apply group_count_tallies|]. split; [apply group_count_tallies|].
  split; [apply group_count_tallies|].
  split; [apply count_le_len|]. split; [apply count_le_len|].
  split; [|split; [apply count_le_len|split; reflexivity]].
  apply count_disjoint. intros d Hd.
  unfold sql_eq in *. destruct (PolicyDocument.status d) as [st|]; [|reflexivity].
  apply String.eqb_eq in Hd. subst st. reflexivity.
Qed.

(** ** Recommendations *)



Lemma recommend_recommends (d : PolicyDocument.t) (r : PolicyRecommendation.t) :
  recommend d = Ok r -> recommends d r.
Proof.
  unfold recommend, recommends.
  destruct (true_div (PolicyDocument.view_count d) 100) as [q|]; [|discriminate].
  cbn [bind]. intros H. injection H as <-. cbn. eauto 10.
Qed.

Lemma recommendations_loop (policies : list PolicyDocument.t) :
  forall acc,
    match for_each (fun recommendations policy =>
                      recommendation <- recommend policy ;;
                      Ok (recommendations ++ [recommendation]))
            policies acc with
    | Ok out => exists made, out = acc ++ made /\ Forall2 recommends policies made
    | Raise e => exists d, In d policies /\ recommend d = Raise e
    end.
Proof.
  induction policies as [|d policies IH]; intros acc; cbn [for_each].
  - exists []. rewrite app_nil_r. split; [reflexivity|constructor].
  - destruct (recommend d) as [r|e] eqn:E; cbn [bind].
    + specialize (IH (acc ++ [r])).
      destruct (for_each _ policies (acc ++ [r])) as [out|e].
      * destruct IH as [made [-> Hmade]]. exists (r :: made).
        rewrite <- app_assoc. split; [reflexivity|].
        constructor; [now apply recommend_recommends|exact Hmade].
      * destruct IH as [d' [Hd' He]]. exists d'. split; [now right|exact He].
    + exists d. split; [now left|exact E].
Qed.



(** ** The analytics pass of the search *)

Lemma for_each_invariant {A B} (body : B -> A -> result B) (P : B -> Prop)
  (l : list A) :
  (forall acc x acc', P acc -> body acc x = Ok acc' -> P acc') ->
  forall acc out, P acc -> for_each body l acc = Ok out -> P out.
Proof.
  intros Hbody. induction l as [|x l IH]; cbn [for_each]; intros acc out HP H.
  - now inversion H; subst.
  - unfold bind in H. destruct (body acc x) as [acc'|] eqn:E; [|discriminate].
    eapply IH; [|exact H]. eapply Hbody; eauto.
Qed.

Lemma record_appearances_day_total (col : column) (clk : Clock)
  (document_id : Z) (day : date) (results : list PolicySearchResult.t) :
  forall rows rows',
    record_appearances results clk rows = Ok rows' ->
    day_total col document_id day rows'
    = day_total col document_id day rows
      + (if (date_of (datetime_now clk) =? day) && column_eqb col ColSearch
         then occurrences document_id (map PolicySearchResult.id results)
         else 0).
Proof.
  unfold record_appearances, occurrences, count.
  induction results as [|r results IH]; intros rows rows' H;
    cbn [for_each map filter] in *.
  - inversion H; subst. destruct (_ && _); cbn; lia.
  - unfold bind in H.
    destruct (record_event SearchAppearances (PolicySearchResult.id r) clk rows)
      as [rows1|] eqn:E; [|discriminate].
    rewrite (IH _ _ H), (record_event_day_total _ col _ _ _ _ document_id day E).
    rewrite (Z.eqb_sym document_id (PolicySearchResult.id r)).
    cbn [column_of].
    destruct (PolicySearchResult.id r =? document_id);
      destruct (date_of (datetime_now clk) =? day);
      destruct (column_eqb col ColSearch);
      cbn [andb]; rewrite ?len_cons; lia.
Qed.

Lemma occurrences_NoDup (k : Z) (ids : list Z) :
  NoDup ids -> occurrences k ids = if in_dec Z.eq_dec k ids then 1 else 0.
Proof.
  unfold occurrences, count.
  induction 1 as [|x ids Hx Hnd IH]; [reflexivity|].
  cbn [filter]. destruct (Z.eqb_spec k x) as [->|Hne].
  - rewrite len_cons, IH.
    destruct (in_dec Z.eq_dec x ids); [contradiction|].
    destruct (in_dec Z.eq_dec x (x :: ids)) as [_|Hn]; [lia|].
    exfalso. apply Hn. now left.
  - rewrite IH.
    destruct (in_dec Z.eq_dec k ids) as [Hin|Hout];
      destruct (in_dec Z.eq_dec k (x :: ids)) as [Hin'|Hout']; try reflexivity.
    + exfalso. apply Hout'. now right.
    + destruct Hin' as [E|Hin']; [congruence|contradiction].
Qed.

Lemma search_result_ids_NoDup (query : string) (skip limit : Z)
  (document_type category department status : option string)
  (docs : list PolicyDocument.t) (results : list PolicySearchResult.t) :
  NoDup (map PolicyDocument.id docs) ->
  search_results query skip limit document_type category department status docs
  = Ok results ->
  NoDup (map PolicySearchResult.id results).
Proof.
  intros Huniq E.
  destruct (search_results_page _ _ _ _ _ _ _ _ _ E) as [_ [_ Hpage]].
  rewrite (made_from_ids _ _ Hpage), <- (map_map snd PolicyDocument.id),
    page_documents.
  apply (NoDup_map_selection _ docs); auto.
  - apply tiers_NoDup. now apply NoDup_map_inv in Huniq.
  - apply tiers_incl.
Qed.

(** X5.  A search writes nothing but search appearances: it leaves the
    document and comment tables alone, and in the analytics table it adds to
    the [search_appearances] of today's bucket of a document as many times
    as the document occurs in the returned list, which is once per returned
    document on a store with unique keys, whatever the tier, and changes no
    other bucket and no other counter.  A search that raises leaves the store as it was. *)
Theorem search_appearances_recorded (m : Mapping) (query : string) (skip limit : Z)
  (document_type category department status : option string)
  (clk : Clock) (db : DB) :
  match search_policy_documents m query skip limit document_type category
          department status clk db with
  | (Ok results, db') =>
      policy_documents db' = policy_documents db
      /\ policy_comments db' = policy_comments db
      /\ (forall col document_id day,
            day_total col document_id day (policy_analytics db')
            = day_total col document_id day (policy_analytics db)
              + (if (date_of (datetime_now clk) =? day) && column_eqb col ColSearch
                 then occurrences document_id (map PolicySearchResult.id results)
                 else 0))
      /\ (unique_ids db ->
          forall document_id,
            occurrences document_id (map PolicySearchResult.id results)
            = if in_dec Z.eq_dec document_id (map PolicySearchResult.id results)
              then 1 else 0)
  | (Raise _, db') => db' = db
  end.
Proof.
  destruct (search_policy_documents m query skip limit document_type category
              department status clk db) as [[results|e] db'] eqn:E.
  - apply search_returned in E. destruct E as [_ [E [Hrec ->]]].
    cbn [policy_documents policy_comments policy_analytics set_policy_analytics].
    split; [reflexivity|]. split; [reflexivity|]. split.
    + intros col document_id day.
      now apply record_appearances_day_total.
    + intros Huniq document_id. apply occurrences_NoDup.
      eapply search_result_ids_NoDup; eauto.
  - now apply search_raised in E.
Qed.

(** ** The primary key stays unique *)

Lemma next_id_above (ids : list Z) (x : Z) : In x ids -> x < next_id ids.
Proof.
  unfold next_id. induction ids as [|y ids IH]; cbn [fold_right In];
    [contradiction|].
  intros [->|Hx]; [lia|]. specialize (IH Hx). lia.
Qed.

Lemma next_id_fresh (ids : list Z) : ~ In (next_id ids) ids.
Proof. intros H. apply next_id_above in H. lia. Qed.

(** Every request keeps the document keys pairwise distinct, so the
    uniqueness that the search properties assume holds on every store that
    the module builds from an empty one. *)
Lemma serves_unique_ids (clk : Clock) (db db' : DB) (req : Request) (user : User.t)
  (answer : result Response) :
  serves_as clk db req user answer db' -> unique_ids db -> unique_ids db'.
Proof.
  unfold unique_ids.
  intros [req0 user0 answer0 Hw|req0 user0 e Hw He|document user0 created Hu Hn Hf Hc
         |i user0 d rows Hd Hpub Hfit Hrec|i u user0 d Hd Hedit Hnull
         |params user0 results rows Hr Hrec] H;
    cbn [policy_documents set_policy_documents set_policy_analytics]; try exact H.
  - rewrite map_app. apply NoDup_app; [exact H|repeat constructor; auto|].
    intros x Hx [E|[]]. subst x created. cbn in Hx. now apply (next_id_fresh _ Hx).
  - now rewrite map_update_first by reflexivity.
  - now rewrite map_update_first by (intros x; apply committed_id).
Qed.

Lemma handle_unique_ids (m : Mapping) (req : Request) (current_user : User.t)
  (clk : Clock) (db : DB) :
  unique_ids db -> unique_ids (snd (handle m req current_user clk db)).
Proof. apply (serves_unique_ids _ _ _ _ _ _ (handle_serves m req current_user clk db)). Qed.

Lemma run_unique_ids (m : Mapping) (calls : list call) :
  forall db, unique_ids db -> unique_ids (run m calls db).
Proof.
  induction calls as [|[[req user] clk] calls IH]; intros db H; [exact H|].
  change (run m ((req, user, clk) :: calls) db)
    with (run m calls (snd (handle m req user clk db))).
  apply IH, handle_unique_ids, H.
Qed.

(** ** Invariants of the analytics table *)

Lemma increment_id (c : counter) (a : PolicyAnalytics.t) :
  PolicyAnalytics.id (increment c a) = PolicyAnalytics.id a.
Proof. destruct a, c; reflexivity. Qed.

Lemma increment_bucket_key (c : counter) (a : PolicyAnalytics.t) :
  bucket_key (increment c a) = bucket_key a.
Proof.
  unfold bucket_key. destruct (increment_key c a) as [-> ->]. reflexivity.
Qed.

Lemma new_row_id (c : counter) (row_id document_id : Z) (now : datetime) :
  PolicyAnalytics.id (new_row c row_id document_id now) = row_id.
Proof. destruct c; reflexivity. Qed.

Lemma bucket_present (document_id : Z) (day : date) (rows : list PolicyAnalytics.t) :
  In (document_id, day) (map bucket_key rows) ->
  exists a, first (row_of_day document_id day) rows = Some a.
Proof.
  intros H. apply in_map_iff in H. destruct H as [a [Hk Ha]].
  apply (in_first _ rows a Ha).
  unfold bucket_key in Hk. inversion Hk. unfold row_of_day.
  now rewrite !Z.eqb_refl.
Qed.

Lemma NoDup_snoc {A} (l : list A) (x : A) : NoDup l -> ~ In x l -> NoDup (l ++ [x]).
Proof.
  intros Hl Hx. apply NoDup_app; [exact Hl|repeat constructor; auto|].
  intros y Hy [E|[]]. subst y. contradiction.
Qed.

Lemma recorded_buckets (c : counter) (document_id : Z) (clk : Clock)
  (rows : list PolicyAnalytics.t) :
  one_row_per_bucket rows ->
  one_row_per_bucket (recorded c document_id clk rows).
Proof.
  unfold one_row_per_bucket, recorded. intros [Hb Hi].
  destruct (first (row_of_day document_id (date_of (datetime_now clk))) rows)
    as [a|] eqn:E.
  - rewrite !map_update_first;
      [auto | intros x; apply increment_id | intros x; apply increment_bucket_key].
  - rewrite !map_app. cbn [map]. split.
    + apply NoDup_snoc; [exact Hb|].
      unfold bucket_key at 1.
      destruct (new_row_key c (next_id (map PolicyAnalytics.id rows)) document_id
                  (datetime_now clk)) as [-> ->].
      intros Hin. apply bucket_present in Hin. destruct Hin as [a Ha]. congruence.
    + apply NoDup_snoc; [exact Hi|].
      rewrite new_row_id. apply next_id_fresh.
Qed.

Lemma record_event_buckets (c : counter) (document_id : Z) (clk : Clock)
  (rows rows' : list PolicyAnalytics.t) :
  one_row_per_bucket rows ->
  record_event c document_id clk rows = Ok rows' ->
  one_row_per_bucket rows'.
Proof.
  intros H E. apply record_event_ok in E. subst. now apply recorded_buckets.
Qed.

Lemma record_appearances_buckets (clk : Clock) (results : list PolicySearchResult.t)
  (rows rows' : list PolicyAnalytics.t) :
  one_row_per_bucket rows ->
  record_appearances results clk rows = Ok rows' ->
  one_row_per_bucket rows'.
Proof.
  unfold record_appearances. apply for_each_invariant.
  intros acc r acc' Hacc E. eapply record_event_buckets; eauto.
Qed.

Lemma serves_buckets (clk : Clock) (db db' : DB) (req : Request) (user : User.t)
  (answer : result Response) :
  serves_as clk db req user answer db' ->
  one_row_per_bucket (policy_analytics db) ->
  one_row_per_bucket (policy_analytics db').
Proof.
  intros [req0 user0 answer0 Hw|req0 user0 e Hw He|document user0 created Hu Hn Hf Hc
         |i user0 d rows Hd Hpub Hfit Hrec|i u user0 d Hd Hedit Hnull
         |params user0 results rows Hr Hrec] H;
    cbn [policy_analytics set_policy_documents set_policy_analytics]; try exact H.
  - eapply record_event_buckets; eauto.
  - eapply record_appearances_buckets; eauto.
Qed.

Lemma handle_buckets (m : Mapping) (req : Request) (current_user : User.t)
  (clk : Clock) (db : DB) :
  one_row_per_bucket (policy_analytics db) ->
  one_row_per_bucket (policy_analytics (snd (handle m req current_user clk db))).
Proof. apply (serves_buckets _ _ _ _ _ _ (handle_serves m req current_user clk db)). Qed.

(** X6.  Day bucketing is an invariant: when the analytics table holds at
    most one row per (document, calendar day), under pairwise distinct keys,
    it still does after any sequence of requests to the module. *)
Theorem analytics_buckets_kept (m : Mapping) (calls : list call) (db : DB) :
  one_row_per_bucket (policy_analytics db) ->
  one_row_per_bucket (policy_analytics (run m calls db)).
Proof.
  revert db. induction calls as [|[[req user] clk] calls IH]; intros db H;
    [exact H|].
  change (run m ((req, user, clk) :: calls) db)
    with (run m calls (snd (handle m req user clk db))).
  apply IH, handle_buckets, H.
Qed.

Example analytics_buckets_kept_witness :
  one_row_per_bucket (policy_analytics (run models_with_citing_key two_reads sample_db)).
Proof.
  apply (analytics_buckets_kept models_with_citing_key two_reads sample_db).
  split; constructor.
Defined.




Lemma viewing_reaches_commit (d : PolicyDocument.t) :
  reaches_commit (bind (PolicyDocumentResponse d) (fun a => Ok (Document a))) = true.
Proof. destruct (response_answer d) as [-> | ->]; reflexivity. Qed.


(** ** What the requests do to the counters *)













(** ** Creating, then reading and searching *)

Lemma first_missing_not_in {A} (p : A -> bool) (l : list A) :
  first p l = None -> forall x, In x l -> p x = false.
Proof. unfold first. intros H x Hx. exact (find_none _ _ H x Hx). Qed.





Lemma committed_number (clk : Clock) (u : PolicyDocumentUpdate.t)
  (d : PolicyDocument.t) :
  PolicyDocument.document_number (committed clk u d)
  = PolicyDocument.document_number d.
Proof.
  destruct (committed_fields clk u d) as [-> | ->]; reflexivity.
Qed.

Lemma serves_unique_numbers (clk : Clock) (db db' : DB) (req : Request) (user : User.t)
  (answer : result Response) :
  serves_as clk db req user answer db' -> unique_numbers db -> unique_numbers db'.
Proof.
  unfold unique_numbers.
  intros [req0 user0 answer0 Hw|req0 user0 e Hw He|document user0 created Hu Hn Hf Hc
         |i user0 d rows Hd Hpub Hfit Hrec|i u user0 d Hd Hedit Hnull
         |params user0 results rows Hr Hrec] H;
    cbn [policy_documents set_policy_documents set_policy_analytics]; try exact H.
  - rewrite map_app. apply NoDup_snoc; [exact H|].
    subst created. cbn [map new_document PolicyDocument.document_number].
    intros Hin. apply in_map_iff in Hin. destruct Hin as [d [Hnum Hd]].
    pose proof (first_missing_not_in _ _ Hn d Hd) as Hp. cbn in Hp.
    apply String.eqb_neq in Hp. contradiction.
  - now rewrite map_update_first by reflexivity.
  - now rewrite map_update_first by (intros x; apply committed_number).
Qed.

(** X11.  Uniqueness of the keys and of the document numbers is an
    invariant of the module: a store in which both are pairwise distinct is
    still such a store after any sequence of requests.  The create handler
    checks the number before it inserts, and no other handler writes a key
    or a number. *)
Theorem keys_and_numbers_stay_unique (m : Mapping) (calls : list call) (db : DB) :
  unique_ids db -> unique_numbers db ->
  unique_ids (run m calls db) /\ unique_numbers (run m calls db).
Proof.
  intros Hi Hn. split; [now apply run_unique_ids|].
  revert db Hi Hn. induction calls as [|[[req user] clk] calls IH];
    intros db Hi Hn; [exact Hn|].
  change (run m ((req, user, clk) :: calls) db)
    with (run m calls (snd (handle m req user clk db))).
  apply IH; [now apply handle_unique_ids|].
  apply (serves_unique_numbers _ _ _ _ _ _ (handle_serves m req user clk db) Hn).
Qed.

Example keys_and_numbers_stay_unique_witness :
  unique_ids (run models_with_citing_key
                [(CreateDocument dam_safety_act, official, at_time morning);
                 (CreateDocument dam_safety_act, other_official, at_time noon)]
                sample_db)
  /\ unique_numbers
       (run models_with_citing_key
          [(CreateDocument dam_safety_act, official, at_time morning);
           (CreateDocument dam_safety_act, other_official, at_time noon)]
          sample_db).
Proof.
  apply (keys_and_numbers_stay_unique models_with_citing_key
           [(CreateDocument dam_safety_act, official, at_time morning);
            (CreateDocument dam_safety_act, other_official, at_time noon)]
           sample_db).
  - unfold unique_ids. cbn. repeat constructor; cbn; lia.
  - unfold unique_numbers. cbn.
    repeat constructor; cbn; intuition discriminate.
Defined.




(** ** Repeated and empty updates, and withdrawing a document *)

Lemma required_idem {A} (supplied : option (option A)) (old : A) :
  required supplied (required supplied old) = required supplied old.
Proof. destruct supplied as [[v|]|]; reflexivity. Qed.

Lemma default_idem {A} (supplied : option A) (old : A) :
  default (default old supplied) supplied = default old supplied.
Proof. destruct supplied; reflexivity. Qed.

Lemma apply_update_idem (u : PolicyDocumentUpdate.t) (d : PolicyDocument.t) :
  apply_update u (apply_update u d) = apply_update u d.
Proof.
  unfold apply_update, setattr.
  cbn [PolicyDocument.id PolicyDocument.title PolicyDocument.document_number
       PolicyDocument.document_type PolicyDocument.category
       PolicyDocument.department PolicyDocument.summary PolicyDocument.content
       PolicyDocument.keywords PolicyDocument.effective_date
       PolicyDocument.expiry_date PolicyDocument.status PolicyDocument.version
       PolicyDocument.language PolicyDocument.file_url PolicyDocument.created_by
       PolicyDocument.reviewed_by PolicyDocument.is_public
       PolicyDocument.view_count PolicyDocument.created_at
       PolicyDocument.updated_at].
  now rewrite !required_idem, !default_idem.
Qed.

Lemma modified_set_updated_at (t : option datetime) (u : PolicyDocumentUpdate.t)
  (d : PolicyDocument.t) :
  modified u (PolicyDocument.set_updated_at t d) = modified u d.
Proof. destruct d; reflexivity. Qed.

Lemma apply_update_set_updated_at (t : option datetime) (u : PolicyDocumentUpdate.t)
  (d : PolicyDocument.t) :
  apply_update u (PolicyDocument.set_updated_at t d)
  = PolicyDocument.set_updated_at t (apply_update u d).
Proof. destruct d; reflexivity. Qed.

Lemma set_updated_at_twice (t t' : option datetime) (d : PolicyDocument.t) :
  PolicyDocument.set_updated_at t' (PolicyDocument.set_updated_at t d)
  = PolicyDocument.set_updated_at t' d.
Proof. destruct d; reflexivity. Qed.

Lemma settled_string (supplied : option (option string)) (old : option string) :
  changes string_eqb_opt supplied (setattr supplied old) = false.
Proof.
  destruct supplied as [[v|]|]; cbn; [now rewrite String.eqb_refl| |]; reflexivity.
Qed.

Lemma settled_bool (supplied : option (option bool)) (old : option bool) :
  changes bool_eqb_opt supplied (setattr supplied old) = false.
Proof. destruct supplied as [[[]|]|]; reflexivity. Qed.

Lemma settled_required (supplied : option (option string)) (old : string) :
  supplied <> Some None ->
  changes string_eqb_opt supplied (Some (required supplied old)) = false.
Proof.
  destruct supplied as [[v|]|]; cbn; intros H;
    [now rewrite String.eqb_refl|contradiction|reflexivity].
Qed.

Lemma settled_datetime (supplied : option (option datetime_tz))
  (old : option datetime) :
  changes datetime_eqb_opt supplied
    (setattr (option_map (option_map wall) supplied) old)
  = match supplied with
    | Some (Some a) => match utcoffset a with Some _ => true | None => false end
    | _ => false
    end.
Proof.
  destruct supplied as [[a|]|]; cbn; try reflexivity.
  destruct (utcoffset a); [reflexivity|]. now rewrite Z.eqb_refl.
Qed.

Lemma required_columns_supplied (u : PolicyDocumentUpdate.t) :
  nulls_required_column u = false ->
  PolicyDocumentUpdate.title u <> Some None
  /\ PolicyDocumentUpdate.summary u <> Some None
  /\ PolicyDocumentUpdate.content u <> Some None.
Proof.
  unfold nulls_required_column.
  destruct (PolicyDocumentUpdate.title u) as [[?|]|],
           (PolicyDocumentUpdate.summary u) as [[?|]|],
           (PolicyDocumentUpdate.content u) as [[?|]|];
    intros H; try discriminate H; repeat split; discriminate.
Qed.

Lemma modified_applied (u : PolicyDocumentUpdate.t) (d : PolicyDocument.t) :
  nulls_required_column u = false ->
  modified u (apply_update u d) = supplies_aware_expiry u.
Proof.
  intros Hnull. destruct (required_columns_supplied u Hnull) as [Ht [Hs Hc]].
  unfold modified, supplies_aware_expiry, apply_update.
  cbn [PolicyDocument.title PolicyDocument.summary PolicyDocument.content
       PolicyDocument.keywords PolicyDocument.expiry_date PolicyDocument.status
       PolicyDocument.file_url PolicyDocument.is_public].
  rewrite !settled_string, settled_bool, settled_datetime,
    !settled_required by assumption.
  cbn [orb]. now rewrite !orb_false_r.
Qed.

Lemma unmodified_not_aware (u : PolicyDocumentUpdate.t) (d : PolicyDocument.t) :
  modified u d = false -> supplies_aware_expiry u = false.
Proof.
  unfold modified, supplies_aware_expiry. rewrite !orb_false_iff.
  intros [[[[_ H] _] _] _].
  destruct (PolicyDocumentUpdate.expiry_date u) as [[a|]|]; try reflexivity.
  destruct (utcoffset a) eqn:Ha; [|reflexivity].
  cbn in H. destruct (PolicyDocument.expiry_date d); cbn in H;
    rewrite ?Ha in H; discriminate.
Qed.

Lemma modified_committed (clk : Clock) (u : PolicyDocumentUpdate.t)
  (d : PolicyDocument.t) :
  nulls_required_column u = false ->
  modified u (committed clk u d) = supplies_aware_expiry u.
Proof.
  intros Hnull.
  destruct (committed_cases clk u d) as [[Hm [-> _]]|[Hm ->]].
  - rewrite Hm. symmetry. eapply unmodified_not_aware, Hm.
  - rewrite modified_set_updated_at. now apply modified_applied.
Qed.

Lemma apply_committed (clk : Clock) (u : PolicyDocumentUpdate.t)
  (d : PolicyDocument.t) :
  apply_update u (committed clk u d) = committed clk u d.
Proof.
  destruct (committed_cases clk u d) as [[Hm [-> Ha]]|[Hm ->]]; [exact Ha|].
  now rewrite apply_update_set_updated_at, apply_update_idem.
Qed.

(** What the commit of a repeated update writes. *)
Lemma recommitted (clk later : Clock) (u : PolicyDocumentUpdate.t)
  (d : PolicyDocument.t) :
  nulls_required_column u = false ->
  committed later u (committed clk u d)
  = if supplies_aware_expiry u
    then PolicyDocument.set_updated_at (Some (func_now later)) (committed clk u d)
    else committed clk u d.
Proof.
  intros Hnull. unfold committed at 1.
  now rewrite modified_committed, apply_committed.
Qed.

Lemma update_first_fixed {A} (p : A -> bool) (f : A -> A) (l : list A) (x : A) :
  first p l = Some x -> f x = x -> update_first p f l = l.
Proof.
  unfold first. induction l as [|y l IH]; cbn; [reflexivity|].
  destruct (p y) eqn:E.
  - intros H Hf. inversion H; subst. now rewrite Hf.
  - intros H Hf. now rewrite IH.
Qed.

Lemma update_first_agree {A} (p : A -> bool) (f g : A -> A) (l : list A) (x : A) :
  first p l = Some x -> f x = g x -> update_first p f l = update_first p g l.
Proof.
  unfold first. induction l as [|y l IH]; cbn; [reflexivity|].
  destruct (p y) eqn:E.
  - intros H Hf. inversion H; subst. now rewrite Hf.
  - intros H Hf. now rewrite IH.
Qed.

Lemma committed_created_by (clk : Clock) (u : PolicyDocumentUpdate.t)
  (d : PolicyDocument.t) :
  PolicyDocument.created_by (committed clk u d) = PolicyDocument.created_by d.
Proof.
  destruct (committed_fields clk u d) as [-> | ->]; reflexivity.
Qed.

Lemma response_rewritten (later : Clock) (d : PolicyDocument.t) :
  bind (PolicyDocumentResponse
          (PolicyDocument.set_updated_at (Some (func_now later)) d))
       (fun a => Ok (Document a))
  = bind (bind (PolicyDocumentResponse d) (fun a => Ok (Document a)))
         (fun response => Ok (rewritten_at later response)).
Proof.
  unfold PolicyDocumentResponse, serialisable.
  destruct d as [? ? ? ? ? ? ? ? ? ? ? st ? ? ? ? ? pub ? ? ?].
  destruct st, pub; reflexivity.
Qed.

(** X13.  Sending an update twice.  When the first request does not reach
    its commit, the second is answered with the same error and the store
    stays as it was.  When it does, whether it is then answered with the
    document or with the failed validation of its response, the same
    payload sent again by the same caller is answered in the same way and
    leaves the store exactly as the first left it, the [updated_at] of the
    row included, unless the payload supplies an [expiry_date] with a UTC
    offset: such a value never equals the stored one, so the row is written
    again, and the repeat changes its [updated_at], in the store and in the
    answer, and nothing else. *)
Theorem update_is_idempotent (m : Mapping) (document_id : Z)
  (document_update : PolicyDocumentUpdate.t) (current_user : User.t)
  (clk later : Clock) (db : DB) :
  let first_out :=
    handle m (UpdateDocument document_id document_update) current_user clk db in
  let second_out :=
    handle m (UpdateDocument document_id document_update) current_user later
      (snd first_out) in
  if reaches_commit (fst first_out)
  then
    if supplies_aware_expiry document_update
    then
      fst second_out
      = bind (fst first_out) (fun response => Ok (rewritten_at later response))
      /\ snd second_out
         = set_policy_documents
             (update_first (has_id document_id)
                (PolicyDocument.set_updated_at (Some (func_now later)))
                (policy_documents (snd first_out)))
             (snd first_out)
    else second_out = first_out
  else snd first_out = db /\ second_out = first_out.
Proof.
  cbv zeta. cbn [handle]. unfold respond, update_policy_document, on_first_query.
  destruct (elevated current_user); cbn [negb fst snd bind reaches_commit];
    [|now split].
  destruct (configure_mappers m) as [[]|e0] eqn:Hm;
    cbn [negb fst snd bind reaches_commit].
  2:{ rewrite (configure_error _ _ Hm). now split. }
  destruct (first (has_id document_id) (policy_documents db)) as [d|] eqn:E;
    cbn [fst snd bind reaches_commit validation_error document_not_found];
    [|rewrite E; now split].
  destruct (negb (String.eqb (User.role current_user) "admin")
            && negb (PolicyDocument.created_by d =? User.id current_user)) eqn:Hauth;
    cbn [fst snd bind reaches_commit validation_error not_enough_permissions_to_edit].
  { rewrite E, Hauth. now split. }
  destruct (nulls_required_column document_update) eqn:Hnull;
    cbn [fst snd bind reaches_commit validation_error].
  { rewrite E, Hauth. now split. }
  rewrite viewing_reaches_commit.
  cbn [policy_documents set_policy_documents].
  assert (Hfirst : first (has_id document_id)
                     (update_first (has_id document_id)
                        (committed clk document_update) (policy_documents db))
                   = Some (committed clk document_update d)).
  { rewrite first_update_same by (intros x Hx; now rewrite has_id_committed).
    now rewrite E. }
  rewrite Hfirst, committed_created_by, Hauth.
  cbn [fst snd policy_comments policy_analytics].
  pose proof (recommitted clk later document_update d Hnull) as Hre.
  rewrite Hre.
  rewrite (update_first_agree _ _
             (if supplies_aware_expiry document_update
              then PolicyDocument.set_updated_at (Some (func_now later))
              else fun x => x) _ _ Hfirst)
    by (rewrite Hre; now destruct (supplies_aware_expiry document_update)).
  destruct (supplies_aware_expiry document_update).
  - split; [apply response_rewritten|reflexivity].
  - rewrite (update_first_fixed _ (fun x => x) _ _ Hfirst eq_refl). reflexivity.
Qed.

Lemma apply_no_fields (d : PolicyDocument.t) : apply_update no_fields d = d.
Proof. destruct d; reflexivity. Qed.




(** Every entry of a result list belongs to a stored public document. *)
Lemma search_results_public (query : string) (skip limit : Z)
  (document_type category department status : option string)
  (docs : list PolicyDocument.t) (results : list PolicySearchResult.t) :
  search_results query skip limit document_type category department status docs
  = Ok results ->
  forall r, In r results ->
  exists d, In d docs
            /\ PolicyDocument.id d = PolicySearchResult.id r
            /\ PolicyDocument.is_public d = Some true
            /\ filter_passes status (PolicyDocument.status d) = true
            /\ filter_passes document_type (Some (PolicyDocument.document_type d)) = true
            /\ filter_passes category (Some (PolicyDocument.category d)) = true
            /\ filter_passes department (Some (PolicyDocument.department d)) = true
            /\ made_from (default score_title (PolicySearchResult.relevance_score r), d) r.
Proof.
  intros E r Hr.
  destruct (search_results_page _ _ _ _ _ _ _ _ _ E) as [_ [_ Hpage]].
  destruct (Forall2_in_right _ _ _ _ Hpage Hr) as [[s d] [Hin Hmade]].
  destruct (made_from_id _ _ Hmade) as [Hid Hsc]. cbn [fst snd] in Hid, Hsc.
  assert (Hbase : In d (base_query document_type category department status docs)).
  { apply page_In in Hin.
    destruct Hin as [[_ Hin]|[[_ Hin]|[_ Hin]]].
    - now apply tier_a_In in Hin.
    - now apply tier_b_In in Hin.
    - now apply tier_c_In in Hin. }
  apply base_query_In in Hbase.
  destruct Hbase as [Hd [Hpub [Hst [Hty [Hcat Hdep]]]]].
  exists d. rewrite Hsc. cbn [default]. auto 10.
Qed.

Lemma recommendation_sources (m : Mapping) (category : option string) (limit : Z)
  (reader : User.t) (db : DB) (recommendations : list PolicyRecommendation.t) :
  get_policy_recommendations m category limit reader db = Ok recommendations ->
  forall r, In r recommendations ->
  exists d, In d (policy_documents db)
            /\ PolicyDocument.id d = PolicyRecommendation.policy_id r
            /\ PolicyDocument.is_public d = Some true.
Proof.
  unfold get_policy_recommendations.
  destruct (configure_mappers m) as [[]|e0]; cbn [bind]; [|discriminate].
  rewrite filter_eq_as_filter, filter_filter.
  change (fun x : PolicyDocument.t =>
            sql_eq (PolicyDocument.status x) "active"
            && is_true (PolicyDocument.is_public x)
            && filter_passes category (Some (PolicyDocument.category x)))
    with (recommendable category).
  pose proof (paged_query PolicyDocument.view_count (recommendable category)
                0 limit (policy_documents db)) as H.
  destruct (offset_limit 0 limit _) as [popular|e] eqn:E; cbn [bind]; [|discriminate].
  destruct H as [_ [_ [_ [_ [Hin _]]]]].
  pose proof (recommendations_loop popular []) as Hloop.
  destruct (for_each _ popular []) as [out|e]; [|discriminate].
  destruct Hloop as [made [-> Hmade]]. cbn [app].
  intros Hrec r Hr. injection Hrec as <-.
  destruct (Forall2_in_right _ _ _ _ Hmade Hr) as [d [Hd Hrd]].
  destruct (Hin d Hd) as [Hstored Hp].
  unfold recommendable in Hp. rewrite !andb_true_iff in Hp.
  destruct Hp as [[_ Hpub] _].
  exists d. split; [exact Hstored|]. split; [symmetry; apply Hrd|].
  destruct (PolicyDocument.is_public d) as [[]|]; simpl in Hpub; congruence.
Qed.

Lemma committed_is_public (clk : Clock) (u : PolicyDocumentUpdate.t)
  (d : PolicyDocument.t) (v : option bool) :
  PolicyDocumentUpdate.is_public u = Some v ->
  PolicyDocument.is_public (committed clk u d) = v.
Proof.
  intros Hsup. replace (committed clk u d) with (committed clk u d) by reflexivity.
  rewrite <- (apply_committed clk u d).
  unfold apply_update, setattr. cbn [PolicyDocument.is_public]. now rewrite Hsup.
Qed.

(** X15.  A document that is not public is closed, and withdrawing a
    document makes it so.  While the stored document of a key is not public,
    every read of the key is refused, with 403 once the mappers configure,
    and writes nothing; on a store with unique keys the document is in no
    returned search result and in no returned recommendation list, whatever
    the query and the filters.  And an update that supplies [is_public] as
    false or null and reaches its commit, whether it is then answered with
    the document or with the failed validation of its response, leaves
    under its key a document that is not public. *)
Theorem withdrawn_document_is_closed (m : Mapping) (document_id : Z)
  (document_update : PolicyDocumentUpdate.t) (current_user : User.t)
  (clk : Clock) (db : DB) (v : option bool) :
  PolicyDocumentUpdate.is_public document_update = Some v ->
  is_true v = false ->
  unique_ids db ->
  let out := handle m (UpdateDocument document_id document_update) current_user clk db in
  (reaches_commit (fst out) = true ->
   exists d, first (has_id document_id) (policy_documents (snd out)) = Some d
             /\ PolicyDocument.is_public d = v)
  /\ (reaches_commit (fst out) = false -> snd out = db)
  /\ forall d,
       first (has_id document_id) (policy_documents (snd out)) = Some d ->
       is_true (PolicyDocument.is_public d) = false ->
       (forall reader later,
          refused_with m document_is_not_public (snd out)
            (handle m (GetDocument document_id) reader later (snd out)))
       /\ (forall query skip limit document_type category department status later
                  results db'',
             search_policy_documents m query skip limit document_type category
               department status later (snd out) = (Ok results, db'') ->
             ~ In document_id (map PolicySearchResult.id results))
       /\ (forall category limit reader recommendations,
             get_policy_recommendations m category limit reader (snd out)
             = Ok recommendations ->
             ~ In document_id (map PolicyRecommendation.policy_id recommendations)).
Proof.
  intros Hsup Hpriv Huniq out.
  pose proof (handle_serves m (UpdateDocument document_id document_update)
                current_user clk db) as Hs.
  pose proof (handle_unique_ids m (UpdateDocument document_id document_update)
                current_user clk db Huniq) as Huniq'.
  fold out in Hs, Huniq'.
  destruct out as [answer db']. cbn [fst snd] in *.
  split; [|split].
  - inversion Hs as [? ? ? Hw|? ? e Hw He| | |i u u0 d Hd Hedit Hnull|]; subst.
    + discriminate Hw.
    + cbn [reaches_commit]. rewrite He. discriminate.
    + intros _. exists (committed clk document_update d). split.
      * cbn [policy_documents set_policy_documents].
        rewrite first_update_same by (intros x Hx; now rewrite has_id_committed).
        now rewrite Hd.
      * now apply committed_is_public.
  - inversion Hs as [? ? ? Hw|? ? e Hw He| | |i u u0 d Hd Hedit Hnull|]; subst.
    + discriminate Hw.
    + reflexivity.
    + rewrite viewing_reaches_commit. discriminate.
  - clear Hs. intros d Hfirst Hclosed.
    assert (Hstored : In d (policy_documents db') /\ PolicyDocument.id d = document_id).
    { apply first_in in Hfirst. destruct Hfirst as [Hin Hid].
      split; [exact Hin|]. now apply Z.eqb_eq in Hid. }
    destruct Hstored as [Hin' Hid'].
    assert (Hsame : forall x, In x (policy_documents db') ->
                              PolicyDocument.id x = document_id -> x = d).
    { intros x Hx Hidx.
      apply (key_injective PolicyDocument.id (policy_documents db')); auto.
      congruence. }
    split; [|split].
    + intros reader later. unfold refused_with. cbn [handle].
      unfold respond, get_policy_document, on_first_query.
      destruct (configure_mappers m) as [[]|e0]; [|reflexivity].
      rewrite Hfirst, Hclosed. reflexivity.
    + intros query skip limit document_type category department status later
        results db'' Hsearch Hin.
      apply search_returned in Hsearch. destruct Hsearch as [_ [E _]].
      apply in_map_iff in Hin. destruct Hin as [r [Hrid Hr]].
      destruct (search_results_public _ _ _ _ _ _ _ _ _ E r Hr)
        as [x [Hx [Hidx [Hpub _]]]].
      rewrite (Hsame x Hx ltac:(congruence)) in Hpub.
      rewrite Hpub in Hclosed. discriminate.
    + intros category limit reader recommendations Hrec Hin.
      pose proof (recommendation_sources m category limit reader db'
                    recommendations Hrec) as Hsrc.
      apply in_map_iff in Hin. destruct Hin as [r [Hrid Hr]].
      destruct (Hsrc r Hr) as [x [Hx [Hidx Hpub]]].
      rewrite (Hsame x Hx ltac:(congruence)) in Hpub.
      rewrite Hpub in Hclosed. discriminate.
Qed.

Example withdrawn_document_is_closed_witness :
  (forall reader later,
     handle models_with_citing_key (GetDocument 1) reader later withdrawn_db
     = (Raise document_is_not_public, withdrawn_db))
  /\ (forall reader later,
        handle models (GetDocument 5) reader later sample_db
        = (Raise citations_are_ambiguous, sample_db)).
Proof.
  split.
  - destruct (withdrawn_document_is_closed models_with_citing_key 1 make_private admin
                (at_time noon) sample_db (Some false)) as [_ [_ H]].
    + reflexivity.
    + reflexivity.
    + unfold unique_ids. cbn. repeat constructor; cbn; lia.
    + destruct (H (PolicyDocument.set_updated_at (Some noon)
                     (apply_update make_private water_act)))
        as [Hread _]; [reflexivity|reflexivity|].
      exact Hread.
  - destruct (withdrawn_document_is_closed models 5 make_private citizen
                (at_time noon) sample_db (Some false)) as [_ [_ H]].
    + reflexivity.
    + reflexivity.
    + unfold unique_ids. cbn. repeat constructor; cbn; lia.
    + destruct (H security_plan) as [Hread _]; [reflexivity|reflexivity|].
      exact Hread.
Defined.

(** ** Queries with and without wildcards *)

Lemma lower_ascii_plain (c : ascii) : plain (lower_ascii c) = plain c.
Proof.
  destruct c as [[] [] [] [] [] [] [] []]; reflexivity.
Qed.

Lemma like_literal (c : ascii) (p s : list ascii) :
  plain c = true -> like (c :: p) s = match_one (like p) c s.
Proof.
  unfold plain. rewrite !andb_true_iff, !negb_true_iff. intros [[H1 H2] H3].
  cbn [like]. now rewrite H1, H2, H3.
Qed.

Lemma like_iprefix (q s : list ascii) :
  forallb plain q = true ->
  like (map lower_ascii q ++ ["%"%char]) (map lower_ascii s) = true ->
  iprefix q s = true.
Proof.
  revert s. induction q as [|c q IH]; intros s Hq H; [reflexivity|].
  cbn [forallb] in Hq. apply andb_true_iff in Hq. destruct Hq as [Hc Hq].
  cbn [map app] in H. rewrite like_literal in H by now rewrite lower_ascii_plain.
  destruct s as [|x s]; [discriminate|].
  cbn [map match_one] in H. apply andb_true_iff in H. destruct H as [Hx Hrest].
  cbn [iprefix]. rewrite Hx. now apply IH.
Qed.

Lemma like_ioccurs (q s : list ascii) :
  forallb plain q = true ->
  like ("%"%char :: map lower_ascii q ++ ["%"%char]) (map lower_ascii s) = true ->
  ioccurs q s = true.
Proof.
  intros Hq. induction s as [|x s IH]; intros H.
  - rewrite like_percent in H. cbn [map] in H. rewrite orb_false_r in H.
    cbn [ioccurs]. rewrite orb_false_r. now apply (like_iprefix q []).
  - cbn [map] in H. rewrite like_percent in H.
    apply orb_true_iff in H. cbn [ioccurs]. apply orb_true_iff.
    destruct H as [H|H].
    + left. now apply (like_iprefix q (x :: s)).
    + right. now apply IH.
Qed.

Lemma plain_no_backslash (q : list ascii) :
  forallb plain q = true -> existsb (fun c => Ascii.eqb c "\"%char) q = false.
Proof.
  induction q as [|c q IH]; [reflexivity|].
  cbn [forallb existsb]. rewrite andb_true_iff. intros [Hc Hq].
  rewrite (IH Hq), orb_false_r.
  unfold plain in Hc. rewrite !andb_true_iff, !negb_true_iff in Hc. tauto.
Qed.

Lemma plain_ilike_contains (text query : string) :
  wildcard_free query = true ->
  ilike_contains text query = icontains text query.
Proof.
  intros Hq. unfold wildcard_free in Hq.
  apply Bool.eq_true_iff_eq. split.
  - unfold ilike_contains, ilike, lower, icontains.
    rewrite !list_ascii_of_string_app, !map_app. cbn [list_ascii_of_string map app].
    now apply like_ioccurs.
  - apply icontains_ilike. unfold has_backslash. now apply plain_no_backslash.
Qed.

Lemma ilike_contains_everything (text : string) :
  ilike_contains text "" = true /\ ilike_contains text "%" = true.
Proof.
  unfold ilike_contains, ilike, lower. split; cbn [append list_ascii_of_string map].
  - apply like_percent_here, like_trailing_percent.
  - change (map lower_ascii ["%"%char; "%"%char; "%"%char])
      with ["%"%char; "%"%char; "%"%char].
    apply like_percent_here, like_percent_here, like_trailing_percent.
Qed.

(** X16.  The search pastes the query between two [%] into a LIKE pattern
    without escaping it.  For a query that holds none of [%], [_] and
    backslash, each of the five field tests is therefore exactly the
    case-insensitive substring test; the empty query and the query "%" pass
    the title test of every document, whatever its title. *)
Theorem plain_query_is_substring_search (query : string) (d : PolicyDocument.t) :
  (wildcard_free query = true ->
   title_ilike query d = icontains (PolicyDocument.title d) query
   /\ summary_ilike query d = icontains (PolicyDocument.summary d) query
   /\ content_ilike query d = icontains (PolicyDocument.content d) query
   /\ document_number_ilike query d
      = icontains (PolicyDocument.document_number d) query
   /\ keywords_ilike query d
      = match PolicyDocument.keywords d with
        | Some k => icontains k query
        | None => false
        end)
  /\ title_ilike "" d = true
  /\ title_ilike "%" d = true.
Proof.
  split; [|split; apply ilike_contains_everything].
  intros Hq.
  unfold title_ilike, summary_ilike, content_ilike, document_number_ilike,
    keywords_ilike, ilike_contains_opt.
  rewrite !(plain_ilike_contains _ query Hq).
  destruct (PolicyDocument.keywords d) as [k|];
    rewrite ?(plain_ilike_contains _ query Hq); auto.
Qed.

Example plain_query_is_substring_search_witness :
  title_ilike "water" water_act = icontains (PolicyDocument.title water_act) "water".
Proof.
  destruct (plain_query_is_substring_search "water" water_act) as [H _].
  apply H. reflexivity.
Defined.


(** ** The keywords of a report *)

Lemma str_split_nonempty (sep : ascii) (s : string) : str_split sep s <> [].
Proof.
  destruct s as [|c s]; cbn [str_split]; [discriminate|].
  destruct (Ascii.eqb c sep); [discriminate|].
  destruct (str_split sep s); discriminate.
Qed.

Lemma join_cons (sep : ascii) (w : string) (rest : list string) :
  rest <> [] -> join sep (w :: rest) = (w ++ String sep (join sep rest))%string.
Proof. destruct rest; [contradiction|reflexivity]. Qed.

Lemma join_str_split (sep : ascii) (s : string) : join sep (str_split sep s) = s.
Proof.
  induction s as [|c s IH]; [reflexivity|].
  cbn [str_split]. destruct (Ascii.eqb_spec c sep) as [->|Hne].
  - rewrite join_cons by apply str_split_nonempty. now rewrite IH.
  - pose proof (str_split_nonempty sep s) as Hn.
    destruct (str_split sep s) as [|w ws]; [contradiction|].
    destruct ws as [|w' ws].
    + cbn in *. now rewrite IH.
    + rewrite join_cons by discriminate. rewrite join_cons in IH by discriminate.
      cbn [append]. now rewrite IH.
Qed.

Lemma str_split_free (sep : ascii) (s : string) :
  Forall (fun w => free_of sep w = true) (str_split sep s).
Proof.
  induction s as [|c s IH]; [repeat constructor|].
  cbn [str_split]. destruct (Ascii.eqb_spec c sep) as [->|Hne].
  - constructor; [reflexivity|exact IH].
  - destruct (str_split sep s) as [|w ws]; [repeat constructor|].
    + unfold free_of. cbn. apply Ascii.eqb_neq in Hne.
      rewrite Ascii.eqb_sym, Hne. reflexivity.
    + inversion IH as [|? ? Hw Hws]; subst. constructor; [|exact Hws].
      unfold free_of in *. cbn [list_ascii_of_string existsb].
      apply Ascii.eqb_neq in Hne. rewrite Ascii.eqb_sym, Hne. exact Hw.
Qed.


(** X17.  The [trending_keywords] of a report are the first five pieces of
    the document's keyword text cut at the commas, in order and untrimmed:
    none for a document without keywords or with an empty text, otherwise
    between one and five, none of which holds a comma; when the text has at
    most five pieces, joining the list with commas gives the text back. *)
Theorem report_keywords (m : Mapping) (document_id : Z)
  (start_date end_date : datetime_tz)
  (current_user : User.t) (db : DB) (r : PolicyAnalyticsReport.t) :
  get_policy_analytics m document_id start_date end_date current_user db = Ok r ->
  exists doc,
    first (has_id document_id) (policy_documents db) = Some doc
    /\ match PolicyDocument.keywords doc with
       | None | Some EmptyString => PolicyAnalyticsReport.trending_keywords r = []
       | Some k =>
           PolicyAnalyticsReport.trending_keywords r
           = firstn 5 (str_split ","%char k)
           /\ 1 <= len (PolicyAnalyticsReport.trending_keywords r) <= 5
           /\ Forall (fun w => free_of ","%char w = true)
                (PolicyAnalyticsReport.trending_keywords r)
           /\ (len (str_split ","%char k) <= 5 ->
               join ","%char (PolicyAnalyticsReport.trending_keywords r) = k)
       end.
Proof.
  intros H.
  destruct (report_shape _ _ _ _ _ _ _ H) as [doc [divisor [_ [_ [Hdoc [_ [_ Hr]]]]]]].
  exists doc. split; [exact Hdoc|]. rewrite Hr.
  cbn [PolicyAnalyticsReport.trending_keywords].
  destruct (PolicyDocument.keywords doc) as [[|c k]|]; cbn [truthy];
    try reflexivity.
  set (text := String c k).
  split; [reflexivity|]. split; [|split].
  - pose proof (str_split_nonempty ","%char text) as Hn.
    unfold len. rewrite length_firstn.
    destruct (str_split ","%char text) as [|w ws]; [contradiction|].
    cbn [List.length]. lia.
  - apply Forall_forall. intros w Hw. apply in_firstn in Hw.
    pose proof (str_split_free ","%char text) as Hf.
    rewrite Forall_forall in Hf. now apply Hf.
  - intros Hlen. unfold len in Hlen.
    rewrite firstn_all2 by lia. apply join_str_split.
Qed.

Example report_keywords_witness :
  exists doc,
    first (has_id 1) (policy_documents sample_db) = Some doc
    /\ match PolicyDocument.keywords doc with
       | None | Some EmptyString =>
           PolicyAnalyticsReport.trending_keywords day_report_before = []
       | Some k =>
           PolicyAnalyticsReport.trending_keywords day_report_before
           = firstn 5 (str_split ","%char k)
           /\ 1 <= len (PolicyAnalyticsReport.trending_keywords day_report_before) <= 5
           /\ Forall (fun w => free_of ","%char w = true)
                (PolicyAnalyticsReport.trending_keywords day_report_before)
           /\ (len (str_split ","%char k) <= 5 ->
               join ","%char (PolicyAnalyticsReport.trending_keywords day_report_before)
               = k)
       end.
Proof.
  apply (report_keywords models_with_citing_key 1 (naive midnight) (naive end_of_day)
           admin sample_db day_report_before).
  vm_compute. reflexivity.
Defined.

(** ** Reports over windows *)

Lemma in_period_split (document_id : Z) (s m e : datetime) (a : PolicyAnalytics.t) :
  s <= m + 1 -> m <= e ->
  in_period document_id s e a
  = in_period document_id s m a || in_period document_id (m + 1) e a
  /\ in_period document_id s m a && in_period document_id (m + 1) e a = false.
Proof.
  intros Hs He. unfold in_period.
  destruct (PolicyAnalytics.policy_document_id a =? document_id); cbn [andb orb];
    [|split; reflexivity].
  destruct (Z.leb_spec s (PolicyAnalytics.analytics_date a));
    destruct (Z.leb_spec (PolicyAnalytics.analytics_date a) e);
    destruct (Z.leb_spec (PolicyAnalytics.analytics_date a) m);
    destruct (Z.leb_spec (m + 1) (PolicyAnalytics.analytics_date a));
    cbn [andb orb]; split; try reflexivity; lia.
Qed.

Lemma period_total_split (col : column) (document_id : Z) (s m e : datetime)
  (rows : list PolicyAnalytics.t) :
  s <= m + 1 -> m <= e ->
  period_total col document_id s e rows
  = period_total col document_id s m rows
    + period_total col document_id (m + 1) e rows.
Proof.
  intros Hs He. unfold period_total.
  induction rows as [|a rows IH]; [reflexivity|].
  cbn [filter].
  destruct (in_period_split document_id s m e a Hs He) as [H1 H2].
  rewrite H1.
  destruct (in_period document_id s m a);
    destruct (in_period document_id (m + 1) e a);
    cbn [orb map]; rewrite ?py_sum_cons; try discriminate H2; lia.
Qed.


(** X18.  Reports add up over adjacent windows: for [start <= mid + 1] and
    [mid <= end], each of the five totals of the report on [start, end] is
    the sum of the totals of the reports on [start, mid] and on
    [mid + 1, end]; no row is counted twice and none is lost at the seam.
    The bounds are compared by their wall clocks, as the query compares
    them. *)
Theorem reports_add_up (m : Mapping) (document_id : Z)
  (start_date mid next end_date : datetime_tz)
  (current_user : User.t) (db : DB)
  (whole left right : PolicyAnalyticsReport.t) :
  wall next = wall mid + 1 ->
  wall start_date <= wall mid + 1 -> wall mid <= wall end_date ->
  get_policy_analytics m document_id start_date end_date current_user db = Ok whole ->
  get_policy_analytics m document_id start_date mid current_user db = Ok left ->
  get_policy_analytics m document_id next end_date current_user db = Ok right ->
  PolicyAnalyticsReport.total_views whole
  = PolicyAnalyticsReport.total_views left + PolicyAnalyticsReport.total_views right
  /\ PolicyAnalyticsReport.total_downloads whole
     = PolicyAnalyticsReport.total_downloads left
       + PolicyAnalyticsReport.total_downloads right
  /\ PolicyAnalyticsReport.total_comments whole
     = PolicyAnalyticsReport.total_comments left
       + PolicyAnalyticsReport.total_comments right
  /\ PolicyAnalyticsReport.total_citations whole
     = PolicyAnalyticsReport.total_citations left
       + PolicyAnalyticsReport.total_citations right
  /\ PolicyAnalyticsReport.search_appearances whole
     = PolicyAnalyticsReport.search_appearances left
       + PolicyAnalyticsReport.search_appearances right.
Proof.
  intros Hnext Hs He Hw Hl Hr.
  pose proof (report_totals _ _ _ _ _ _ _ Hw) as Tw.
  pose proof (report_totals _ _ _ _ _ _ _ Hl) as Tl.
  pose proof (report_totals _ _ _ _ _ _ _ Hr) as Tr.
  rewrite Hnext in Tr.
  pose proof (fun col => period_total_split col document_id (wall start_date)
                           (wall mid) (wall end_date) (policy_analytics db) Hs He)
    as Hsplit.
  repeat split.
  - specialize (Tw ColViews). specialize (Tl ColViews). specialize (Tr ColViews).
    specialize (Hsplit ColViews). cbn [report_total] in *. congruence.
  - specialize (Tw ColDownloads). specialize (Tl ColDownloads).
    specialize (Tr ColDownloads). specialize (Hsplit ColDownloads).
    cbn [report_total] in *. congruence.
  - specialize (Tw ColComments). specialize (Tl ColComments).
    specialize (Tr ColComments). specialize (Hsplit ColComments).
    cbn [report_total] in *. congruence.
  - specialize (Tw ColCitations). specialize (Tl ColCitations).
    specialize (Tr ColCitations). specialize (Hsplit ColCitations).
    cbn [report_total] in *. congruence.
  - specialize (Tw ColSearch). specialize (Tl ColSearch). specialize (Tr ColSearch).
    specialize (Hsplit ColSearch). cbn [report_total] in *. congruence.
Qed.

Example reports_add_up_witness :
  PolicyAnalyticsReport.total_views whole_day_report
  = PolicyAnalyticsReport.total_views early_report
    + PolicyAnalyticsReport.total_views late_report
  /\ PolicyAnalyticsReport.total_downloads whole_day_report
     = PolicyAnalyticsReport.total_downloads early_report
       + PolicyAnalyticsReport.total_downloads late_report
  /\ PolicyAnalyticsReport.total_comments whole_day_report
     = PolicyAnalyticsReport.total_comments early_report
       + PolicyAnalyticsReport.total_comments late_report
  /\ PolicyAnalyticsReport.total_citations whole_day_report
     = PolicyAnalyticsReport.total_citations early_report
       + PolicyAnalyticsReport.total_citations late_report
  /\ PolicyAnalyticsReport.search_appearances whole_day_report
     = PolicyAnalyticsReport.search_appearances early_report
       + PolicyAnalyticsReport.search_appearances late_report.
Proof.
  apply (reports_add_up models_with_citing_key 1 (naive midnight) (naive morning)
           (naive (morning + 1)) (naive end_of_day) admin engaged_db
           whole_day_report early_report late_report).
  - reflexivity.
  - vm_compute. discriminate.
  - vm_compute. discriminate.
  - vm_compute. reflexivity.
  - vm_compute. reflexivity.
  - vm_compute. reflexivity.
Defined.






(** ** What a result entry shows *)

Lemma filter_passes_value (param : option string) (col v : string) :
  truthy param = Some v -> filter_passes param (Some col) = true -> col = v.
Proof.
  unfold filter_passes. intros -> H. cbn in H. now apply String.eqb_eq in H.
Qed.

(** X20.  Every entry of a search result shows a stored public document: it
    carries that document's id, title, number, type, category, department,
    summary, effective date and status, and for each filter that is in
    force (supplied and not empty) the entry has exactly the filter's
    value.  A request that names no status is answered with active
    documents only, and one that names no limit with at most 100 entries.
    A search that raises leaves the store as it was. *)
Theorem search_entries_show_documents (m : Mapping) (p : SearchParams) (clk : Clock)
  (db : DB) :
  match search_request m p clk db with
  | (Ok results, _) =>
      len results <= default 100 (param_limit p)
      /\ forall r, In r results ->
           (exists d,
              In d (policy_documents db)
              /\ PolicyDocument.is_public d = Some true
              /\ PolicySearchResult.id r = PolicyDocument.id d
              /\ PolicySearchResult.title r = PolicyDocument.title d
              /\ PolicySearchResult.document_number r
                 = PolicyDocument.document_number d
              /\ PolicySearchResult.document_type r = PolicyDocument.document_type d
              /\ PolicySearchResult.category r = PolicyDocument.category d
              /\ PolicySearchResult.department r = PolicyDocument.department d
              /\ PolicySearchResult.summary r = PolicyDocument.summary d
              /\ PolicySearchResult.effective_date r
                 = PolicyDocument.effective_date d
              /\ Some (PolicySearchResult.status r) = PolicyDocument.status d)
           /\ (param_status p = None -> PolicySearchResult.status r = "active")
           /\ (forall v, truthy (param_status p) = Some v ->
                         PolicySearchResult.status r = v)
           /\ (forall v, truthy (param_document_type p) = Some v ->
                         PolicySearchResult.document_type r = v)
           /\ (forall v, truthy (param_category p) = Some v ->
                         PolicySearchResult.category r = v)
           /\ (forall v, truthy (param_department p) = Some v ->
                         PolicySearchResult.department r = v)
  | (Raise _, db') => db' = db
  end.
Proof.
  unfold search_request.
  pose proof (page_bound (param_query p) (default 0 (param_skip p))
                (default 100 (param_limit p)) (param_document_type p)
                (param_category p) (param_department p)
                (Some (default "active" (param_status p)))
                (policy_documents db)) as Hbound.
  destruct (search_policy_documents m (param_query p) (default 0 (param_skip p))
              (default 100 (param_limit p)) (param_document_type p)
              (param_category p) (param_department p)
              (Some (default "active" (param_status p))) clk db)
    as [[results|e] db'] eqn:Hsearch; [|now apply search_raised in Hsearch].
  apply search_returned in Hsearch. destruct Hsearch as [_ [E _]].
  split; [now apply Hbound|].
  intros r Hr.
  destruct (search_results_public _ _ _ _ _ _ _ _ _ E r Hr)
    as [d [Hd [Hid [Hpub [Hst [Hty [Hcat [Hdep Hmade]]]]]]]].
  unfold made_from, make_result in Hmade. cbn [fst snd] in Hmade.
  destruct (PolicyDocument.status d) as [st|] eqn:Hstatus; [|discriminate].
  injection Hmade as Hr'.
  assert (Hfields :
            PolicySearchResult.title r = PolicyDocument.title d
            /\ PolicySearchResult.document_number r = PolicyDocument.document_number d
            /\ PolicySearchResult.document_type r = PolicyDocument.document_type d
            /\ PolicySearchResult.category r = PolicyDocument.category d
            /\ PolicySearchResult.department r = PolicyDocument.department d
            /\ PolicySearchResult.summary r = PolicyDocument.summary d
            /\ PolicySearchResult.effective_date r = PolicyDocument.effective_date d
            /\ PolicySearchResult.status r = st).
  { rewrite <- Hr'. repeat split. }
  destruct Hfields as [F1 [F2 [F3 [F4 [F5 [F6 [F7 F8]]]]]]].
  split; [|split; [|split; [|split; [|split]]]].
  - exists d. rewrite F1, F2, F3, F4, F5, F6, F7, F8, <- Hid. auto 12.
  - intros Hnone. rewrite Hnone in Hst. cbn in Hst.
    apply String.eqb_eq in Hst. congruence.
  - intros v Hv.
    assert (Hv' : truthy (Some (default "active" (param_status p))) = Some v).
    { destruct (param_status p) as [[|c s]|]; cbn in *; congruence. }
    rewrite F8. now apply (filter_passes_value _ _ _ Hv').
  - intros v Hv. rewrite F3. now apply (filter_passes_value _ _ _ Hv).
  - intros v Hv. rewrite F4. now apply (filter_passes_value _ _ _ Hv).
  - intros v Hv. rewrite F5. now apply (filter_passes_value _ _ _ Hv).
Qed.

(** ** The module as models.py maps it *)

(** X21.  Under models.py no request gets past its first query.
    [PolicyDocument.citations] names no foreign key while [policy_citations]
    holds two to [policy_documents], so the mappers do not configure, and
    naming the citing key on that one relationship is enough to configure
    them.  Every request is therefore answered with an error and the store
    never changes: with 403 where the handler checks the role first and the
    caller has neither role, and with the configuration error everywhere
    else. *)
Theorem requests_raise_under_models (req : Request) (current_user : User.t)
  (clk : Clock) (db : DB) (calls : list call) :
  configure_mappers models = Raise citations_are_ambiguous
  /\ configure_mappers models_with_citing_key = Ok tt
  /\ handle models req current_user clk db
     = (Raise (if role_gated req && negb (elevated current_user)
               then not_enough_permissions
               else citations_are_ambiguous), db)
  /\ run models calls db = db.
Proof.
  assert (Hone : forall req user clk db,
            handle models req user clk db
            = (Raise (if role_gated req && negb (elevated user)
                      then not_enough_permissions
                      else citations_are_ambiguous), db)).
  { clear. intros req user clk db.
    destruct req; cbn [handle role_gated andb]; unfold respond.
    - unfold create_policy_document, on_first_query.
      rewrite models_do_not_configure. now destruct (elevated user).
    - unfold search_request, search_policy_documents, on_first_query.
      now rewrite models_do_not_configure.
    - unfold get_policy_documents. now rewrite models_do_not_configure.
    - unfold get_policy_document, on_first_query.
      now rewrite models_do_not_configure.
    - unfold update_policy_document, on_first_query.
      rewrite models_do_not_configure. now destruct (elevated user).
    - unfold add_policy_comment, on_first_query.
      now rewrite models_do_not_configure.
    - unfold get_policy_comments. now rewrite models_do_not_configure.
    - unfold get_policy_stats. rewrite models_do_not_configure.
      now destruct (elevated user).
    - unfold get_policy_analytics. rewrite models_do_not_configure.
      now destruct (elevated user).
    - unfold get_policy_recommendations. now rewrite models_do_not_configure. }
  split; [reflexivity|]. split; [reflexivity|]. split; [apply Hone|].
  induction calls as [|[[req0 user0] clk0] calls IH]; [reflexivity|].
  change (run models ((req0, user0, clk0) :: calls) db)
    with (run models calls (snd (handle models req0 user0 clk0 db))).
  now rewrite Hone.
Qed.
